(** * Recip.ez: the recipe-suggestion pipeline, embedded and verified

    A shallow embedding of [services/OpenAIService.ts], of the recipe part of
    [services/DatabaseService.ts] and of the intent classification and the
    save action of [screens/AIChatScreen.tsx], followed by the properties the
    specification states about them.

    Conventions of the embedding.
    - JavaScript values are the inductive [JS.value]; a property read that
      finds nothing yields [VUndefined], a read on [null] or [undefined]
      raises a [TypeError].
    - [throw] / [try ... catch] is the error monad [JS.completion]; code that
      also draws from [Math.random] runs in the state-and-error monad [JS.M],
      whose state is the number of draws made so far.
    - What the host supplies ([fetch], [JSON.parse], [Math.random]) is the
      record [JS.Host]; every theorem quantifies over it.
    - Strings are held in UTF-8: a character of the ASCII range is one
      byte, every other code point a sequence of two to four bytes that are
      all 128 or above.  White space ([\s], [trim], [parseInt]) is the
      white space of ECMAScript, one to three bytes long; [toLowerCase] maps
      every code point whose lower-case form has an ASCII character in it.
    - [console.log] / [console.error] have no effect on any result and are
      left out. *)

From Stdlib Require Import String Ascii List ZArith NArith Bool Lia QArith.
From Stdlib Require Import Sorting.Permutation Sorting.Sorted DecimalString.
From Equations Require Import Equations.
Import ListNotations.

Local Open Scope list_scope.
Local Open Scope string_scope.
Local Open Scope Z_scope.

(* ===================================================================== *)
(** ** The JavaScript fragment the services use *)
(* ===================================================================== *)

Module JS.

(** Values: what [JSON.parse] can build, plus [undefined].  A JSON number is
    kept as a rational; the services only ever test it for being zero. *)
#[warnings="-register-all"]
Inductive value : Type :=
| VUndefined
| VNull
| VBool (b : bool)
| VNum (n : Q)
| VStr (s : string)
| VArr (elems : list value)
| VObj (fields : list (string * value)).

Inductive error : Type :=
| TypeError                 (* property access on null / undefined *)
| SyntaxError               (* JSON.parse / response.json() on bad text *)
| NetworkError              (* fetch() rejected *)
| Error (message : string). (* new Error(message) *)

Inductive completion (A : Type) : Type :=
| Normal (a : A)
| Throw (e : error).
Arguments Normal {A} a.
Arguments Throw {A} e.

Definition bindC {A B} (c : completion A) (k : A -> completion B) : completion B :=
  match c with
  | Normal a => k a
  | Throw e => Throw e
  end.

(** [try { body } catch (e) { handler e }] *)
Definition try_catch {A} (body : completion A) (handler : error -> completion A)
  : completion A :=
  match body with
  | Normal a => Normal a
  | Throw e => handler e
  end.

(** State (the count of [Math.random] draws) and errors. *)
Definition M (A : Type) : Type := nat -> completion A * nat.

Definition ret {A} (a : A) : M A := fun st => (Normal a, st).
Definition throw {A} (e : error) : M A := fun st => (Throw e, st).
Definition bind {A B} (m : M A) (k : A -> M B) : M B :=
  fun st =>
    match m st with
    | (Normal a, st') => k a st'
    | (Throw e, st') => (Throw e, st')
    end.
Definition lift {A} (c : completion A) : M A := fun st => (c, st).
Definition try_catchM {A} (body : M A) (handler : error -> M A) : M A :=
  fun st =>
    match body st with
    | (Normal a, st') => (Normal a, st')
    | (Throw e, st') => handler e st'
    end.

(** ToBoolean *)
Definition truthy (v : value) : bool :=
  match v with
  | VUndefined | VNull => false
  | VBool b => b
  | VNum n => negb (Qeq_bool n 0)
  | VStr s => negb (String.eqb s "")
  | VArr _ | VObj _ => true
  end.

Fixpoint lookup (k : string) (fields : list (string * value)) : option value :=
  match fields with
  | [] => None
  | (k', v) :: rest => if String.eqb k k' then Some v else lookup k rest
  end.

(** [o.k = v] on the fields of an object: the value is replaced where the key
    is, or the key is appended. *)
Fixpoint assign (k : string) (v : value) (fields : list (string * value))
  : list (string * value) :=
  match fields with
  | [] => [(k, v)]
  | (k', v') :: rest =>
      if String.eqb k k' then (k, v) :: rest else (k', v') :: assign k v rest
  end.

(** [v.k] for the keys the services read ([choices], [message], [content],
    [recipes], [name], [glass], [ingredients], [instructions]): none of them is
    a built-in property of a string, number, boolean or array, so only an
    object can answer with something else than [undefined]. *)
Definition get (v : value) (k : string) : completion value :=
  match v with
  | VUndefined | VNull => Throw TypeError
  | VObj fields =>
      match lookup k fields with
      | Some x => Normal x
      | None => Normal VUndefined
      end
  | _ => Normal VUndefined
  end.

(** [v[0]] *)
Definition get0 (v : value) : completion value :=
  match v with
  | VUndefined | VNull => Throw TypeError
  | VArr elems => Normal (nth 0 elems VUndefined)
  | VStr (String c _) => Normal (VStr (String c ""))
  | VObj fields =>
      match lookup "0" fields with
      | Some x => Normal x
      | None => Normal VUndefined
      end
  | _ => Normal VUndefined
  end.

(** [v.k = x].  Only objects are assigned to in the services (the assignment
    follows a completeness check that nothing but an object passes); a
    primitive target raises in strict mode. *)
Definition set (v : value) (k : string) (x : value) : completion value :=
  match v with
  | VObj fields => Normal (VObj (assign k x fields))
  | _ => Throw TypeError
  end.

Definition isArray (v : value) : bool :=
  match v with
  | VArr _ => true
  | _ => false
  end.

(** [xs.includes(v)] for an array of string literals (SameValueZero). *)
Definition includes (xs : list string) (v : value) : bool :=
  match v with
  | VStr s => existsb (String.eqb s) xs
  | _ => false
  end.

(** A number that may be [NaN].  The counts the services handle are integers;
    they are kept exact here.  A double holds them exactly up to 2^53, and
    rounding above that bound does not change a comparison with, or a clamp
    to, the small constants the code uses. *)
Definition number : Type := option Z.
Definition NaN : number := None.

Definition Math_max (a b : number) : number :=
  match a, b with
  | Some x, Some y => Some (Z.max x y)
  | _, _ => NaN
  end.
Definition Math_min (a b : number) : number :=
  match a, b with
  | Some x, Some y => Some (Z.min x y)
  | _, _ => NaN
  end.

(** The three services of the host the code calls. *)
Record ChatRequest : Type := {
  url : string;
  authorization : string;
  model : string;
  messages : list (string * string);   (* role, content *)
  temperature : Q;
  max_tokens : Z;
  response_format : option string
}.

Inductive FetchOutcome : Type :=
| Rejected                                  (* the promise of fetch() rejects *)
| Response (status : Z) (json : option value).
    (* a response arrived; [json] is what [response.json()] resolves to,
       [None] when it rejects because the body is not JSON *)

(** [response.ok]: the status is in the range 200-299. *)
Definition ok (status : Z) : bool := (200 <=? status) && (status <=? 299).

Record Host : Type := {
  fetch : ChatRequest -> FetchOutcome;
  (* JSON.parse(v): [None] when it throws a SyntaxError *)
  JSON_parse : value -> option value;
  (* the i-th call of Math.random() returns (Math_random i mod 2^53) / 2^53 *)
  Math_random : nat -> N
}.

End JS.

Declare Scope js_scope.
Delimit Scope js_scope with js.
Notation "x <- c ;; k" := (JS.bind c (fun x => k))
  (at level 61, c at next level, right associativity) : js_scope.
Notation "x <-- c ;; k" := (JS.bindC c (fun x => k))
  (at level 61, c at next level, right associativity) : js_scope.

(* ===================================================================== *)
(** ** Strings: the methods and the regular expression the code applies *)
(* ===================================================================== *)

Module Str.

Definition is_upper (c : ascii) : bool :=
  let n := nat_of_ascii c in (65 <=? n)%nat && (n <=? 90)%nat.
Definition is_digit (c : ascii) : bool :=
  let n := nat_of_ascii c in (48 <=? n)%nat && (n <=? 57)%nat.

Definition is_ascii (c : ascii) : bool := (nat_of_ascii c <? 128)%nat.

Definition byte_is (c : ascii) (n : nat) : bool := (nat_of_ascii c =? n)%nat.
Definition byte_in (c : ascii) (lo hi : nat) : bool :=
  let n := nat_of_ascii c in (lo <=? n)%nat && (n <=? hi)%nat.

(** White space, as [\s], [trim] and [parseInt] understand it: the
    productions WhiteSpace and LineTerminator of ECMAScript.  In UTF-8 they
    take one, two or three bytes. *)

(** U+0009 to U+000D (tab, line feed, vertical tab, form feed, carriage
    return) and U+0020 (space). *)
Definition white1 (c1 : ascii) : bool :=
  byte_in c1 9 13 || byte_is c1 32.

(** U+00A0 (no-break space). *)
Definition white2 (c1 c2 : ascii) : bool :=
  byte_is c1 194 && byte_is c2 160.

(** U+1680; U+2000 to U+200A, U+2028, U+2029, U+202F; U+205F; U+3000;
    U+FEFF. *)
Definition white3 (c1 c2 c3 : ascii) : bool :=
  (byte_is c1 225 && byte_is c2 154 && byte_is c3 128)
  || (byte_is c1 226 && byte_is c2 128
      && (byte_in c3 128 138 || byte_in c3 168 169 || byte_is c3 175))
  || (byte_is c1 226 && byte_is c2 129 && byte_is c3 159)
  || (byte_is c1 227 && byte_is c2 128 && byte_is c3 128)
  || (byte_is c1 239 && byte_is c2 187 && byte_is c3 191).

(** The number of bytes of the white-space character at the head of [s];
    0 when [s] does not start with one. *)
Definition white_length (s : string) : nat :=
  match s with
  | String c1 rest1 =>
      if white1 c1 then 1%nat
      else
        match rest1 with
        | String c2 rest2 =>
            if white2 c1 c2 then 2%nat
            else
              match rest2 with
              | String c3 _ => if white3 c1 c2 c3 then 3%nat else 0%nat
              | EmptyString => 0%nat
              end
        | EmptyString => 0%nat
        end
  | EmptyString => 0%nat
  end.

(** ASCII letters. *)
Definition lower (c : ascii) : ascii :=
  if is_upper c then ascii_of_nat (nat_of_ascii c + 32) else c.

(** U+0307, the combining dot above. *)
Definition dot_above : string :=
  String (ascii_of_nat 204) (String (ascii_of_nat 135) EmptyString).

(** [s.toLowerCase()].  The letters A to Z go to a to z; U+212A (the Kelvin
    sign, bytes 226 132 170) goes to k, and U+0130 (capital I with dot above,
    bytes 196 176) to i followed by U+0307.  These are all the code points
    whose lower-case form contains an ASCII character.  Every other code
    point is, in JavaScript, either kept or mapped to code points outside
    ASCII, which ones depending on the Unicode tables of the engine; its
    bytes are kept here.  The services only ever search the result for ASCII
    words ([includes] with a literal), and where those occur is the same
    either way. *)
Fixpoint toLowerCase (s : string) : string :=
  match s with
  | EmptyString => EmptyString
  | String c1 rest1 =>
      if byte_is c1 196 then
        match rest1 with
        | String c2 rest2 =>
            if byte_is c2 176
            then String "i" (dot_above ++ toLowerCase rest2)
            else String c1 (toLowerCase rest1)
        | EmptyString => String c1 EmptyString
        end
      else if byte_is c1 226 then
        match rest1 with
        | String c2 (String c3 rest3) =>
            if byte_is c2 132 && byte_is c3 170
            then String "k" (toLowerCase rest3)
            else String c1 (toLowerCase rest1)
        | _ => String c1 (toLowerCase rest1)
        end
      else String (lower c1) (toLowerCase rest1)
  end.

(** [s.includes(needle)] *)
Fixpoint includes (s needle : string) : bool :=
  if String.prefix needle s then true
  else match s with
       | EmptyString => false
       | String _ rest => includes rest needle
       end.

(** [s.trimStart()]: the white-space characters at the head go, one
    character (one to three bytes) at a time. *)
Fixpoint trimStart (s : string) : string :=
  match s with
  | String _ rest1 =>
      match white_length s with
      | 1%nat => trimStart rest1
      | 2%nat =>
          match rest1 with
          | String _ rest2 => trimStart rest2
          | EmptyString => s
          end
      | 3%nat =>
          match rest1 with
          | String _ (String _ rest3) => trimStart rest3
          | _ => s
          end
      | _ => s
      end
  | EmptyString => EmptyString
  end.

(** [s] is made of white-space characters only. *)
Fixpoint blank (s : string) : bool :=
  match s with
  | String _ rest1 =>
      match white_length s with
      | 1%nat => blank rest1
      | 2%nat =>
          match rest1 with
          | String _ rest2 => blank rest2
          | EmptyString => false
          end
      | 3%nat =>
          match rest1 with
          | String _ (String _ rest3) => blank rest3
          | _ => false
          end
      | _ => false
      end
  | EmptyString => true
  end.

(** [s.trimEnd()]: the text up to the point from which only white space
    follows. *)
Fixpoint trimEnd (s : string) : string :=
  match s with
  | EmptyString => EmptyString
  | String c rest => if blank s then EmptyString else String c (trimEnd rest)
  end.

(** [s.trim()] *)
Definition trim (s : string) : string := trimEnd (trimStart s).

(** [w] is a prefix of [s] up to ASCII case: the [i] flag, for the ASCII
    words of the pattern.  Without the [u] flag a character outside ASCII is
    never folded onto an ASCII one, so it matches none of their letters. *)
Fixpoint prefix_ci (w s : string) : bool :=
  match w, s with
  | EmptyString, _ => true
  | String a w', String b s' => Ascii.eqb (lower a) (lower b) && prefix_ci w' s'
  | String _ _, EmptyString => false
  end.

Fixpoint take (n : nat) (s : string) : string :=
  match n, s with
  | S n', String c rest => String c (take n' rest)
  | _, _ => EmptyString
  end.

(** What [String.prototype.match] returns for a pattern with two groups and
    no [g] flag: the whole match and the two captures. *)
Record RegExpMatch : Type := {
  whole : string;   (* m[0] *)
  group1 : string;  (* m[1] *)
  group2 : string   (* m[2] *)
}.

(** The pattern [/(\d+)\s*(recipe|cocktail|drink|suggestion)/i], matched the
    way a backtracking engine does: alternatives left to right, [\s*] and
    [\d+] greedy, giving characters back when what follows fails. *)
Definition alternatives : list string :=
  ["recipe"; "cocktail"; "drink"; "suggestion"].

(** [(recipe|cocktail|drink|suggestion)] at the head of [s]. *)
Definition match_alternative (s : string) : option string :=
  match find (fun w => prefix_ci w s) alternatives with
  | Some w => Some (take (String.length w) s)
  | None => None
  end.

(** [\s*(...)] at the head of [s]: the white space consumed and the word.
    The star takes one white-space character at a time. *)
Fixpoint match_spaces (s : string) : option (string * string) :=
  let stop :=
    match match_alternative s with
    | Some w => Some (EmptyString, w)
    | None => None
    end in
  let after (n : nat) (further : option (string * string)) :=
    match further with
    | Some (sp, w) => Some (take n s ++ sp, w)
    | None => stop
    end in
  match s with
  | String _ rest1 =>
      match white_length s with
      | 1%nat => after 1%nat (match_spaces rest1)
      | 2%nat =>
          match rest1 with
          | String _ rest2 => after 2%nat (match_spaces rest2)
          | EmptyString => stop
          end
      | 3%nat =>
          match rest1 with
          | String _ (String _ rest3) => after 3%nat (match_spaces rest3)
          | _ => stop
          end
      | _ => stop
      end
  | EmptyString => stop
  end.

(** [(\d+)\s*(...)] at the head of [s]. *)
Fixpoint match_here (s : string) : option RegExpMatch :=
  match s with
  | String c rest =>
      if is_digit c then
        match match_here rest with
        | Some m =>
            Some {| whole := String c (whole m);
                    group1 := String c (group1 m);
                    group2 := group2 m |}
        | None =>
            match match_spaces rest with
            | Some (sp, w) =>
                Some {| whole := String c (sp ++ w);
                        group1 := String c EmptyString;
                        group2 := w |}
            | None => None
            end
        end
      else None
  | EmptyString => None
  end.

(** [s.match(pattern)]: the match at the leftmost position that has one. *)
Fixpoint match_number_pattern (s : string) : option RegExpMatch :=
  match match_here s with
  | Some m => Some m
  | None =>
      match s with
      | String _ rest => match_number_pattern rest
      | EmptyString => None
      end
  end.

Definition digit_value (c : ascii) : Z := Z.of_nat (nat_of_ascii c) - 48.

Definition decimal_digit (c : ascii) : option Z :=
  if is_digit c then Some (digit_value c) else None.

Definition hex_digit (c : ascii) : option Z :=
  let n := nat_of_ascii c in
  if is_digit c then Some (digit_value c)
  else if (97 <=? n)%nat && (n <=? 102)%nat then Some (Z.of_nat n - 87)
  else if (65 <=? n)%nat && (n <=? 70)%nat then Some (Z.of_nat n - 55)
  else None.

(** The longest run of digits of the radix at the head of [s], read onto
    [acc]; [None] stands for "no digit read yet". *)
Fixpoint parse_digits (digit : ascii -> option Z) (radix : Z) (s : string)
  (acc : option Z) : option Z :=
  match s with
  | String c rest =>
      match digit c with
      | Some d =>
          parse_digits digit radix rest
            (Some (radix * match acc with Some a => a | None => 0 end + d))
      | None => acc
      end
  | EmptyString => acc
  end.

Definition is_x (c : ascii) : bool :=
  Ascii.eqb c "x"%char || Ascii.eqb c "X"%char.

(** [parseInt(s)] without a radix argument: leading white space is skipped,
    a sign is read, a prefix [0x] selects base 16, then the longest run of
    digits is read; the result is [NaN] when there is none. *)
Definition parseInt (s : string) : JS.number :=
  let s := trimStart s in
  let (sign, s) :=
    match s with
    | String c rest =>
        if Ascii.eqb c "-"%char then (-1, rest)
        else if Ascii.eqb c "+"%char then (1, rest)
        else (1, s)
    | EmptyString => (1, s)
    end in
  let magnitude :=
    match s with
    | String z (String x rest) =>
        if Ascii.eqb z "0"%char && is_x x
        then parse_digits hex_digit 16 rest None
        else parse_digits decimal_digit 10 s None
    | _ => parse_digits decimal_digit 10 s None
    end in
  match magnitude with
  | Some m => Some (sign * m)
  | None => None
  end.

(** Number to string, as a template literal does it. *)
Definition of_number (n : JS.number) : string :=
  match n with
  | None => "NaN"
  | Some z => NilZero.string_of_int (Z.to_int z)
  end.

(** [s.split(c)[0]]: the text before the first [c]. *)
Fixpoint before (c : ascii) (s : string) : string :=
  match s with
  | EmptyString => EmptyString
  | String a rest => if Ascii.eqb a c then EmptyString else String a (before c rest)
  end.

(** A JavaScript literal written with [\n] escapes. *)
Definition newline : string := String (ascii_of_nat 10) EmptyString.
Definition lines (ls : list string) : string := String.concat newline ls.
Definition quote : string := String (ascii_of_nat 34) EmptyString.

(** [JSON.stringify(s)] for a string [s]: the quotation mark and the reverse
    solidus are escaped, control characters take their short escape or the
    form u00XX, every other character stands for itself. *)
Definition hex_char (n : nat) : ascii :=
  if (n <? 10)%nat then ascii_of_nat (48 + n) else ascii_of_nat (87 + n).

Definition json_escape (c : ascii) : string :=
  let n := nat_of_ascii c in
  if (n =? 34)%nat then "\" ++ quote
  else if (n =? 92)%nat then "\\"
  else if (n =? 8)%nat then "\b"
  else if (n =? 12)%nat then "\f"
  else if (n =? 10)%nat then "\n"
  else if (n =? 13)%nat then "\r"
  else if (n =? 9)%nat then "\t"
  else if (n <? 32)%nat
       then "\u00" ++ String (hex_char (n / 16)) (String (hex_char (n mod 16)) EmptyString)
  else String c EmptyString.

Fixpoint json_escaped (s : string) : string :=
  match s with
  | EmptyString => EmptyString
  | String c rest => json_escape c ++ json_escaped rest
  end.

Definition json_string (s : string) : string := quote ++ json_escaped s ++ quote.

End Str.


(* ===================================================================== *)
(** ** services/DatabaseService.ts: the records and the recipes table *)
(* ===================================================================== *)

Module Ingredient.
Record t : Type := {
  id : Z;
  name : string;
  category : string;
  quantity : Q;
  dateAdded : string
}.
End Ingredient.

Module Recipe.
Record t : Type := {
  id : Z;
  name : string;
  ingredients : string;
  instructions : string;
  glass : string;
  source : string;
  dateAdded : string
}.

(** [Omit<Recipe, 'id'>] *)
Record without_id : Type := {
  name' : string;
  ingredients' : string;
  instructions' : string;
  glass' : string;
  source' : string;
  dateAdded' : string
}.
End Recipe.

Module ChatMessage.
Inductive Sender : Type := user | agent.

Record t : Type := {
  id : Z;
  sender : Sender;
  message : string;
  timestamp : string
}.

(** [Omit<ChatMessage, 'id'>] *)
Record without_id : Type := {
  sender' : Sender;
  message' : string;
  timestamp' : string
}.
End ChatMessage.

Module DatabaseService.

(** The [recipes] table of [init]: its rows in insertion order, and the
    largest row id handed out so far ([INTEGER PRIMARY KEY AUTOINCREMENT]). *)
Record Table : Type := {
  rows : list Recipe.t;
  last_id : Z
}.

Definition empty : Table := {| rows := []; last_id := 0 |}.

(** [this.db]: [None] until [init] has run. *)
Definition Handle : Type := option Table.

(** [INSERT INTO recipes (name, ingredients, instructions, glass, source,
    dateAdded) VALUES (?, ?, ?, ?, ?, ?)]: every column is [TEXT NOT NULL] and
    every bound parameter is a string, so the row is always accepted. *)
Definition row (rowid : Z) (r : Recipe.without_id) : Recipe.t :=
  {| Recipe.id := rowid;
     Recipe.name := Recipe.name' r;
     Recipe.ingredients := Recipe.ingredients' r;
     Recipe.instructions := Recipe.instructions' r;
     Recipe.glass := Recipe.glass' r;
     Recipe.source := Recipe.source' r;
     Recipe.dateAdded := Recipe.dateAdded' r |}.

Definition insert (tbl : Table) (r : Recipe.without_id) : Z * Table :=
  let rowid := last_id tbl + 1 in
  (rowid, {| rows := (rows tbl ++ [row rowid r])%list; last_id := rowid |}).

(** [ORDER BY dateAdded DESC] under the byte-wise collation of TEXT; rows
    with the same date stay in the order of their insertion.  [insert_desc]
    puts a row in front of rows inserted after it, already sorted. *)
Fixpoint insert_desc (r : Recipe.t) (sorted : list Recipe.t) : list Recipe.t :=
  match sorted with
  | [] => [r]
  | x :: rest =>
      if String.ltb (Recipe.dateAdded r) (Recipe.dateAdded x)
      then x :: insert_desc r rest
      else r :: x :: rest
  end.

Definition order_by_dateAdded_desc (l : list Recipe.t) : list Recipe.t :=
  fold_right insert_desc [] l.

(** [addRecipe]: [this.db!.runAsync(INSERT ...)], then [lastInsertRowId]. *)
Definition addRecipe (db : Handle) (recipe : Recipe.without_id)
  : JS.completion (Z * Handle) :=
  match db with
  | None => JS.Throw JS.TypeError
  | Some tbl => let (rowid, tbl') := insert tbl recipe in JS.Normal (rowid, Some tbl')
  end.

(** [getAllRecipes]: [SELECT * FROM recipes ORDER BY dateAdded DESC]. *)
Definition getAllRecipes (db : Handle) : JS.completion (list Recipe.t) :=
  match db with
  | None => JS.Throw JS.TypeError
  | Some tbl => JS.Normal (order_by_dateAdded_desc (rows tbl))
  end.

(** [DELETE FROM recipes WHERE id = ?]: the rows with that id go; the
    counter of [AUTOINCREMENT] stays. *)
Definition delete (tbl : Table) (id : Z) : Table :=
  {| rows := filter (fun r => negb (Recipe.id r =? id)) (rows tbl);
     last_id := last_id tbl |}.

Definition deleteRecipe (db : Handle) (id : Z) : JS.completion Handle :=
  match db with
  | None => JS.Throw JS.TypeError
  | Some tbl => JS.Normal (Some (delete tbl id))
  end.

(** The [chat_history] table, held like the [recipes] table. *)
Record ChatTable : Type := {
  chat_rows : list ChatMessage.t;
  chat_last_id : Z
}.

Definition chat_empty : ChatTable := {| chat_rows := []; chat_last_id := 0 |}.

Definition ChatHandle : Type := option ChatTable.

(** [INSERT INTO chat_history (sender, message, timestamp) VALUES (?, ?, ?)] *)
Definition addChatMessage (db : ChatHandle) (message : ChatMessage.without_id)
  : JS.completion ChatHandle :=
  match db with
  | None => JS.Throw JS.TypeError
  | Some tbl =>
      let rowid := chat_last_id tbl + 1 in
      JS.Normal
        (Some {| chat_rows :=
                   (chat_rows tbl ++
                    [{| ChatMessage.id := rowid;
                        ChatMessage.sender := ChatMessage.sender' message;
                        ChatMessage.message := ChatMessage.message' message;
                        ChatMessage.timestamp := ChatMessage.timestamp' message |}])%list;
                 chat_last_id := rowid |})
  end.

(** [ORDER BY timestamp ASC]; messages with the same timestamp stay in the
    order of their insertion. *)
Fixpoint insert_asc (m : ChatMessage.t) (sorted : list ChatMessage.t)
  : list ChatMessage.t :=
  match sorted with
  | [] => [m]
  | x :: rest =>
      if String.ltb (ChatMessage.timestamp x) (ChatMessage.timestamp m)
      then x :: insert_asc m rest
      else m :: x :: rest
  end.

Definition order_by_timestamp_asc (l : list ChatMessage.t) : list ChatMessage.t :=
  fold_right insert_asc [] l.

(** [getChatHistory]: [SELECT * FROM chat_history ORDER BY timestamp ASC]. *)
Definition getChatHistory (db : ChatHandle) : JS.completion (list ChatMessage.t) :=
  match db with
  | None => JS.Throw JS.TypeError
  | Some tbl => JS.Normal (order_by_timestamp_asc (chat_rows tbl))
  end.

(** [clearChatHistory]: [DELETE FROM chat_history]. *)
Definition clearChatHistory (db : ChatHandle) : JS.completion ChatHandle :=
  match db with
  | None => JS.Throw JS.TypeError
  | Some tbl => JS.Normal (Some {| chat_rows := []; chat_last_id := chat_last_id tbl |})
  end.

End DatabaseService.

(* ===================================================================== *)
(** ** services/OpenAIService.ts *)
(* ===================================================================== *)

Module RecipeSuggestion.
(** The interface [RecipeSuggestion], as the screens are typed against it. *)
Record t : Type := {
  name : string;
  glass : string;
  ingredients : string;
  instructions : string
}.
End RecipeSuggestion.

Module OpenAIService.
Import JS.
Local Open Scope js_scope.

Definition OPENAI_API_KEY : string := "//".
Definition OPENAI_API_URL : string := "https://api.openai.com/v1/chat/completions".

(** The fields of the class instance. *)
Record Service : Type := {
  apiKey : string;
  isConfigured : bool
}.

Definition constructor : Service :=
  {| apiKey := OPENAI_API_KEY;
     isConfigured :=
       String.eqb OPENAI_API_KEY "//" && (0 <? String.length OPENAI_API_KEY)%nat |}.

Definition setApiKey (key : string) : Service :=
  {| apiKey := key; isConfigured := (0 <? String.length key)%nat |}.

Definition isApiConfigured (this : Service) : bool := isConfigured this.

(** *** The fallback library *)

(** An object literal [{ name, glass, ingredients, instructions }]. *)
Definition recipe (name glass ingredients instructions : string) : value :=
  VObj [("name", VStr name); ("glass", VStr glass);
        ("ingredients", VStr ingredients); ("instructions", VStr instructions)].

(** The array [recipes] of [getFallbackRecipe]. *)
Definition recipes : list value := [
  recipe "Classic Negroni" "rocks"
    (Str.lines ["30ml Gin";
         "30ml Campari";
         "30ml Sweet Vermouth";
         "Orange peel for garnish"])
    (Str.lines ["1. Add all spirits to a mixing glass with ice";
         "2. Stir for 30 seconds to achieve proper dilution";
         "3. Strain over fresh ice in a rocks glass";
         "4. Express orange peel oils over the surface";
         "5. Garnish with the orange peel"]);
  recipe "Old Fashioned" "rocks"
    (Str.lines ["60ml Bourbon Whiskey";
         "1 sugar cube (or 5ml simple syrup)";
         "2-3 dashes Angostura bitters";
         "Orange peel";
         "Luxardo cherry (optional)"])
    (Str.lines ["1. Muddle sugar cube with bitters and a splash of water";
         "2. Add bourbon and large ice cube";
         "3. Stir gently for 20-30 seconds";
         "4. Express orange peel over the drink";
         "5. Garnish with orange peel and cherry"]);
  recipe "Classic Margarita" "coupe"
    (Str.lines ["50ml Tequila (Blanco)";
         "25ml Cointreau or Triple Sec";
         "25ml Fresh lime juice";
         "Salt for rim";
         "Lime wheel for garnish"])
    (Str.lines ["1. Run lime wedge around rim of glass and dip in salt";
         "2. Add all ingredients to a shaker with ice";
         "3. Shake vigorously for 15 seconds";
         "4. Strain into prepared coupe glass";
         "5. Garnish with lime wheel"]);
  recipe "Mojito" "highball"
    (Str.lines ["50ml White Rum";
         "25ml Fresh lime juice";
         "15ml Simple syrup";
         "8-10 fresh mint leaves";
         "Soda water";
         "Mint sprig and lime wheel for garnish"])
    (Str.lines ["1. Gently muddle mint leaves with simple syrup";
         "2. Add lime juice and rum";
         "3. Fill glass with crushed ice";
         "4. Stir well to combine";
         "5. Top with soda water";
         "6. Garnish with mint sprig and lime wheel"]);
  recipe "Whiskey Sour" "coupe"
    (Str.lines ["60ml Bourbon Whiskey";
         "30ml Fresh lemon juice";
         "22ml Simple syrup";
         "1 Egg white (optional)";
         "3 drops Angostura bitters";
         "Lemon wheel and cherry for garnish"])
    (Str.lines ["1. If using egg white, dry shake all ingredients first (no ice)";
         "2. Add ice and shake vigorously for 15 seconds";
         "3. Double strain into chilled coupe glass";
         "4. If using egg white, float bitters on foam and draw pattern with toothpick";
         "5. Garnish with lemon wheel and cherry"]);
  recipe "Aviation Cocktail" "coupe"
    (Str.lines ["60ml Gin";
         "15ml Maraschino Liqueur";
         "10ml Crème de Violette";
         "22ml Fresh lemon juice";
         "Lemon twist for garnish"])
    (Str.lines ["1. Add all ingredients to a shaker with ice";
         "2. Shake vigorously for 15 seconds";
         "3. Double strain into chilled coupe glass";
         "4. Express lemon twist oils over drink";
         "5. Garnish with the lemon twist"]);
  recipe "Moscow Mule" "highball"
    (Str.lines ["50ml Vodka";
         "15ml Fresh lime juice";
         "120ml Ginger beer";
         "Lime wedge for garnish";
         "Mint sprig (optional)"])
    (Str.lines ["1. Fill copper mug or highball glass with ice";
         "2. Add vodka and lime juice";
         "3. Top with ginger beer";
         "4. Stir gently to combine";
         "5. Garnish with lime wedge and mint sprig"]);
  recipe "Espresso Martini" "martini"
    (Str.lines ["50ml Vodka";
         "30ml Fresh espresso (cooled)";
         "20ml Coffee liqueur (Kahlúa)";
         "10ml Simple syrup";
         "3 coffee beans for garnish"])
    (Str.lines ["1. Add all ingredients to a shaker with ice";
         "2. Shake vigorously for 20 seconds";
         "3. Double strain into chilled martini glass";
         "4. The foam should form naturally from shaking";
         "5. Garnish with 3 coffee beans on top"])
].

(** [Math.floor(Math.random() * len)] for the draw [k / 2^53]: multiplying by
    the array length 8 is exact, so the floor is the integer quotient. *)
Definition random_index (len : nat) (k : N) : nat :=
  N.to_nat (((k mod 2 ^ 53) * N.of_nat len) / 2 ^ 53)%N.

Definition getFallbackRecipe (h : Host) : M value :=
  fun st =>
    (Normal (nth (random_index (length recipes) (Math_random h st)) recipes VUndefined),
     S st).

(** The loop [for (let i = 0; i < count; i++)] of
    [getMultipleFallbackRecipes], from the state where [i] recipes are pushed. *)
Equations? fallback_loop (h : Host) (count i : Z) (fallbackReturnRecipes : list value)
  (st : nat) : completion (list value) * nat by wf (Z.to_nat (count - i)) lt :=
  fallback_loop h count i fallbackReturnRecipes st with Z_lt_dec i count := {
    | left _ =>
        match getFallbackRecipe h st with
        | (Normal recipe, st') =>
            fallback_loop h count (i + 1) (fallbackReturnRecipes ++ [recipe])%list st'
        | (Throw e, st') => (Throw e, st')
        end
    | right _ => (Normal fallbackReturnRecipes, st) }.
Proof. lia. Qed.

(** [count] is a JavaScript number; [i < NaN] is false. *)
Definition getMultipleFallbackRecipes (h : Host) (count : number) : M (list value) :=
  match count with
  | Some n => fallback_loop h n 0 []
  | None => ret []
  end.

(** *** Intent classification and prompt of [generateCocktailRecipe] *)

Definition inventoryList (inventory : list Ingredient.t) : string :=
  if (0 <? length inventory)%nat
  then String.concat ", "
         (map (fun item => Ingredient.name item ++ " (" ++ Ingredient.category item ++ ")")
              inventory)
  else "No inventory available".

Definition multipleRecipeKeywords : list string :=
  ["recipes"; "suggestions"; "options"; "cocktails"; "multiple"; "few"; "several"; "some"].

Definition requestsMultiple (userMessage : string) : bool :=
  existsb (fun keyword => Str.includes (Str.toLowerCase userMessage) keyword)
          multipleRecipeKeywords.

Definition numberMatch (userMessage : string) : option Str.RegExpMatch :=
  Str.match_number_pattern userMessage.

Definition requestedCount (userMessage : string) : number :=
  match numberMatch userMessage with
  | Some m => Str.parseInt (Str.group1 m)
  | None => if requestsMultiple userMessage then Some 3 else Some 1
  end.

Definition actualCount (userMessage : string) : number :=
  Math_min (Math_max (requestedCount userMessage) (Some 1)) (Some 5).

Definition q : string := Str.quote.

(** The template of lines 66-89. *)
Definition recipesPrompt (actualCount inventoryList : string) : string :=
  Str.lines [
    "You are an expert mixologist and cocktail creator. Create " ++ actualCount ++ " different cocktail recipes based on the user's request.";
    "";
    "Available ingredients in their bar: " ++ inventoryList;
    "";
    "IMPORTANT: You must respond with ONLY a valid JSON object with an array of recipes in this exact format:";
    "{";
    "  " ++ q ++ "recipes" ++ q ++ ": [";
    "    {";
    "      " ++ q ++ "name" ++ q ++ ": " ++ q ++ "Cocktail Name 1" ++ q ++ ",";
    "      " ++ q ++ "glass" ++ q ++ ": " ++ q ++ "rocks|highball|coupe|martini|wine|shot" ++ q ++ ",";
    "      " ++ q ++ "ingredients" ++ q ++ ": " ++ q ++ "Detailed ingredient list with exact measurements" ++ q ++ ",";
    "      " ++ q ++ "instructions" ++ q ++ ": " ++ q ++ "Step-by-step preparation instructions" ++ q;
    "    },";
    "    {";
    "      " ++ q ++ "name" ++ q ++ ": " ++ q ++ "Cocktail Name 2" ++ q ++ ",";
    "      " ++ q ++ "glass" ++ q ++ ": " ++ q ++ "rocks|highball|coupe|martini|wine|shot" ++ q ++ ",";
    "      " ++ q ++ "ingredients" ++ q ++ ": " ++ q ++ "Detailed ingredient list with exact measurements" ++ q ++ ",";
    "      " ++ q ++ "instructions" ++ q ++ ": " ++ q ++ "Step-by-step preparation instructions" ++ q;
    "    }";
    "  ]";
    "}";
    "";
    "Provide " ++ actualCount ++ " different recipes. Use ingredients from their inventory when possible.";
    "Make sure each glass type is one of: rocks, highball, coupe, martini, wine, or shot."
  ].

(** The template of lines 90-103. *)
Definition recipePrompt (inventoryList : string) : string :=
  Str.lines [
    "You are an expert mixologist and cocktail creator. Create a detailed cocktail recipe based on the user's request.";
    "";
    "Available ingredients in their bar: " ++ inventoryList;
    "";
    "IMPORTANT: You must respond with ONLY a valid JSON object in this exact format:";
    "{";
    "  " ++ q ++ "name" ++ q ++ ": " ++ q ++ "Cocktail Name" ++ q ++ ",";
    "  " ++ q ++ "glass" ++ q ++ ": " ++ q ++ "rocks|highball|coupe|martini|wine|shot" ++ q ++ ",";
    "  " ++ q ++ "ingredients" ++ q ++ ": " ++ q ++ "Detailed ingredient list with exact measurements (e.g., 60ml Gin, 30ml Vermouth, etc.)" ++ q ++ ",";
    "  " ++ q ++ "instructions" ++ q ++ ": " ++ q ++ "Step-by-step preparation instructions" ++ q;
    "}";
    "";
    "Use ingredients from their inventory when possible, but you can suggest alternatives if needed.";
    "Make sure the glass type is one of: rocks, highball, coupe, martini, wine, or shot."
  ].

(** [a > b] on numbers: false when either is [NaN]. *)
Definition gt (a b : number) : bool :=
  match a, b with
  | Some x, Some y => y <? x
  | _, _ => false
  end.

Definition systemPrompt (userMessage : string) (inventory : list Ingredient.t) : string :=
  if requestsMultiple userMessage || gt (actualCount userMessage) (Some 1)
  then recipesPrompt (Str.of_number (actualCount userMessage)) (inventoryList inventory)
  else recipePrompt (inventoryList inventory).

Definition request (this : Service) (userMessage : string) (inventory : list Ingredient.t)
  : ChatRequest :=
  {| url := OPENAI_API_URL;
     authorization := "Bearer " ++ apiKey this;
     model := "gpt-4o-mini";
     messages := [("system", systemPrompt userMessage inventory); ("user", userMessage)];
     temperature := 8 # 10;
     max_tokens := if requestsMultiple userMessage then 1200 else 600;
     response_format := Some "json_object" |}.

(** *** Receiving and validating *)

(** Lines 124-131 and 236-241: the status check, the body, and
    [data.choices[0].message.content]. *)
Definition receive (outcome : FetchOutcome) : completion value :=
  match outcome with
  | Rejected => Throw NetworkError
  | Response status json =>
      if negb (ok status)
      then Throw (Error ("OpenAI API error: " ++ Str.of_number (Some status)))
      else
        match json with
        | None => Throw SyntaxError
        | Some data =>
            choices <-- get data "choices";;
            choice <-- get0 choices;;
            message <-- get choice "message";;
            get message "content"
        end
  end.

Definition validGlasses : list string :=
  ["rocks"; "highball"; "coupe"; "martini"; "wine"; "shot"].

(** [!recipe.name || !recipe.glass || !recipe.ingredients || !recipe.instructions] *)
Definition incomplete (recipe : value) : completion bool :=
  name <-- get recipe "name";;
  if negb (truthy name) then Normal true else
  glass <-- get recipe "glass";;
  if negb (truthy glass) then Normal true else
  ingredients <-- get recipe "ingredients";;
  if negb (truthy ingredients) then Normal true else
  instructions <-- get recipe "instructions";;
  Normal (negb (truthy instructions)).

(** Lines 143-153, and again 158-168: the completeness check, then the glass
    repair made in place. *)
Definition validate (recipe : value) : completion value :=
  bad <-- incomplete recipe;;
  if bad then Throw (Error "Invalid recipe format") else
  glass <-- get recipe "glass";;
  if negb (includes validGlasses glass)
  then set recipe "glass" (VStr "rocks")
  else Normal recipe.

(** The inner [try] of lines 134-173. *)
Definition parse_recipe (h : Host) (content : value) : completion value :=
  try_catch
    (match JSON_parse h content with
     | None => Throw SyntaxError
     | Some parsed =>
         parsed_recipes <-- get parsed "recipes";;
         if truthy parsed_recipes && isArray parsed_recipes then
           recipe <-- get0 parsed_recipes;;
           validate recipe
         else
           validate parsed
     end)
    (fun parseError => Throw (Error "Failed to parse recipe from AI")).

Definition generateCocktailRecipe (h : Host) (this : Service)
  (userMessage : string) (inventory : list Ingredient.t) : M value :=
  if negb (isConfigured this) then getFallbackRecipe h
  else
    try_catchM
      (lift (content <-- receive (fetch h (request this userMessage inventory));;
             parse_recipe h content))
      (fun error => getFallbackRecipe h).

(** *** [generateMultipleRecipes] *)

Definition actualCount_of (count : number) : number :=
  Math_min (Math_max count (Some 1)) (Some 5).

(** The template of lines 197-215. *)
Definition diversePrompt (actualCount inventoryList : string) : string :=
  Str.lines [
    "You are an expert mixologist and cocktail creator. Create " ++ actualCount ++ " different and diverse cocktail recipes based on the user's request.";
    "";
    "Available ingredients in their bar: " ++ inventoryList;
    "";
    "IMPORTANT: You must respond with ONLY a valid JSON object with an array of recipes in this exact format:";
    "{";
    "  " ++ q ++ "recipes" ++ q ++ ": [";
    "    {";
    "      " ++ q ++ "name" ++ q ++ ": " ++ q ++ "Cocktail Name 1" ++ q ++ ",";
    "      " ++ q ++ "glass" ++ q ++ ": " ++ q ++ "rocks|highball|coupe|martini|wine|shot" ++ q ++ ",";
    "      " ++ q ++ "ingredients" ++ q ++ ": " ++ q ++ "Detailed ingredient list with exact measurements" ++ q ++ ",";
    "      " ++ q ++ "instructions" ++ q ++ ": " ++ q ++ "Step-by-step preparation instructions" ++ q;
    "    }";
    "  ]";
    "}";
    "";
    "Provide " ++ actualCount ++ " DIFFERENT recipes with variety in spirits, flavors, and styles.";
    "Use ingredients from their inventory when possible.";
    "Make sure each glass type is one of: rocks, highball, coupe, martini, wine, or shot."
  ].

Definition systemPrompt_of (count : number) (inventory : list Ingredient.t) : string :=
  diversePrompt (Str.of_number (actualCount_of count)) (inventoryList inventory).

Definition request_of (this : Service) (userMessage : string)
  (inventory : list Ingredient.t) (count : number) : ChatRequest :=
  {| url := OPENAI_API_URL;
     authorization := "Bearer " ++ apiKey this;
     model := "gpt-4o-mini";
     messages := [("system", systemPrompt_of count inventory); ("user", userMessage)];
     temperature := 9 # 10;
     max_tokens := 1500;
     response_format := Some "json_object" |}.

(** [recipe.name && recipe.glass && recipe.ingredients && recipe.instructions],
    as the [filter] reads it. *)
Definition complete (recipe : value) : completion bool :=
  name <-- get recipe "name";;
  if negb (truthy name) then Normal false else
  glass <-- get recipe "glass";;
  if negb (truthy glass) then Normal false else
  ingredients <-- get recipe "ingredients";;
  if negb (truthy ingredients) then Normal false else
  instructions <-- get recipe "instructions";;
  Normal (truthy instructions).

(** [xs.filter(p)] and [xs.map(f)] with callbacks that may throw. *)
Fixpoint filterC (p : value -> completion bool) (xs : list value)
  : completion (list value) :=
  match xs with
  | [] => Normal []
  | x :: rest =>
      keep <-- p x;;
      kept <-- filterC p rest;;
      Normal (if keep then x :: kept else kept)
  end.

Fixpoint mapC (f : value -> completion value) (xs : list value)
  : completion (list value) :=
  match xs with
  | [] => Normal []
  | x :: rest =>
      y <-- f x;;
      ys <-- mapC f rest;;
      Normal (y :: ys)
  end.

Fixpoint chars_from (i : nat) (s : string) : list (string * value) :=
  match s with
  | EmptyString => []
  | String c rest =>
      (Str.of_number (Some (Z.of_nat i)), VStr (String c EmptyString))
      :: chars_from (S i) rest
  end.

Fixpoint elems_from (i : nat) (xs : list value) : list (string * value) :=
  match xs with
  | [] => []
  | x :: rest => (Str.of_number (Some (Z.of_nat i)), x) :: elems_from (S i) rest
  end.

(** The own enumerable properties [{...v}] copies. *)
Definition spread (v : value) : list (string * value) :=
  match v with
  | VObj fields => fields
  | VArr elems => elems_from 0 elems
  | VStr s => chars_from 0 s
  | _ => []
  end.

(** [{ ...recipe, glass: validGlasses.includes(recipe.glass) ? recipe.glass : 'rocks' }] *)
Definition repair (recipe : value) : completion value :=
  glass <-- get recipe "glass";;
  Normal (VObj (assign "glass"
                  (if includes validGlasses glass then glass else VStr "rocks")
                  (spread recipe))).

(** Lines 236-255: from the outcome of the call to [validatedRecipes]. *)
Definition validatedRecipes (h : Host) (outcome : FetchOutcome)
  : completion (list value) :=
  content <-- receive outcome;;
  match JSON_parse h content with
  | None => Throw SyntaxError
  | Some parsed =>
      parsed_recipes <-- get parsed "recipes";;
      if negb (truthy parsed_recipes) || negb (isArray parsed_recipes)
      then Throw (Error "Invalid recipes format")
      else
        match parsed_recipes with
        | VArr elems =>
            kept <-- filterC complete elems;;
            mapC repair kept
        | _ => Throw TypeError
        end
  end.

Definition generateMultipleRecipes (h : Host) (this : Service)
  (userMessage : string) (inventory : list Ingredient.t) (count : number)
  : M (list value) :=
  if negb (isConfigured this) then getMultipleFallbackRecipes h count
  else
    try_catchM
      (validated <- lift (validatedRecipes h
                            (fetch h (request_of this userMessage inventory count)));;
       if (0 <? length validated)%nat then ret validated
       else getMultipleFallbackRecipes h count)
      (fun error => getMultipleFallbackRecipes h count).

(** *** The narrative pass: [getChatResponse] and its fallback *)

Definition negroniResponse : string :=
  "The Negroni is a classic Italian aperitivo cocktail. You'll need equal parts (30ml each) of gin, Campari, and sweet vermouth. Stir with ice for 30 seconds, strain into a rocks glass over fresh ice, and garnish with an orange peel. It's bitter, complex, and perfectly balanced.".

Definition oldFashionedResponse : string :=
  "The Old Fashioned is the quintessential whiskey cocktail. Muddle a sugar cube with 2-3 dashes of Angostura bitters, add 60ml bourbon and a large ice cube, stir gently, and garnish with an orange peel. Simple, elegant, and timeless.".

Definition margaritaResponse : string :=
  "For a perfect Margarita: shake 50ml tequila, 25ml Cointreau, and 25ml fresh lime juice with ice. Strain into a salt-rimmed coupe glass. Always use fresh lime juice - never bottled! The key is balance between sweet, sour, and the agave spirit.".

Definition martiniResponse : string :=
  "The Martini is a sophisticated classic. Combine 60ml gin (or vodka) with 15ml dry vermouth in a mixing glass with ice. Stir for 30 seconds, strain into a chilled martini glass, and garnish with a lemon twist or olive. Adjust the vermouth ratio to your preference.".

Definition mojitoResponse : string :=
  "The Mojito is a refreshing Cuban classic. Gently muddle mint leaves with simple syrup, add 50ml white rum and 25ml fresh lime juice, fill with crushed ice, stir, and top with soda water. Garnish with a mint sprig. The key is to muddle gently - bruising, not crushing the mint.".

Definition techniqueResponse : string :=
  "Stirring vs Shaking: Stir spirit-forward cocktails (Manhattan, Negroni, Martini) for 30 seconds to chill and dilute without aeration. Shake cocktails with citrus, cream, or egg whites for 15-20 seconds to properly emulsify and chill. Remember: 'Shake the juice, stir the booze!'".

Definition glasswareResponse : string :=
  Str.lines [
    "Proper glassware enhances the cocktail experience:";
    "• Rocks glass: Old Fashioned, Negroni";
    "• Coupe: Daiquiri, Margarita, Sidecar";
    "• Martini glass: Martini, Manhattan";
    "• Highball: Mojito, Collins, Mule";
    "• Shot glass: Shots and shooters";
    "Always chill your glassware for 10-15 minutes before serving."].

Definition recipesResponse : string :=
  "I can suggest numerous cocktail recipes! Some classics include the Negroni, Old Fashioned, Margarita, Mojito, Manhattan, Daiquiri, and Whiskey Sour. Tell me what spirits you have or what flavor profile you're interested in (sweet, sour, bitter, refreshing), and I'll recommend something perfect for you.".

Definition stockingResponse : string :=
  Str.lines [
    "Essential bar basics:";
    "";
    "Spirits: Gin, Vodka, Bourbon, Rum (white & dark), Tequila";
    "";
    "Liqueurs: Cointreau, Dry Vermouth, Sweet Vermouth, Campari";
    "";
    "Mixers: Simple syrup, fresh lemons & limes, Angostura bitters";
    "";
    "Tools: Jigger, shaker, strainer, bar spoon, muddler";
    "";
    "Start with these and you can make dozens of classic cocktails!"].

Definition defaultResponse : string :=
  Str.lines [
    "I'm here to help with cocktail recipes, mixing techniques, and bar management. Ask me about:";
    "";
    "• Specific cocktails (Negroni, Margarita, etc.)";
    "• What you can make with your current inventory";
    "• Mixing techniques and tips";
    "• Bar stocking recommendations";
    "• Ingredient substitutions";
    "";
    "Note: For enhanced AI-powered responses, configure your OpenAI API key in the OpenAIService.ts file."].

Definition getFallbackChatResponse (message : string) : string :=
  let lowerMessage := Str.toLowerCase message in
  if Str.includes lowerMessage "negroni" then negroniResponse
  else if Str.includes lowerMessage "old fashioned" then oldFashionedResponse
  else if Str.includes lowerMessage "margarita" then margaritaResponse
  else if Str.includes lowerMessage "martini" then martiniResponse
  else if Str.includes lowerMessage "mojito" then mojitoResponse
  else if Str.includes lowerMessage "stir" || Str.includes lowerMessage "shake"
  then techniqueResponse
  else if Str.includes lowerMessage "glass" || Str.includes lowerMessage "glassware"
  then glasswareResponse
  else if Str.includes lowerMessage "recipe" || Str.includes lowerMessage "make"
          || Str.includes lowerMessage "suggest" || Str.includes lowerMessage "cocktail"
  then recipesResponse
  else if Str.includes lowerMessage "buy" || Str.includes lowerMessage "stock"
          || Str.includes lowerMessage "need" || Str.includes lowerMessage "essential"
  then stockingResponse
  else defaultResponse.

(** [JSON.stringify({ recipes })] for the string [recipes]. *)
Definition recipesJson (recipes : string) : string :=
  "{" ++ q ++ "recipes" ++ q ++ ":" ++ Str.json_string recipes ++ "}".

(** The template of lines 277-296. *)
Definition narrativePrompt (recipesJson : string) : string :=
  Str.lines [
    "You are Recip.ez AI, an expert mixologist and professional cocktail assistant. ";
    "You help users manage their bar inventory and create amazing cocktails. You are apart of the second part of the process, where you take the cocktail recipes generated by the AI and write them out in a friendly, engaging manner for the user.";
    "";
    "These are the users generated cocktail recipes:";
    recipesJson;
    "";
    "";
    "Your role:";
    "- Write out the descriptions of the cocktail recipes in a friendly, engaging manner";
    "- Do not just repeat the recipe back to the user";
    "- Describe the flavor profile, history, and interesting facts about the cocktail";
    "- Provide tips on how to best enjoy the cocktail  ";
    "- Dont use markdown or code blocks";
    "- Use proper grammar and punctuation";
    "- Keep it concise but informative (100 words max per cocktail)";
    "";
    "Guidelines:";
    "- Be friendly but professional";
    "";
    "IMPORTANT: Your cocktail suggestions must align with the recipes provided. Do not suggest anything outside of those recipes."
  ].

(** [chatHistory.slice(-6)]: the last six entries, or all of them. *)
Definition recentHistory (chatHistory : list (string * string)) : list (string * string) :=
  skipn (length chatHistory - 6) chatHistory.

Definition chat_request (this : Service) (recipes : string)
  (chatHistory : list (string * string)) (message : string) : ChatRequest :=
  {| url := OPENAI_API_URL;
     authorization := "Bearer " ++ apiKey this;
     model := "gpt-4o-mini";
     messages := (("system", narrativePrompt (recipesJson recipes))
                  :: recentHistory chatHistory ++ [("user", message)])%list;
     temperature := 7 # 10;
     max_tokens := 350;
     response_format := None |}.

(** [getChatResponse]; lines 322-329 are the steps of [receive] once more.
    What is returned is the content as it stands in the answer, a string when
    the endpoint keeps to its format. *)
Definition getChatResponse (h : Host) (this : Service) (recipes : string)
  (chatHistory : list (string * string)) (message : string) : completion value :=
  if negb (isConfigured this) then Normal (VStr (getFallbackChatResponse message))
  else
    try_catch
      (receive (fetch h (chat_request this recipes chatHistory message)))
      (fun error => Normal (VStr (getFallbackChatResponse message))).

End OpenAIService.

(* ===================================================================== *)
(** ** screens/AIChatScreen.tsx: [handleSend] and [handleSaveRecipe] *)
(* ===================================================================== *)

Module AIChatScreen.
Import JS.
Local Open Scope js_scope.

Definition multipleKeywords : list string :=
  ["recipes"; "suggestions"; "options"; "cocktails"; "multiple"; "few"; "several"].

Definition requestsMultiple (userMessage : string) : bool :=
  existsb (fun keyword => Str.includes (Str.toLowerCase userMessage) keyword)
          multipleKeywords.

Definition numberMatch (userMessage : string) : option Str.RegExpMatch :=
  Str.match_number_pattern userMessage.

Definition requestedCount (userMessage : string) : number :=
  match numberMatch userMessage with
  | Some m => Str.parseInt (Str.group1 m)
  | None => if requestsMultiple userMessage then Some 3 else Some 0
  end.

(** [a || b] on numbers: [b] when [a] is [0] or [NaN]. *)
Definition or_else (a b : number) : number :=
  match a with
  | None | Some 0 => b
  | Some _ => a
  end.

(** [Math.min(requestedCount || 3, 5)] *)
Definition count (userMessage : string) : number :=
  Math_min (or_else (requestedCount userMessage) (Some 3)) (Some 5).

Definition asksForRecipe (userMessage : string) : bool :=
  Str.includes (Str.toLowerCase userMessage) "recipe"
  || Str.includes (Str.toLowerCase userMessage) "make"
  || Str.includes (Str.toLowerCase userMessage) "suggest".

(** The recipes one send appends to [recipeSuggestions].  The narrative call
    [getChatResponse] between the generation and the append absorbs its own
    failures and does not touch the list; the writes to the chat store are
    taken to succeed. *)
Definition suggestions (h : Host) (this : OpenAIService.Service)
  (userMessage : string) (inventory : list Ingredient.t) : M (list value) :=
  if requestsMultiple userMessage || OpenAIService.gt (requestedCount userMessage) (Some 1)
  then
    try_catchM
      (OpenAIService.generateMultipleRecipes h this userMessage inventory (count userMessage))
      (fun error =>
         OpenAIService.getMultipleFallbackRecipes h
           (or_else (requestedCount userMessage) (Some 3)))
  else if asksForRecipe userMessage
  then
    try_catchM
      (recipe <- OpenAIService.generateCocktailRecipe h this userMessage inventory;;
       ret [recipe])
      (fun error =>
         fallbackRecipe <- OpenAIService.getFallbackRecipe h;;
         ret [fallbackRecipe])
  else ret [].

Definition handleSend (h : Host) (this : OpenAIService.Service)
  (inputText : string) (isLoading : bool) (inventory : list Ingredient.t)
  : M (list value) :=
  if negb (truthy (VStr (Str.trim inputText))) || isLoading then ret []
  else suggestions h this (Str.trim inputText) inventory.

(** [Alert.alert(title, message)] *)
Record Alert : Type := {
  title : string;
  message : string
}.

(** [handleSaveRecipe], with [now] the text of [new Date().toISOString()]:
    the store afterwards and the notice shown. *)
Definition handleSaveRecipe (now : string) (db : DatabaseService.Handle)
  (recipe : RecipeSuggestion.t) : DatabaseService.Handle * Alert :=
  let currentDate := Str.before "T"%char now in
  match DatabaseService.addRecipe db
          {| Recipe.name' := RecipeSuggestion.name recipe;
             Recipe.ingredients' := RecipeSuggestion.ingredients recipe;
             Recipe.instructions' := RecipeSuggestion.instructions recipe;
             Recipe.glass' := RecipeSuggestion.glass recipe;
             Recipe.source' := "AI Generated";
             Recipe.dateAdded' := currentDate |} with
  | Normal (_, db') =>
      (db', {| title := "Success";
               message := Str.quote ++ RecipeSuggestion.name recipe ++ Str.quote
                          ++ " saved to your collection" |})
  | Throw _ =>
      (db, {| title := "Error"; message := "Failed to save recipe" |})
  end.

(** *** The reply of one send *)

(** [messages.map(msg => ({ role: ..., content: msg.message }))] *)
Definition chatHistory (messages : list ChatMessage.t) : list (string * string) :=
  map (fun msg =>
         (match ChatMessage.sender msg with
          | ChatMessage.user => "user"
          | ChatMessage.agent => "assistant"
          end,
          ChatMessage.message msg))
      messages.

(** Lines 81-166 of [handleSend]: [responseText] and the recipes appended to
    [recipeSuggestions].  [stringify] stands for [JSON.stringify] on the value
    [{ recipes }]. *)
Definition respond (stringify : value -> string) (h : Host)
  (this : OpenAIService.Service) (userMessage : string)
  (inventory : list Ingredient.t) (messages : list ChatMessage.t)
  : M (value * list value) :=
  if requestsMultiple userMessage || OpenAIService.gt (requestedCount userMessage) (Some 1)
  then
    try_catchM
      (recipes <- OpenAIService.generateMultipleRecipes h this userMessage inventory
                    (count userMessage);;
       responseText <- lift (OpenAIService.getChatResponse h this
                               (stringify (VObj [("recipes", VArr recipes)]))
                               (chatHistory messages) userMessage);;
       ret (responseText, recipes))
      (fun error =>
         fallbackRecipes <- OpenAIService.getMultipleFallbackRecipes h
                              (or_else (requestedCount userMessage) (Some 3));;
         ret (VStr ("Here are "
                    ++ Str.of_number (or_else (requestedCount userMessage) (Some 3))
                    ++ " cocktail suggestions for you:"),
              fallbackRecipes))
  else
    try_catchM
      (if asksForRecipe userMessage
       then
         try_catchM
           (recipe <- OpenAIService.generateCocktailRecipe h this userMessage inventory;;
            ret (VStr "", [recipe]))
           (fun error =>
              fallbackRecipe <- OpenAIService.getFallbackRecipe h;;
              ret (VStr "", [fallbackRecipe]))
       else ret (VStr "", []))
      (fun error =>
         if asksForRecipe userMessage
         then
           fallbackRecipe <- OpenAIService.getFallbackRecipe h;;
           ret (VStr (OpenAIService.getFallbackChatResponse userMessage), [fallbackRecipe])
         else ret (VStr (OpenAIService.getFallbackChatResponse userMessage), [])).

(** *** The chat history on screen *)

(** The state of the screen that the history actions touch. *)
Record State : Type := {
  messages : list ChatMessage.t;
  recipeSuggestions : list value
}.

Definition welcomeMsg (now : string) : ChatMessage.t :=
  {| ChatMessage.id := 0;
     ChatMessage.sender := ChatMessage.agent;
     ChatMessage.message := "Welcome to your professional cocktail assistant. I can analyze your inventory, suggest recipes based on available ingredients, and provide detailed preparation instructions. Ask me for single recipes or multiple suggestions at once!";
     ChatMessage.timestamp := now |}.

(** [loadChatHistory], with [now] the text of [new Date().toISOString()]. *)
Definition loadChatHistory (now : string) (db : DatabaseService.ChatHandle)
  (s : State) : State :=
  match DatabaseService.getChatHistory db with
  | Normal history =>
      if (length history =? 0)%nat
      then {| messages := [welcomeMsg now]; recipeSuggestions := recipeSuggestions s |}
      else {| messages := history; recipeSuggestions := recipeSuggestions s |}
  | Throw _ => s
  end.

(** The [onPress] of the Clear button of [handleClearHistory]: the store and
    the screen afterwards, and the notice if one is shown. *)
Definition handleClearHistory (now : string) (db : DatabaseService.ChatHandle)
  (s : State) : DatabaseService.ChatHandle * State * option Alert :=
  match DatabaseService.clearChatHistory db with
  | Normal db' =>
      (db',
       loadChatHistory now db' {| messages := []; recipeSuggestions := [] |},
       None)
  | Throw _ =>
      (db, s, Some {| title := "Error"; message := "Failed to clear history" |})
  end.

End AIChatScreen.

(* ===================================================================== *)
(** ** screens/RecipeCollectionScreen.tsx *)
(* ===================================================================== *)

Module RecipeCollectionScreen.
Import JS.

(** The state of the screen: the list shown and the form. *)
Record State : Type := {
  recipes : list Recipe.t;
  showForm : bool;
  name : string;
  ingredients : string;
  instructions : string;
  selectedGlass : string
}.

Definition notice (title message : string) : AIChatScreen.Alert :=
  {| AIChatScreen.title := title; AIChatScreen.message := message |}.

Definition with_recipes (s : State) (items : list Recipe.t) : State :=
  {| recipes := items; showForm := showForm s; name := name s;
     ingredients := ingredients s; instructions := instructions s;
     selectedGlass := selectedGlass s |}.

(** [loadRecipes]: the screen afterwards and the notices shown. *)
Definition loadRecipes (db : DatabaseService.Handle) (s : State)
  : State * list AIChatScreen.Alert :=
  match DatabaseService.getAllRecipes db with
  | Normal items => (with_recipes s items, [])
  | Throw _ => (s, [notice "Error" "Failed to load recipes"])
  end.

(** [handleAddRecipe], with [now] the text of [new Date().toISOString()]. *)
Definition handleAddRecipe (now : string) (db : DatabaseService.Handle) (s : State)
  : DatabaseService.Handle * State * list AIChatScreen.Alert :=
  if negb (truthy (VStr (Str.trim (name s))))
     || negb (truthy (VStr (Str.trim (ingredients s))))
     || negb (truthy (VStr (Str.trim (instructions s))))
  then (db, s, [notice "Error" "Please complete all required fields"])
  else
    let currentDate := Str.before "T"%char now in
    match DatabaseService.addRecipe db
            {| Recipe.name' := Str.trim (name s);
               Recipe.ingredients' := Str.trim (ingredients s);
               Recipe.instructions' := Str.trim (instructions s);
               Recipe.glass' := selectedGlass s;
               Recipe.source' := "Manual Entry";
               Recipe.dateAdded' := currentDate |} with
    | Normal (_, db') =>
        let cleared :=
          {| recipes := recipes s; showForm := false; name := "";
             ingredients := ""; instructions := ""; selectedGlass := "rocks" |} in
        let (loaded, notices) := loadRecipes db' cleared in
        (db', loaded, (notice "Success" "Recipe added to collection" :: notices))
    | Throw _ => (db, s, [notice "Error" "Failed to add recipe"])
    end.

(** The [onPress] of the Delete button of [handleDeleteRecipe]. *)
Definition handleDeleteRecipe (db : DatabaseService.Handle) (s : State) (id : Z)
  : DatabaseService.Handle * State * list AIChatScreen.Alert :=
  match DatabaseService.deleteRecipe db id with
  | Normal db' => let (loaded, notices) := loadRecipes db' s in (db', loaded, notices)
  | Throw _ => (db, s, [notice "Error" "Failed to delete recipe"])
  end.

Record Stats : Type := {
  totalRecipes : nat;
  aiRecipes : nat;
  manualRecipes : nat
}.

Definition getStats (s : State) : Stats :=
  {| totalRecipes := length (recipes s);
     aiRecipes :=
       length (filter (fun r => String.eqb (Recipe.source r) "AI Generated") (recipes s));
     manualRecipes :=
       length (filter (fun r => String.eqb (Recipe.source r) "Manual Entry") (recipes s)) |}.

End RecipeCollectionScreen.

(* ===================================================================== *)
(** ** Specification-side vocabulary *)
(* ===================================================================== *)

Module Spec.
Import JS.

(** The four fields a recipe must carry. *)
Definition four_fields : list string :=
  ["name"; "glass"; "ingredients"; "instructions"].

(** All four fields are present and non-empty: an object each of whose four
    fields holds a value that is not [undefined], [null], [false], [0] or the
    empty string. *)
Definition all_four (v : value) : bool :=
  match v with
  | VObj fields =>
      forallb (fun k => match lookup k fields with
                        | Some x => truthy x
                        | None => false
                        end) four_fields
  | _ => false
  end.

(** The glass of a recipe is one of the six enumerated values. *)
Definition glass_ok (v : value) : Prop :=
  exists g, get v "glass" = Normal (VStr g) /\ In g OpenAIService.validGlasses.

Definition glass_okb (v : value) : bool :=
  match get v "glass" with
  | Normal g => includes OpenAIService.validGlasses g
  | Throw _ => false
  end.

(** A recipe with its glass coerced: kept when valid, ['rocks'] otherwise. *)
Definition coerced (v : value) : value :=
  if glass_okb v then v
  else match v with
       | VObj fields => VObj (assign "glass" (VStr "rocks") fields)
       | _ => v
       end.

(** Neither [null] nor [undefined]. *)
Definition present (v : value) : bool :=
  match v with
  | VUndefined | VNull => false
  | _ => true
  end.

(** The ingredient listing in the specification's words: the entries
    ["name (category)"], the first one as it is and every further one after a
    comma and a space. *)
Definition entry (item : Ingredient.t) : string :=
  Ingredient.name item ++ " (" ++ Ingredient.category item ++ ")".

Definition comma_joined (entries : list string) : string :=
  match entries with
  | [] => ""
  | first :: others => fold_left (fun acc e => acc ++ ", " ++ e) others first
  end.

Definition no_inventory_marker : string := "No inventory available".

(** The words that introduce the listing in every generation prompt. *)
Definition listing_label : string := "Available ingredients in their bar: ".

Definition ingredient_listing (inventory : list Ingredient.t) : string :=
  match inventory with
  | [] => no_inventory_marker
  | _ :: _ => comma_joined (map entry inventory)
  end.

(** The white-space characters of ECMAScript, each in UTF-8: the
    productions WhiteSpace (tab, vertical tab, form feed, U+FEFF and the
    space separators of Unicode) and LineTerminator (line feed, carriage
    return, U+2028, U+2029). *)
Definition utf8 (bytes : list Z) : string :=
  string_of_list_ascii (map (fun b => ascii_of_nat (Z.to_nat b)) bytes).

Definition white_space : list string :=
  [ utf8 [9]; utf8 [10]; utf8 [11]; utf8 [12]; utf8 [13];   (* U+0009 to U+000D *)
    utf8 [32];                                              (* U+0020 *)
    utf8 [194; 160];                                        (* U+00A0 *)
    utf8 [225; 154; 128];                                   (* U+1680 *)
    utf8 [226; 128; 128]; utf8 [226; 128; 129];             (* U+2000 to U+200A *)
    utf8 [226; 128; 130]; utf8 [226; 128; 131];
    utf8 [226; 128; 132]; utf8 [226; 128; 133];
    utf8 [226; 128; 134]; utf8 [226; 128; 135];
    utf8 [226; 128; 136]; utf8 [226; 128; 137];
    utf8 [226; 128; 138];
    utf8 [226; 128; 168]; utf8 [226; 128; 169];             (* U+2028, U+2029 *)
    utf8 [226; 128; 175];                                   (* U+202F *)
    utf8 [226; 129; 159];                                   (* U+205F *)
    utf8 [227; 128; 128];                                   (* U+3000 *)
    utf8 [239; 187; 191] ].                                 (* U+FEFF *)

(** A run of white-space characters, possibly empty. *)
Inductive blank : string -> Prop :=
| blank_nil : blank ""
| blank_cons : forall w sp, In w white_space -> blank sp -> blank (w ++ sp).

(** The numeric pattern, declaratively: somewhere in [s] stands a non-empty
    run of digits, then white space (possibly none), then one of the four
    words in either case. *)
Fixpoint all (p : ascii -> bool) (s : string) : bool :=
  match s with
  | EmptyString => true
  | String c rest => p c && all p rest
  end.

Definition same_ci (w g : string) : bool :=
  (String.length w =? String.length g)%nat && Str.prefix_ci w g.

(** One of the four words, in either case. *)
Definition is_alternative (g : string) : Prop :=
  exists w, In w Str.alternatives /\ same_ci w g = true.

(** The shape of a match record: digits, white space, word. *)
Definition well_formed (m : Str.RegExpMatch) : Prop :=
  Str.group1 m <> ""
  /\ all Str.is_digit (Str.group1 m) = true
  /\ exists sp,
       Str.whole m = Str.group1 m ++ sp ++ Str.group2 m
       /\ blank sp
       /\ is_alternative (Str.group2 m).

Definition Matches (s : string) (m : Str.RegExpMatch) : Prop :=
  exists pre sp post,
    s = pre ++ Str.whole m ++ post
    /\ Str.whole m = Str.group1 m ++ sp ++ Str.group2 m
    /\ Str.group1 m <> ""
    /\ all Str.is_digit (Str.group1 m) = true
    /\ blank sp
    /\ exists w, In w Str.alternatives /\ same_ci w (Str.group2 m) = true.

(** The value of a run of decimal digits. *)
Definition decimal_value (digits : string) : Z :=
  fold_left (fun acc c => 10 * acc + Str.digit_value c) (list_ascii_of_string digits) 0.

(** [data.choices[0].message.content], when every step of that path can be
    taken. *)
Definition content_of (data : value) : option value :=
  match get data "choices" with
  | Normal choices =>
      match get0 choices with
      | Normal choice =>
          match get choice "message" with
          | Normal message =>
              match get message "content" with
              | Normal content => Some content
              | Throw _ => None
              end
          | Throw _ => None
          end
      | Throw _ => None
      end
  | Throw _ => None
  end.

(** The failures of the external call the specification names, read off the
    outcome of [fetch] and of [JSON.parse]: no response, a status outside
    200-299, a body that is not JSON, a body without the content, a content
    that is not JSON. *)
Inductive call_failure (h : Host) : FetchOutcome -> Prop :=
| network_error :
    call_failure h Rejected
| non_2xx : forall status json,
    ok status = false ->
    call_failure h (Response status json)
| unparsable_body : forall status,
    call_failure h (Response status None)
| no_content : forall status data,
    content_of data = None ->
    call_failure h (Response status (Some data))
| unparsable_content : forall status data content,
    content_of data = Some content ->
    JSON_parse h content = None ->
    call_failure h (Response status (Some data)).

(** The call succeeded and its content parses to [parsed]. *)
Definition delivers (h : Host) (outcome : FetchOutcome) (parsed : value) : Prop :=
  exists status data content,
    outcome = Response status (Some data)
    /\ ok status = true
    /\ content_of data = Some content
    /\ JSON_parse h content = Some parsed.

(** What the single-recipe operation validates: the first element of
    [parsed.recipes] when that is an array, [parsed] itself otherwise. *)
Definition candidate (parsed : value) : option value :=
  match parsed with
  | VUndefined | VNull => None
  | _ =>
      match get parsed "recipes" with
      | Normal (VArr elems) => Some (nth 0 elems VUndefined)
      | _ => Some parsed
      end
  end.

(** A validation failure of the single-recipe operation: the content parses,
    and the recipe it offers lacks one of the four fields. *)
Definition invalid_recipe (h : Host) (outcome : FetchOutcome) : Prop :=
  exists parsed,
    delivers h outcome parsed
    /\ match candidate parsed with
       | Some c => all_four c = false
       | None => True
       end.

(** A validation failure of the multi-recipe operation: the content parses,
    and either [recipes] is not an array or none of its entries carries the
    four fields. *)
Definition invalid_recipes (h : Host) (outcome : FetchOutcome) : Prop :=
  exists parsed,
    delivers h outcome parsed
    /\ match parsed with
       | VUndefined | VNull => True
       | _ =>
           match get parsed "recipes" with
           | Normal (VArr elems) => forallb (fun e => negb (all_four e)) elems = true
           | _ => True
           end
       end.

End Spec.

(* ===================================================================== *)
(** ** Sample hosts and inputs *)
(* ===================================================================== *)

Module Sample.
Import JS.

(** The body of a chat completion whose first choice carries [content]. *)
Definition envelope (content : value) : value :=
  VObj [("choices", VArr [VObj [("message", VObj [("content", content)])]])].

(** A host whose endpoint answers 200 and whose answer parses to [parsed];
    its random draws walk through the library in order. *)
Definition answering (parsed : value) : Host :=
  {| fetch := fun _ => Response 200 (Some (envelope (VStr "(the answer)")));
     JSON_parse := fun _ => Some parsed;
     Math_random := fun i => (N.of_nat i * 2 ^ 50)%N |}.

(** A host without network. *)
Definition offline : Host :=
  {| fetch := fun _ => Rejected;
     JSON_parse := fun _ => None;
     Math_random := fun i => (N.of_nat i * 2 ^ 50)%N |}.

(** A complete recipe whose glass is none of the six. *)
Definition spritz : value :=
  OpenAIService.recipe "Garden Spritz" "mason jar"
    "90ml Prosecco, 60ml Aperol, soda" "Build over ice and stir once".

(** A recipe without a name. *)
Definition nameless : value :=
  OpenAIService.recipe "" "coupe" "50ml Gin" "Shake and strain".

Definition margaritas : string := "Give me 2 margarita cocktails".

(** Three characters outside ASCII. *)
Definition no_break_space : string := Spec.utf8 [194; 160].    (* U+00A0 *)
Definition kelvin_sign : string := Spec.utf8 [226; 132; 170].  (* U+212A *)
Definition dotted_capital_i : string := Spec.utf8 [196; 176].  (* U+0130 *)

Definition bar : list Ingredient.t :=
  [ {| Ingredient.id := 1; Ingredient.name := "Gin"; Ingredient.category := "Spirits";
       Ingredient.quantity := 700 # 1; Ingredient.dateAdded := "2025-01-01" |};
    {| Ingredient.id := 2; Ingredient.name := "Lime"; Ingredient.category := "Fruit";
       Ingredient.quantity := 3 # 1; Ingredient.dateAdded := "2025-01-02" |} ].

Definition suggestion : RecipeSuggestion.t :=
  {| RecipeSuggestion.name := "Garden Spritz";
     RecipeSuggestion.glass := "wine";
     RecipeSuggestion.ingredients := "90ml Prosecco, 60ml Aperol, soda";
     RecipeSuggestion.instructions := "Build over ice and stir once" |}.

End Sample.

(* ===================================================================== *)
(** ** Vocabulary for the store, the narrative fallback and the screens *)
(* ===================================================================== *)

Module Store.
Import JS.

(** The row ids of a table. *)
Definition ids (tbl : DatabaseService.Table) : list Z :=
  map Recipe.id (DatabaseService.rows tbl).

(** No row id exceeds the counter, and no two rows share an id. *)
Definition well_formed (tbl : DatabaseService.Table) : Prop :=
  Forall (fun r => Recipe.id r <= DatabaseService.last_id tbl) (DatabaseService.rows tbl)
  /\ NoDup (ids tbl).

(** The recipe was written by one of the two save actions of the screens. *)
Definition app_written (r : Recipe.t) : bool :=
  String.eqb (Recipe.source r) "AI Generated"
  || String.eqb (Recipe.source r) "Manual Entry".

(** The states of the recipe store the screens can bring about, starting
    from the empty table that [init] creates. *)
Inductive reachable : DatabaseService.Handle -> Prop :=
| reach_init :
    reachable (Some DatabaseService.empty)
| reach_save : forall db now recipe,
    reachable db ->
    reachable (fst (AIChatScreen.handleSaveRecipe now db recipe))
| reach_add : forall db now s,
    reachable db ->
    reachable (fst (fst (RecipeCollectionScreen.handleAddRecipe now db s)))
| reach_delete : forall db s id,
    reachable db ->
    reachable (fst (fst (RecipeCollectionScreen.handleDeleteRecipe db s id))).

(** Newest first: no recipe is followed by one with a later date. *)
Definition newest_first (a b : Recipe.t) : Prop :=
  String.ltb (Recipe.dateAdded a) (Recipe.dateAdded b) = false.

(** Oldest first: no message is followed by one with an earlier timestamp. *)
Definition oldest_first (a b : ChatMessage.t) : Prop :=
  String.ltb (ChatMessage.timestamp b) (ChatMessage.timestamp a) = false.

(** [output] is [input] without the white space around it, and is not
    empty: only white space was taken away on either side, and [output]
    neither starts nor ends with a white-space character. *)
Definition stripped (input output : string) : Prop :=
  (exists pre post,
     input = pre ++ output ++ post /\ Spec.blank pre /\ Spec.blank post)
  /\ output <> EmptyString
  /\ (forall w rest, In w Spec.white_space -> output <> w ++ rest)
  /\ (forall w body, In w Spec.white_space -> output <> body ++ w).

End Store.

Module Narrative.

(** The keywords [getFallbackChatResponse] looks for, in the order of its
    tests. *)
Definition keywords : list string :=
  ["negroni"; "old fashioned"; "margarita"; "martini"; "mojito";
   "stir"; "shake"; "glass"; "glassware";
   "recipe"; "make"; "suggest"; "cocktail";
   "buy"; "stock"; "need"; "essential"].

(** [k] stands somewhere in the lower-cased [message]. *)
Definition mentions (message k : string) : Prop :=
  exists pre post, Str.toLowerCase message = pre ++ k ++ post.

End Narrative.

Module Fallback.
Import JS.

(** The library recipe that the draw numbered [draw] selects. *)
Definition pick (h : Host) (draw : nat) : value :=
  nth (OpenAIService.random_index (length OpenAIService.recipes) (Math_random h draw))
      OpenAIService.recipes VUndefined.

End Fallback.

Module Scenario.
Import JS.

(** A service whose key was cleared with [setApiKey('')]. *)
Definition unconfigured : OpenAIService.Service := OpenAIService.setApiKey "".

(** A recipe store after two saves. *)
Definition two_saved : DatabaseService.Handle :=
  fst (AIChatScreen.handleSaveRecipe "2025-03-02T09:00:00.000Z"
         (fst (AIChatScreen.handleSaveRecipe "2025-03-01T18:30:00.000Z"
                 (Some DatabaseService.empty) Sample.suggestion))
         Sample.suggestion).

(** A recipe store after two saves on the same day. *)
Definition same_day : DatabaseService.Handle :=
  fst (AIChatScreen.handleSaveRecipe "2025-03-01T19:45:00.000Z"
         (fst (AIChatScreen.handleSaveRecipe "2025-03-01T18:30:00.000Z"
                 (Some DatabaseService.empty) Sample.suggestion))
         Sample.suggestion).

Definition two_saved_table : DatabaseService.Table :=
  match two_saved with
  | Some tbl => tbl
  | None => DatabaseService.empty
  end.

(** A filled form of the collection screen. *)
Definition form : RecipeCollectionScreen.State :=
  {| RecipeCollectionScreen.recipes := [];
     RecipeCollectionScreen.showForm := true;
     RecipeCollectionScreen.name := "  Gimlet ";
     RecipeCollectionScreen.ingredients := "60ml Gin, 20ml lime cordial";
     RecipeCollectionScreen.instructions := "Stir with ice and strain";
     RecipeCollectionScreen.selectedGlass := "coupe" |}.

End Scenario.

(* ===================================================================== *)
(** ** Properties *)
(* ===================================================================== *)

Import JS.

(** *** Objects *)

Lemma lookup_assign_same (k : string) (v : value) (fields : list (string * value)) :
  lookup k (assign k v fields) = Some v.
Proof.
  induction fields as [| [k' v'] rest IH]; simpl.
  - now rewrite String.eqb_refl.
  - destruct (String.eqb k k') eqn:E; simpl.
    + now rewrite String.eqb_refl.
    + now rewrite E.
Qed.

Lemma lookup_assign_other (k k0 : string) (v : value) (fields : list (string * value)) :
  k0 <> k -> lookup k0 (assign k v fields) = lookup k0 fields.
Proof.
  intros Hne.
  induction fields as [| [k' v'] rest IH]; simpl.
  - apply String.eqb_neq in Hne. now rewrite Hne.
  - destruct (String.eqb k k') eqn:E; simpl.
    + apply String.eqb_eq in E. subst k'.
      apply String.eqb_neq in Hne. now rewrite Hne.
    + destruct (String.eqb k0 k'); [reflexivity | exact IH].
Qed.

Lemma assign_lookup (k : string) (v : value) (fields : list (string * value)) :
  lookup k fields = Some v -> assign k v fields = fields.
Proof.
  induction fields as [| [k' v'] rest IH]; simpl; [discriminate |].
  destruct (String.eqb k k') eqn:E.
  - intros [= ->]. apply String.eqb_eq in E. now subst.
  - intros H. now rewrite IH.
Qed.

Lemma includes_valid (xs : list string) (v : value) :
  includes xs v = true -> exists g, v = VStr g /\ In g xs.
Proof.
  destruct v; simpl; try discriminate.
  intros H. apply existsb_exists in H. destruct H as [x [Hin Heq]].
  apply String.eqb_eq in Heq. subst x. eauto.
Qed.

(** *** The fallback library *)

Lemma recipes_length : length OpenAIService.recipes = 8%nat.
Proof. reflexivity. Qed.

Lemma recipes_complete :
  forallb Spec.all_four OpenAIService.recipes = true.
Proof. vm_compute. reflexivity. Qed.

Lemma recipes_glass :
  forallb Spec.glass_okb OpenAIService.recipes = true.
Proof. vm_compute. reflexivity. Qed.

Lemma glass_okb_ok (v : value) : Spec.glass_okb v = true -> Spec.glass_ok v.
Proof.
  unfold Spec.glass_okb, Spec.glass_ok.
  destruct (get v "glass") as [g | e]; [| discriminate].
  intros H. apply includes_valid in H. destruct H as [s [-> Hin]]. eauto.
Qed.

Lemma library_glass_ok (r : value) : In r OpenAIService.recipes -> Spec.glass_ok r.
Proof.
  intros Hin. apply glass_okb_ok.
  pose proof recipes_glass as H. rewrite forallb_forall in H. now apply H.
Qed.

Lemma library_complete (r : value) :
  In r OpenAIService.recipes -> Spec.all_four r = true.
Proof.
  intros Hin. pose proof recipes_complete as H.
  rewrite forallb_forall in H. now apply H.
Qed.

Create HintDb library.
#[local] Hint Resolve library_glass_ok library_complete : library.

Lemma random_index_lt (len : nat) (k : N) :
  (0 < len)%nat -> (OpenAIService.random_index len k < len)%nat.
Proof.
  intros Hlen. unfold OpenAIService.random_index.
  assert (Hk : (k mod 2 ^ 53 < 2 ^ 53)%N) by (apply N.mod_lt; discriminate).
  assert (Hq : ((k mod 2 ^ 53) * N.of_nat len / 2 ^ 53 < N.of_nat len)%N).
  { apply N.Div0.div_lt_upper_bound. nia. }
  lia.
Qed.

Lemma getFallbackRecipe_spec (h : Host) (st : nat) :
  exists r, OpenAIService.getFallbackRecipe h st = (Normal r, S st)
            /\ In r OpenAIService.recipes.
Proof.
  unfold OpenAIService.getFallbackRecipe.
  eexists. split; [reflexivity |].
  apply nth_In. apply random_index_lt. rewrite recipes_length. lia.
Qed.

Lemma fallback_loop_spec (h : Host) (count i : Z) (acc : list value) (st : nat) :
  exists rs,
    OpenAIService.fallback_loop h count i acc st
      = (Normal (acc ++ rs)%list, (st + length rs)%nat)
    /\ length rs = Z.to_nat (count - i)
    /\ Forall (fun r => In r OpenAIService.recipes) rs.
Proof.
  funelim (OpenAIService.fallback_loop h count i acc st).
  - destruct (getFallbackRecipe_spec h st) as [r [Hr Hin]].
    rewrite Hr.
    destruct (H (Normal r) (S st) r) as [rs [Hrs [Hlen Hall]]].
    exists (r :: rs). split; [| split].
    + rewrite Hrs. rewrite <- app_assoc. simpl.
      f_equal. lia.
    + simpl. rewrite Hlen. lia.
    + now constructor.
  - exists []. rewrite app_nil_r. simpl. split; [| split].
    + f_equal. lia.
    + lia.
    + constructor.
Qed.

Lemma fallback_many_spec (h : Host) (count : number) (st : nat) :
  exists rs,
    OpenAIService.getMultipleFallbackRecipes h count st
      = (Normal rs, (st + length rs)%nat)
    /\ length rs = match count with Some n => Z.to_nat n | None => 0%nat end
    /\ Forall (fun r => In r OpenAIService.recipes) rs.
Proof.
  destruct count as [n |]; simpl.
  - destruct (fallback_loop_spec h n 0 [] st) as [rs [Heq [Hlen Hall]]].
    exists rs. simpl in Heq. rewrite Z.sub_0_r in Hlen. auto.
  - exists []. unfold ret. simpl. rewrite Nat.add_0_r. auto.
Qed.

(** *** The completeness check and the glass repair *)

(** One field of the check: absent, falsy or truthy. *)
Ltac field_case :=
  match goal with
  | |- context [lookup ?k ?fields] =>
      destruct (lookup k fields) as [? |]; simpl;
      [ match goal with |- context [truthy ?x] => destruct (truthy x); simpl end | ];
      try reflexivity
  end.

Lemma incomplete_spec (v : value) :
  OpenAIService.incomplete v
  = if Spec.present v then Normal (negb (Spec.all_four v)) else Throw TypeError.
Proof.
  destruct v; try reflexivity.
  unfold OpenAIService.incomplete, Spec.all_four, Spec.four_fields, get, bindC.
  simpl forallb. simpl Spec.present. cbv iota.
  do 4 field_case.
Qed.

Lemma complete_spec (v : value) :
  OpenAIService.complete v
  = if Spec.present v then Normal (Spec.all_four v) else Throw TypeError.
Proof.
  destruct v; try reflexivity.
  unfold OpenAIService.complete, Spec.all_four, Spec.four_fields, get, bindC.
  simpl forallb. simpl Spec.present. cbv iota.
  do 4 field_case.
Qed.

Lemma all_four_object (v : value) :
  Spec.all_four v = true ->
  exists fields g, v = VObj fields /\ lookup "glass" fields = Some g /\ truthy g = true.
Proof.
  destruct v; simpl; try discriminate.
  intros H. exists fields.
  destruct (lookup "name" fields) as [x1 |]; [| discriminate].
  destruct (truthy x1); [| discriminate].
  destruct (lookup "glass" fields) as [x2 |]; [| discriminate].
  destruct (truthy x2) eqn:E; [| discriminate].
  exists x2. auto.
Qed.

Lemma validate_spec (v : value) :
  OpenAIService.validate v
  = if Spec.present v
    then if Spec.all_four v then Normal (Spec.coerced v)
         else Throw (Error "Invalid recipe format")
    else Throw TypeError.
Proof.
  unfold OpenAIService.validate. rewrite incomplete_spec.
  destruct (Spec.present v) eqn:Hp; [| reflexivity].
  simpl. destruct (Spec.all_four v) eqn:H4; [| reflexivity].
  simpl. destruct (all_four_object v H4) as [fields [g [-> [Hg Ht]]]].
  unfold Spec.coerced, Spec.glass_okb. simpl. rewrite Hg. simpl.
  destruct (includes OpenAIService.validGlasses g); reflexivity.
Qed.

Lemma repair_complete (v : value) :
  Spec.all_four v = true -> OpenAIService.repair v = Normal (Spec.coerced v).
Proof.
  intros H4. destruct (all_four_object v H4) as [fields [g [-> [Hg Ht]]]].
  unfold OpenAIService.repair, Spec.coerced, Spec.glass_okb. simpl. rewrite Hg. simpl.
  destruct (includes OpenAIService.validGlasses g).
  - now rewrite assign_lookup.
  - reflexivity.
Qed.

Lemma rocks_valid : In "rocks" OpenAIService.validGlasses.
Proof. simpl. auto. Qed.

Lemma repair_glass_ok (v r : value) :
  OpenAIService.repair v = Normal r -> Spec.glass_ok r.
Proof.
  unfold OpenAIService.repair, bindC.
  destruct (get v "glass") as [g | e]; [| discriminate].
  intros [= <-]. unfold Spec.glass_ok. simpl. rewrite lookup_assign_same.
  destruct (includes OpenAIService.validGlasses g) eqn:E.
  - apply includes_valid in E. destruct E as [s [-> Hin]]. eauto.
  - exists "rocks". split; [reflexivity | apply rocks_valid].
Qed.

Lemma coerced_glass_ok (v : value) :
  Spec.all_four v = true -> Spec.glass_ok (Spec.coerced v).
Proof.
  intros H4. apply repair_glass_ok with (v := v). now apply repair_complete.
Qed.

Lemma coerced_all_four (v : value) :
  Spec.all_four v = true -> Spec.all_four (Spec.coerced v) = true.
Proof.
  intros H4. unfold Spec.coerced.
  destruct (Spec.glass_okb v); [exact H4 |].
  destruct v; try exact H4.
  revert H4. unfold Spec.all_four, Spec.four_fields. simpl forallb.
  rewrite lookup_assign_same.
  rewrite !(lookup_assign_other "glass") by discriminate.
  destruct (lookup "name" fields) as [x1 |]; [| discriminate].
  destruct (truthy x1); [| discriminate].
  destruct (lookup "glass" fields) as [x2 |]; [| discriminate].
  destruct (truthy x2); [| discriminate].
  simpl. tauto.
Qed.

Lemma validate_glass_ok (v r : value) :
  OpenAIService.validate v = Normal r -> Spec.glass_ok r.
Proof.
  rewrite validate_spec.
  destruct (Spec.present v); [| discriminate].
  destruct (Spec.all_four v) eqn:H4; [| discriminate].
  intros [= <-]. now apply coerced_glass_ok.
Qed.

Lemma filterC_complete (elems : list value) :
  OpenAIService.filterC OpenAIService.complete elems
  = if forallb Spec.present elems then Normal (filter Spec.all_four elems)
    else Throw TypeError.
Proof.
  induction elems as [| x rest IH]; simpl; [reflexivity |].
  rewrite complete_spec, IH.
  destruct (Spec.present x); simpl; [| reflexivity].
  destruct (forallb Spec.present rest); simpl; [| reflexivity].
  destruct (Spec.all_four x); reflexivity.
Qed.

Lemma mapC_repair_complete (kept : list value) :
  Forall (fun v => Spec.all_four v = true) kept ->
  OpenAIService.mapC OpenAIService.repair kept = Normal (map Spec.coerced kept).
Proof.
  induction 1 as [| x rest Hx Hrest IH]; simpl; [reflexivity |].
  now rewrite (repair_complete x Hx), IH.
Qed.

Lemma mapC_repair_glass_ok (kept out : list value) :
  OpenAIService.mapC OpenAIService.repair kept = Normal out ->
  Forall Spec.glass_ok out.
Proof.
  revert out. induction kept as [| x rest IH]; simpl; intros out.
  - intros [= <-]. constructor.
  - destruct (OpenAIService.repair x) as [y | e] eqn:Hy; simpl; [| discriminate].
    destruct (OpenAIService.mapC OpenAIService.repair rest) as [ys | e];
      simpl; [| discriminate].
    intros [= <-]. constructor; [now apply repair_glass_ok with x | now apply IH].
Qed.

Lemma filter_all_four (elems : list value) :
  Forall (fun v => Spec.all_four v = true) (filter Spec.all_four elems).
Proof.
  apply Forall_forall. intros x Hx. apply filter_In in Hx. tauto.
Qed.

(** *** The two generation operations, case by case *)

Section Generation.

Variable h : Host.
Variable this : OpenAIService.Service.
Variable userMessage : string.
Variable inventory : list Ingredient.t.

Lemma validatedRecipes_array (outcome : FetchOutcome)
  (content parsed : value) (elems : list value) :
  OpenAIService.receive outcome = Normal content ->
  JSON_parse h content = Some parsed ->
  get parsed "recipes" = Normal (VArr elems) ->
  OpenAIService.validatedRecipes h outcome
  = if forallb Spec.present elems
    then Normal (map Spec.coerced (filter Spec.all_four elems))
    else Throw TypeError.
Proof.
  intros Hc Hp Hr. unfold OpenAIService.validatedRecipes.
  rewrite Hc. simpl. rewrite Hp, Hr. simpl.
  rewrite filterC_complete.
  destruct (forallb Spec.present elems); simpl; [| reflexivity].
  apply mapC_repair_complete, filter_all_four.
Qed.

Lemma validatedRecipes_glass_ok (outcome : FetchOutcome) (out : list value) :
  OpenAIService.validatedRecipes h outcome = Normal out -> Forall Spec.glass_ok out.
Proof.
  unfold OpenAIService.validatedRecipes, bindC.
  destruct (OpenAIService.receive outcome) as [content | e]; [| discriminate].
  destruct (JSON_parse h content) as [parsed |]; [| discriminate].
  destruct (get parsed "recipes") as [rs | e]; [| discriminate].
  destruct (negb (truthy rs) || negb (isArray rs)); [discriminate |].
  destruct rs; try discriminate.
  destruct (OpenAIService.filterC OpenAIService.complete elems) as [kept | e];
    [| discriminate].
  apply mapC_repair_glass_ok.
Qed.

Lemma generateMultipleRecipes_unconfigured (count : number) (st : nat) :
  OpenAIService.isConfigured this = false ->
  OpenAIService.generateMultipleRecipes h this userMessage inventory count st
  = OpenAIService.getMultipleFallbackRecipes h count st.
Proof.
  intros Hc. unfold OpenAIService.generateMultipleRecipes. now rewrite Hc.
Qed.

Lemma generateMultipleRecipes_cases (count : number) (st : nat) :
  OpenAIService.isConfigured this = true ->
  OpenAIService.generateMultipleRecipes h this userMessage inventory count st
  = match OpenAIService.validatedRecipes h
            (fetch h (OpenAIService.request_of this userMessage inventory count)) with
    | Normal (x :: xs) => (Normal (x :: xs), st)
    | _ => OpenAIService.getMultipleFallbackRecipes h count st
    end.
Proof.
  intros Hc. unfold OpenAIService.generateMultipleRecipes. rewrite Hc. simpl.
  unfold try_catchM, bind, lift, ret.
  destruct (OpenAIService.validatedRecipes h _) as [[| x xs] | e]; simpl.
  - destruct (fallback_many_spec h count st) as [rs [-> _]]. reflexivity.
  - reflexivity.
  - reflexivity.
Qed.

Lemma parse_recipe_spec (content : value) :
  OpenAIService.parse_recipe h content
  = match JSON_parse h content with
    | Some parsed =>
        match Spec.candidate parsed with
        | Some c =>
            if Spec.all_four c then Normal (Spec.coerced c)
            else Throw (Error "Failed to parse recipe from AI")
        | None => Throw (Error "Failed to parse recipe from AI")
        end
    | None => Throw (Error "Failed to parse recipe from AI")
    end.
Proof.
  unfold OpenAIService.parse_recipe.
  destruct (JSON_parse h content) as [parsed |]; [| reflexivity].
  assert (Hv : forall c, try_catch (OpenAIService.validate c)
                 (fun _ => Throw (Error "Failed to parse recipe from AI"))
               = if Spec.all_four c then Normal (Spec.coerced c)
                 else Throw (Error "Failed to parse recipe from AI")).
  { intros c. rewrite validate_spec.
    destruct c; try reflexivity.
    change (Spec.present (VObj fields)) with true. cbv iota.
    destruct (Spec.all_four (VObj fields)); reflexivity. }
  destruct parsed;
    cbn -[OpenAIService.validate Spec.all_four Spec.coerced lookup];
    try reflexivity; try apply Hv.
  destruct (lookup "recipes" fields) as [rs |];
    cbn -[OpenAIService.validate Spec.all_four Spec.coerced lookup]; [| apply Hv].
  destruct rs;
    cbn -[OpenAIService.validate Spec.all_four Spec.coerced lookup];
    try apply Hv.
  all: rewrite ?andb_false_r; apply Hv.
Qed.

Lemma parse_recipe_glass_ok (content r : value) :
  OpenAIService.parse_recipe h content = Normal r -> Spec.glass_ok r.
Proof.
  rewrite parse_recipe_spec.
  destruct (JSON_parse h content) as [parsed |]; [| discriminate].
  destruct (Spec.candidate parsed) as [c |]; [| discriminate].
  destruct (Spec.all_four c) eqn:H4; [| discriminate].
  intros [= <-]. now apply coerced_glass_ok.
Qed.

Lemma generateCocktailRecipe_unconfigured (st : nat) :
  OpenAIService.isConfigured this = false ->
  OpenAIService.generateCocktailRecipe h this userMessage inventory st
  = OpenAIService.getFallbackRecipe h st.
Proof.
  intros Hc. unfold OpenAIService.generateCocktailRecipe. now rewrite Hc.
Qed.

Lemma generateCocktailRecipe_cases (st : nat) :
  OpenAIService.isConfigured this = true ->
  OpenAIService.generateCocktailRecipe h this userMessage inventory st
  = match bindC (OpenAIService.receive
                   (fetch h (OpenAIService.request this userMessage inventory)))
                (OpenAIService.parse_recipe h) with
    | Normal r => (Normal r, st)
    | Throw _ => OpenAIService.getFallbackRecipe h st
    end.
Proof.
  intros Hc. unfold OpenAIService.generateCocktailRecipe. rewrite Hc. simpl.
  unfold try_catchM, lift.
  destruct (bindC _ _); reflexivity.
Qed.

(** Both operations always return, and what they return has a valid glass. *)
Lemma generateCocktailRecipe_total (st : nat) :
  exists r st',
    OpenAIService.generateCocktailRecipe h this userMessage inventory st = (Normal r, st')
    /\ Spec.glass_ok r /\ Spec.all_four r = true.
Proof.
  destruct (getFallbackRecipe_spec h st) as [fb [Hfb Hin]].
  destruct (OpenAIService.isConfigured this) eqn:Hc.
  - rewrite generateCocktailRecipe_cases by assumption.
    destruct (bindC _ _) as [r | e] eqn:Hb.
    + exists r, st. split; [reflexivity |].
      unfold bindC in Hb.
      destruct (OpenAIService.receive _) as [content | e]; [| discriminate].
      split; [now apply parse_recipe_glass_ok with content |].
      rewrite parse_recipe_spec in Hb.
      destruct (JSON_parse h content) as [parsed |]; [| discriminate].
      destruct (Spec.candidate parsed) as [c |]; [| discriminate].
      destruct (Spec.all_four c) eqn:H4; [| discriminate].
      injection Hb as <-.
      now apply coerced_all_four.
    + exists fb, (S st). auto with library.
  - rewrite generateCocktailRecipe_unconfigured by assumption.
    exists fb, (S st). auto with library.
Qed.

Lemma generateMultipleRecipes_total (count : number) (st : nat) :
  exists rs st',
    OpenAIService.generateMultipleRecipes h this userMessage inventory count st
      = (Normal rs, st')
    /\ Forall Spec.glass_ok rs.
Proof.
  destruct (fallback_many_spec h count st) as [fb [Hfb [_ Hall]]].
  assert (Hok : Forall Spec.glass_ok fb).
  { eapply Forall_impl; [| exact Hall]. apply library_glass_ok. }
  destruct (OpenAIService.isConfigured this) eqn:Hc.
  - rewrite generateMultipleRecipes_cases by assumption.
    destruct (OpenAIService.validatedRecipes h _) as [[| x xs] | e] eqn:Hv; eauto.
    exists (x :: xs), st. split; [reflexivity |].
    now apply validatedRecipes_glass_ok in Hv.
  - rewrite generateMultipleRecipes_unconfigured by assumption. eauto.
Qed.

End Generation.

(** *** Failures of the external call *)

Lemma get_throws (v : value) (k : string) (e : error) :
  get v k = Throw e -> e = TypeError.
Proof.
  destruct v; simpl; try discriminate; try (now intros [= <-]).
  destruct (lookup k fields); discriminate.
Qed.

Lemma get0_throws (v : value) (e : error) :
  get0 v = Throw e -> e = TypeError.
Proof.
  destruct v; simpl; try discriminate; try (now intros [= <-]).
  - destruct s; discriminate.
  - destruct (lookup "0" fields); discriminate.
Qed.

Lemma receive_response (status : Z) (data : value) :
  OpenAIService.receive (Response status (Some data))
  = if ok status
    then match Spec.content_of data with
         | Some content => Normal content
         | None => Throw TypeError
         end
    else Throw (Error ("OpenAI API error: " ++ Str.of_number (Some status))).
Proof.
  unfold OpenAIService.receive, Spec.content_of, bindC.
  destruct (ok status); simpl; [| reflexivity].
  destruct (get data "choices") as [choices | e] eqn:H1;
    [| now rewrite (get_throws _ _ _ H1)].
  destruct (get0 choices) as [choice | e] eqn:H2;
    [| now rewrite (get0_throws _ _ H2)].
  destruct (get choice "message") as [message | e] eqn:H3;
    [| now rewrite (get_throws _ _ _ H3)].
  destruct (get message "content") as [content | e] eqn:H4;
    [reflexivity | now rewrite (get_throws _ _ _ H4)].
Qed.

Lemma delivers_receive (h : Host) (outcome : FetchOutcome) (parsed : value) :
  Spec.delivers h outcome parsed ->
  exists content,
    OpenAIService.receive outcome = Normal content
    /\ JSON_parse h content = Some parsed.
Proof.
  intros [status [data [content [-> [Hok [Hc Hp]]]]]].
  exists content. rewrite receive_response, Hok, Hc. auto.
Qed.

Lemma call_failure_receive_or_parse (h : Host) (outcome : FetchOutcome) :
  Spec.call_failure h outcome ->
  (exists e, OpenAIService.receive outcome = Throw e)
  \/ (exists content, OpenAIService.receive outcome = Normal content
                      /\ JSON_parse h content = None).
Proof.
  intros [| status json Hok | status | status data Hc | status data content Hc Hp].
  - left. eexists. reflexivity.
  - left. simpl. rewrite Hok. simpl. eexists. reflexivity.
  - left. simpl. destruct (ok status); simpl; eexists; reflexivity.
  - left. rewrite receive_response, Hc. destruct (ok status); eauto.
  - rewrite receive_response, Hc. destruct (ok status); eauto.
Qed.

Lemma failure_single (h : Host) (outcome : FetchOutcome) :
  Spec.call_failure h outcome \/ Spec.invalid_recipe h outcome ->
  exists e, bindC (OpenAIService.receive outcome) (OpenAIService.parse_recipe h) = Throw e.
Proof.
  intros [Hf | [parsed [Hd Hbad]]].
  - destruct (call_failure_receive_or_parse h outcome Hf)
      as [[e He] | [content [Hc Hp]]].
    + rewrite He. simpl. eauto.
    + rewrite Hc. simpl. rewrite parse_recipe_spec, Hp. eauto.
  - destruct (delivers_receive h outcome parsed Hd) as [content [Hc Hp]].
    rewrite Hc. simpl. rewrite parse_recipe_spec, Hp.
    destruct (Spec.candidate parsed) as [c |]; [rewrite Hbad |]; eauto.
Qed.

Lemma failure_many (h : Host) (outcome : FetchOutcome) :
  Spec.call_failure h outcome \/ Spec.invalid_recipes h outcome ->
  OpenAIService.validatedRecipes h outcome = Normal []
  \/ exists e, OpenAIService.validatedRecipes h outcome = Throw e.
Proof.
  unfold OpenAIService.validatedRecipes.
  intros [Hf | [parsed [Hd Hbad]]].
  - right. destruct (call_failure_receive_or_parse h outcome Hf)
      as [[e He] | [content [Hc Hp]]].
    + rewrite He. simpl. eauto.
    + rewrite Hc. simpl. rewrite Hp. eauto.
  - destruct (delivers_receive h outcome parsed Hd) as [content [Hc Hp]].
    rewrite Hc. simpl. rewrite Hp.
    destruct (get parsed "recipes") as [rs | e] eqn:Hr; simpl; [| eauto].
    destruct (negb (truthy rs) || negb (isArray rs)) eqn:Hg; [eauto |].
    destruct rs as [| | b | n | s | elems | fields];
      try (simpl in Hg; rewrite ?orb_true_r in Hg; discriminate).
    assert (Hnone : forallb (fun e => negb (Spec.all_four e)) elems = true).
    { destruct parsed; try (simpl in Hr; discriminate).
      exact Hbad. }
    rewrite filterC_complete.
    destruct (forallb Spec.present elems); simpl; [| eauto].
    left.
    assert (Hnil : filter Spec.all_four elems = []).
    { clear - Hnone. induction elems as [| x rest IH]; simpl in *; [reflexivity |].
      apply andb_prop in Hnone. destruct Hnone as [Hx Hrest].
      destruct (Spec.all_four x); [discriminate | auto]. }
    rewrite Hnil. reflexivity.
Qed.

(** *** Claims about the fallback and the validation *)

(** C8. The service built by the constructor from the built-in key ['//']
    reports itself as configured: the comparison
    [OPENAI_API_KEY == '//' && OPENAI_API_KEY.length > 0] evaluates to [true]. *)
Theorem placeholder_key_is_configured :
  OpenAIService.OPENAI_API_KEY = "//"
  /\ (String.eqb OpenAIService.OPENAI_API_KEY "//"
      && (0 <? String.length OpenAIService.OPENAI_API_KEY)%nat) = true
  /\ OpenAIService.isApiConfigured OpenAIService.constructor = true.
Proof. repeat split. Qed.

(** C9. For every integer [n], [getMultipleFallbackRecipes(n)] returns exactly
    [max(n, 0)] recipes, each a member of the library of 8; for [n <= 0] the
    list is empty, and [n] is not clamped to the range 1..5. *)
Theorem fallback_accessor_length (h : Host) (n : Z) (st : nat) :
  exists rs,
    OpenAIService.getMultipleFallbackRecipes h (Some n) st
      = (Normal rs, (st + length rs)%nat)
    /\ Z.of_nat (length rs) = Z.max n 0
    /\ Forall (fun r => In r OpenAIService.recipes) rs
    /\ length OpenAIService.recipes = 8%nat
    /\ (n <= 0 -> rs = [])
    /\ (5 < n -> (5 < length rs)%nat).
Proof.
  destruct (fallback_many_spec h (Some n) st) as [rs [Heq [Hlen Hall]]].
  exists rs. repeat split; auto.
  - lia.
  - intros Hn. destruct rs; [reflexivity | simpl in Hlen; lia].
  - lia.
Qed.

(** C4. Whatever the host does, both operations return, and every recipe they
    return, from the endpoint or from the library, has its glass among rocks,
    highball, coupe, martini, wine and shot.  A complete recipe that the
    endpoint delivers is not rejected for its glass: the single-recipe
    operation returns it, and the multi-recipe operation returns all the
    complete entries of an array without [null], each with its glass
    coerced, that is, unchanged when the glass is one of the six and with the
    glass ['rocks'] otherwise. *)
Theorem returned_glass_is_valid (h : Host) (this : OpenAIService.Service)
  (userMessage : string) (inventory : list Ingredient.t) (count : number) (st : nat) :
  OpenAIService.validGlasses = ["rocks"; "highball"; "coupe"; "martini"; "wine"; "shot"]
  /\ (exists r st',
        OpenAIService.generateCocktailRecipe h this userMessage inventory st
          = (Normal r, st')
        /\ Spec.glass_ok r)
  /\ (exists rs st',
        OpenAIService.generateMultipleRecipes h this userMessage inventory count st
          = (Normal rs, st')
        /\ Forall Spec.glass_ok rs)
  /\ (forall parsed c,
        OpenAIService.isConfigured this = true ->
        Spec.delivers h
          (fetch h (OpenAIService.request this userMessage inventory)) parsed ->
        Spec.candidate parsed = Some c ->
        Spec.all_four c = true ->
        OpenAIService.generateCocktailRecipe h this userMessage inventory st
        = (Normal (Spec.coerced c), st))
  /\ (forall parsed elems,
        OpenAIService.isConfigured this = true ->
        Spec.delivers h
          (fetch h (OpenAIService.request_of this userMessage inventory count)) parsed ->
        get parsed "recipes" = Normal (VArr elems) ->
        forallb Spec.present elems = true ->
        filter Spec.all_four elems <> [] ->
        OpenAIService.generateMultipleRecipes h this userMessage inventory count st
        = (Normal (map Spec.coerced (filter Spec.all_four elems)), st))
  /\ (forall fields g,
        lookup "glass" fields = Some g ->
        includes OpenAIService.validGlasses g = true ->
        Spec.coerced (VObj fields) = VObj fields)
  /\ (forall fields g,
        Spec.all_four (VObj fields) = true ->
        lookup "glass" fields = Some g ->
        includes OpenAIService.validGlasses g = false ->
        Spec.coerced (VObj fields) = VObj (assign "glass" (VStr "rocks") fields)
        /\ OpenAIService.validate (VObj fields)
           = Normal (VObj (assign "glass" (VStr "rocks") fields))
        /\ OpenAIService.repair (VObj fields)
           = Normal (VObj (assign "glass" (VStr "rocks") fields))).
Proof.
  split; [reflexivity |]. split; [| split; [| split; [| split; [| split]]]].
  - destruct (generateCocktailRecipe_total h this userMessage inventory st)
      as [r [st' [Heq [Hok _]]]]. eauto.
  - apply generateMultipleRecipes_total.
  - intros parsed c Hc Hd Hcand H4.
    destruct (delivers_receive h _ parsed Hd) as [content [Hr Hp]].
    rewrite generateCocktailRecipe_cases by assumption.
    rewrite Hr. simpl bindC. now rewrite parse_recipe_spec, Hp, Hcand, H4.
  - intros parsed elems Hc Hd Hg Hpresent Hkept.
    destruct (delivers_receive h _ parsed Hd) as [content [Hr Hp]].
    rewrite generateMultipleRecipes_cases by assumption.
    rewrite (validatedRecipes_array h _ content parsed elems Hr Hp Hg), Hpresent.
    destruct (filter Spec.all_four elems); [contradiction | reflexivity].
  - intros fields g Hg Hok.
    unfold Spec.coerced, Spec.glass_okb. simpl. now rewrite Hg, Hok.
  - intros fields g H4 Hg Hbad.
    assert (Hco : Spec.coerced (VObj fields)
                  = VObj (assign "glass" (VStr "rocks") fields)).
    { unfold Spec.coerced, Spec.glass_okb. simpl. now rewrite Hg, Hbad. }
    rewrite validate_spec, (repair_complete _ H4), H4, Hco. auto.
Qed.

(** C4 on two answers of the endpoint that carry a complete recipe served in
    a mason jar: both operations return it, in a rocks glass. *)
Lemma returned_glass_is_valid_sample :
  let served :=
    OpenAIService.recipe "Garden Spritz" "rocks"
      "90ml Prosecco, 60ml Aperol, soda" "Build over ice and stir once" in
  let many := VObj [("recipes", VArr [Sample.nameless; Sample.spritz])] in
  OpenAIService.generateCocktailRecipe (Sample.answering Sample.spritz)
    OpenAIService.constructor "make me a spritz" Sample.bar 0%nat
  = (Normal served, 0%nat)
  /\ OpenAIService.generateMultipleRecipes (Sample.answering many)
       OpenAIService.constructor "two spritz recipes" Sample.bar (Some 2) 0%nat
     = (Normal [served], 0%nat).
Proof.
  cbv zeta. split.
  - destruct (returned_glass_is_valid (Sample.answering Sample.spritz)
                OpenAIService.constructor "make me a spritz" Sample.bar (Some 1) 0%nat)
      as [_ [_ [_ [Hsingle _]]]].
    apply (Hsingle Sample.spritz Sample.spritz eq_refl); [| reflexivity | reflexivity].
    exists 200, (Sample.envelope (VStr "(the answer)")), (VStr "(the answer)").
    repeat split.
  - destruct (returned_glass_is_valid
                (Sample.answering
                   (VObj [("recipes", VArr [Sample.nameless; Sample.spritz])]))
                OpenAIService.constructor "two spritz recipes" Sample.bar (Some 2) 0%nat)
      as [_ [_ [_ [_ [Hmany _]]]]].
    apply (Hmany (VObj [("recipes", VArr [Sample.nameless; Sample.spritz])])
             [Sample.nameless; Sample.spritz] eq_refl);
      [| reflexivity | reflexivity | discriminate].
    exists 200, (Sample.envelope (VStr "(the answer)")), (VStr "(the answer)").
    repeat split.
Defined.

(** C1, as stated, fails: with no network and a requested count of 0 the
    multi-recipe operation returns the empty list. *)
Lemma zero_count_gives_empty_list :
  Spec.call_failure Sample.offline
    (fetch Sample.offline
       (OpenAIService.request_of OpenAIService.constructor "surprise me" [] (Some 0)))
  /\ OpenAIService.generateMultipleRecipes Sample.offline OpenAIService.constructor
       "surprise me" [] (Some 0) 0%nat
     = (Normal [], 0%nat).
Proof. split; [constructor | reflexivity]. Qed.

(** C1, amended. For every failure of the external call (network error,
    non-2xx status, unparsable JSON, validation failure) the single-recipe
    operation returns one recipe of the library and the multi-recipe operation
    called with count [n] returns [max(n, 0)] recipes of the library, a
    non-empty list whenever [n >= 1]; neither operation ever throws. *)
Theorem failure_yields_fallback (h : Host) (this : OpenAIService.Service)
  (userMessage : string) (inventory : list Ingredient.t) (n : Z) (st : nat) :
  (Spec.call_failure h (fetch h (OpenAIService.request this userMessage inventory))
   \/ Spec.invalid_recipe h (fetch h (OpenAIService.request this userMessage inventory)) ->
   exists r,
     OpenAIService.generateCocktailRecipe h this userMessage inventory st
       = (Normal r, S st)
     /\ In r OpenAIService.recipes /\ Spec.all_four r = true)
  /\ (Spec.call_failure h
        (fetch h (OpenAIService.request_of this userMessage inventory (Some n)))
      \/ Spec.invalid_recipes h
        (fetch h (OpenAIService.request_of this userMessage inventory (Some n))) ->
      exists rs,
        OpenAIService.generateMultipleRecipes h this userMessage inventory (Some n) st
          = (Normal rs, (st + length rs)%nat)
        /\ Z.of_nat (length rs) = Z.max n 0
        /\ Forall (fun r => In r OpenAIService.recipes) rs
        /\ (1 <= n -> rs <> []))
  /\ (exists r st',
        OpenAIService.generateCocktailRecipe h this userMessage inventory st
          = (Normal r, st'))
  /\ (exists rs st',
        OpenAIService.generateMultipleRecipes h this userMessage inventory (Some n) st
          = (Normal rs, st')).
Proof.
  split; [| split; [| split]].
  - intros Hfail.
    destruct (getFallbackRecipe_spec h st) as [fb [Hfb Hin]].
    exists fb. split; [| auto using library_complete].
    destruct (OpenAIService.isConfigured this) eqn:Hc.
    + rewrite generateCocktailRecipe_cases by assumption.
      destruct (failure_single h _ Hfail) as [e ->]. exact Hfb.
    + now rewrite generateCocktailRecipe_unconfigured.
  - intros Hfail.
    destruct (fallback_many_spec h (Some n) st) as [rs [Heq [Hlen Hall]]].
    exists rs. split; [| repeat split; auto].
    + destruct (OpenAIService.isConfigured this) eqn:Hc.
      * rewrite generateMultipleRecipes_cases by assumption.
        destruct (failure_many h _ Hfail) as [-> | [e ->]]; exact Heq.
      * now rewrite generateMultipleRecipes_unconfigured.
    + lia.
    + intros Hn ->. simpl in Hlen. lia.
  - destruct (generateCocktailRecipe_total h this userMessage inventory st)
      as [r [st' [Heq _]]]. eauto.
  - destruct (generateMultipleRecipes_total h this userMessage inventory (Some n) st)
      as [rs [st' [Heq _]]]. eauto.
Qed.

(** The amended C1 at a host without network, asked for two recipes. *)
Lemma failure_yields_fallback_offline :
  Spec.call_failure Sample.offline
    (fetch Sample.offline
       (OpenAIService.request_of OpenAIService.constructor Sample.margaritas
          Sample.bar (Some 2)))
  /\ exists rs,
       OpenAIService.generateMultipleRecipes Sample.offline OpenAIService.constructor
         Sample.margaritas Sample.bar (Some 2) 0%nat
         = (Normal rs, (0 + length rs)%nat)
       /\ Z.of_nat (length rs) = Z.max 2 0
       /\ Forall (fun r => In r OpenAIService.recipes) rs
       /\ (1 <= 2 -> rs <> []).
Proof.
  assert (Hfail : Spec.call_failure Sample.offline
                    (fetch Sample.offline
                       (OpenAIService.request_of OpenAIService.constructor
                          Sample.margaritas Sample.bar (Some 2))))
    by constructor.
  split; [exact Hfail |].
  apply (failure_yields_fallback Sample.offline OpenAIService.constructor
           Sample.margaritas Sample.bar 2 0%nat).
  left. exact Hfail.
Defined.

(** C6. The code departs from the claim when the array holds a [null]: on
    the content [{"recipes": [null, spritz]}], whose second entry has all four
    fields, the callback of the filter reads [recipe.name] on [null], the
    [TypeError] lands in the [catch] of [generateMultipleRecipes], and the
    complete entry is lost to the fallback set. *)
Lemma null_entry_loses_complete_entry :
  let parsed := VObj [("recipes", VArr [VNull; Sample.spritz])] in
  let h := Sample.answering parsed in
  Spec.delivers h
    (fetch h (OpenAIService.request_of OpenAIService.constructor
                "two spritz recipes" [] (Some 2))) parsed
  /\ get parsed "recipes" = Normal (VArr [VNull; Sample.spritz])
  /\ filter Spec.all_four [VNull; Sample.spritz] = [Sample.spritz]
  /\ OpenAIService.generateMultipleRecipes h OpenAIService.constructor
       "two spritz recipes" [] (Some 2) 0%nat
     = OpenAIService.getMultipleFallbackRecipes h (Some 2) 0%nat
  /\ OpenAIService.generateMultipleRecipes h OpenAIService.constructor
       "two spritz recipes" [] (Some 2) 0%nat
     <> (Normal [Spec.coerced Sample.spritz], 0%nat).
Proof.
  cbv zeta. split.
  { exists 200, (Sample.envelope (VStr "(the answer)")), (VStr "(the answer)").
    repeat split. }
  repeat split.
  vm_compute. discriminate.
Qed.

(** X18. For every parsed multi-recipe array without a [null] entry,
    [generateMultipleRecipes] keeps exactly the entries whose four fields are
    all non-empty, in order and with the glass coerced; if no entry survives,
    it returns the fallback set for the originally requested count. *)
Theorem multi_recipe_filter (h : Host) (this : OpenAIService.Service)
  (userMessage : string) (inventory : list Ingredient.t) (count : number) (st : nat)
  (parsed : value) (elems : list value) :
  OpenAIService.isConfigured this = true ->
  Spec.delivers h
    (fetch h (OpenAIService.request_of this userMessage inventory count)) parsed ->
  get parsed "recipes" = Normal (VArr elems) ->
  forallb Spec.present elems = true ->
  OpenAIService.generateMultipleRecipes h this userMessage inventory count st
  = match filter Spec.all_four elems with
    | [] => OpenAIService.getMultipleFallbackRecipes h count st
    | kept => (Normal (map Spec.coerced kept), st)
    end.
Proof.
  intros Hc Hd Hg Hpresent.
  destruct (delivers_receive h _ parsed Hd) as [content [Hr Hp]].
  rewrite generateMultipleRecipes_cases by assumption.
  rewrite (validatedRecipes_array h _ content parsed elems Hr Hp Hg), Hpresent.
  destruct (filter Spec.all_four elems); reflexivity.
Qed.

(** X18 on an answer with a nameless recipe and a complete one. *)
Lemma multi_recipe_filter_sample :
  let parsed := VObj [("recipes", VArr [Sample.nameless; Sample.spritz])] in
  let h := Sample.answering parsed in
  OpenAIService.isConfigured OpenAIService.constructor = true
  /\ Spec.delivers h
       (fetch h (OpenAIService.request_of OpenAIService.constructor
                   "two spritz recipes" Sample.bar (Some 2))) parsed
  /\ get parsed "recipes" = Normal (VArr [Sample.nameless; Sample.spritz])
  /\ forallb Spec.present [Sample.nameless; Sample.spritz] = true
  /\ OpenAIService.generateMultipleRecipes h OpenAIService.constructor
       "two spritz recipes" Sample.bar (Some 2) 0%nat
     = (Normal [OpenAIService.recipe "Garden Spritz" "rocks"
                  "90ml Prosecco, 60ml Aperol, soda" "Build over ice and stir once"],
        0%nat).
Proof.
  cbv zeta.
  assert (Hd : Spec.delivers
                 (Sample.answering
                    (VObj [("recipes", VArr [Sample.nameless; Sample.spritz])]))
                 (fetch (Sample.answering
                           (VObj [("recipes", VArr [Sample.nameless; Sample.spritz])]))
                    (OpenAIService.request_of OpenAIService.constructor
                       "two spritz recipes" Sample.bar (Some 2)))
                 (VObj [("recipes", VArr [Sample.nameless; Sample.spritz])])).
  { exists 200, (Sample.envelope (VStr "(the answer)")), (VStr "(the answer)").
    repeat split. }
  split; [reflexivity |]. split; [exact Hd |].
  split; [reflexivity |]. split; [reflexivity |].
  apply (multi_recipe_filter
           (Sample.answering (VObj [("recipes", VArr [Sample.nameless; Sample.spritz])]))
           OpenAIService.constructor "two spritz recipes" Sample.bar (Some 2) 0%nat
           (VObj [("recipes", VArr [Sample.nameless; Sample.spritz])])
           [Sample.nameless; Sample.spritz]
           eq_refl Hd eq_refl eq_refl).
Defined.

(** C10. When the content of a single-recipe call parses to an object with a
    [recipes] array, only the first element decides: it is returned (glass
    coerced) when its four fields are non-empty, and otherwise the call falls
    back to a library recipe, whatever the later elements are. *)
Theorem first_entry_decides (h : Host) (this : OpenAIService.Service)
  (userMessage : string) (inventory : list Ingredient.t) (st : nat)
  (parsed first : value) (rest : list value) :
  OpenAIService.isConfigured this = true ->
  Spec.delivers h (fetch h (OpenAIService.request this userMessage inventory)) parsed ->
  get parsed "recipes" = Normal (VArr (first :: rest)) ->
  OpenAIService.generateCocktailRecipe h this userMessage inventory st
  = if Spec.all_four first then (Normal (Spec.coerced first), st)
    else OpenAIService.getFallbackRecipe h st.
Proof.
  intros Hc Hd Hg.
  destruct (delivers_receive h _ parsed Hd) as [content [Hr Hp]].
  rewrite generateCocktailRecipe_cases by assumption.
  rewrite Hr. simpl bindC. rewrite parse_recipe_spec, Hp.
  assert (Hcand : Spec.candidate parsed = Some first).
  { unfold Spec.candidate. rewrite Hg.
    destruct parsed; try reflexivity; discriminate. }
  rewrite Hcand. destruct (Spec.all_four first); reflexivity.
Qed.

(** C10 on an answer whose first recipe has no name and whose second is
    complete: the call returns a library recipe. *)
Lemma first_entry_decides_sample :
  let parsed := VObj [("recipes", VArr [Sample.nameless; Sample.spritz])] in
  let h := Sample.answering parsed in
  OpenAIService.isConfigured OpenAIService.constructor = true
  /\ Spec.delivers h
       (fetch h (OpenAIService.request OpenAIService.constructor
                   "make me a spritz" Sample.bar)) parsed
  /\ get parsed "recipes" = Normal (VArr [Sample.nameless; Sample.spritz])
  /\ Spec.all_four Sample.spritz = true
  /\ OpenAIService.generateCocktailRecipe h OpenAIService.constructor
       "make me a spritz" Sample.bar 3%nat
     = (Normal (nth 3 OpenAIService.recipes VUndefined), 4%nat).
Proof.
  cbv zeta.
  assert (Hd : Spec.delivers
                 (Sample.answering
                    (VObj [("recipes", VArr [Sample.nameless; Sample.spritz])]))
                 (fetch (Sample.answering
                           (VObj [("recipes", VArr [Sample.nameless; Sample.spritz])]))
                    (OpenAIService.request OpenAIService.constructor
                       "make me a spritz" Sample.bar))
                 (VObj [("recipes", VArr [Sample.nameless; Sample.spritz])])).
  { exists 200, (Sample.envelope (VStr "(the answer)")), (VStr "(the answer)").
    repeat split. }
  split; [reflexivity |]. split; [exact Hd |].
  split; [reflexivity |]. split; [reflexivity |].
  apply (first_entry_decides
           (Sample.answering (VObj [("recipes", VArr [Sample.nameless; Sample.spritz])]))
           OpenAIService.constructor "make me a spritz" Sample.bar 3%nat
           (VObj [("recipes", VArr [Sample.nameless; Sample.spritz])])
           Sample.nameless [Sample.spritz]
           eq_refl Hd eq_refl).
Defined.

(** *** The numeric pattern *)

Lemma append_assoc (a b c : string) : (a ++ b) ++ c = a ++ (b ++ c).
Proof. induction a as [| x a IH]; simpl; [reflexivity | now rewrite IH]. Qed.

Lemma append_nil_r (a : string) : a ++ "" = a.
Proof. induction a as [| x a IH]; simpl; [reflexivity | now rewrite IH]. Qed.

Lemma prefix_ci_take (w s : string) :
  Str.prefix_ci w s = true ->
  exists post, s = Str.take (String.length w) s ++ post
               /\ Spec.same_ci w (Str.take (String.length w) s) = true.
Proof.
  revert s. induction w as [| a w IH]; intros s H.
  - exists s. split; reflexivity.
  - destruct s as [| b s]; simpl in H; [discriminate |].
    apply andb_prop in H. destruct H as [Hab Hrest].
    destruct (IH s Hrest) as [post [Hs Hsame]].
    exists post. simpl. split.
    + now rewrite <- Hs.
    + unfold Spec.same_ci in *. simpl.
      apply andb_prop in Hsame. destruct Hsame as [Hlen Hp].
      rewrite Hab, Hp. simpl. now rewrite andb_true_r.
Qed.


Lemma match_alternative_sound (s g : string) :
  Str.match_alternative s = Some g ->
  Spec.is_alternative g /\ exists post, s = g ++ post.
Proof.
  unfold Str.match_alternative.
  destruct (find _ Str.alternatives) as [w |] eqn:Hf; [| discriminate].
  intros [= <-]. apply find_some in Hf. destruct Hf as [Hin Hp].
  destruct (prefix_ci_take w s Hp) as [post [Hs Hsame]].
  split; [exists w; auto | exists post; exact Hs].
Qed.


(** White space: the code's recognizer [Str.white_length] against the list
    [Spec.white_space]. *)

Lemma length_append (a b : string) :
  String.length (a ++ b) = (String.length a + String.length b)%nat.
Proof. induction a as [| x a IH]; simpl; [reflexivity | now rewrite IH]. Qed.

Lemma byte_is_eq (c : ascii) (n : nat) :
  Str.byte_is c n = true -> c = ascii_of_nat n.
Proof.
  unfold Str.byte_is. intros H. apply Nat.eqb_eq in H.
  rewrite <- H. symmetry. apply ascii_nat_embedding.
Qed.

Lemma byte_in_cases (c : ascii) (lo hi : nat) :
  Str.byte_in c lo hi = true -> In c (map ascii_of_nat (seq lo (S hi - lo))).
Proof.
  unfold Str.byte_in. intros H. apply andb_prop in H. destruct H as [H1 H2].
  apply Nat.leb_le in H1. apply Nat.leb_le in H2.
  rewrite <- (ascii_nat_embedding c). apply in_map. apply in_seq. lia.
Qed.

Ltac white_bytes :=
  repeat match goal with
    | H : (_ || _)%bool = true |- _ => apply orb_prop in H; destruct H as [H | H]
    | H : (_ && _)%bool = true |- _ =>
        let H' := fresh H in apply andb_prop in H; destruct H as [H' H]
    | H : Str.byte_is _ _ = true |- _ => apply byte_is_eq in H; subst
    | H : Str.byte_in _ _ _ = true |- _ =>
        apply byte_in_cases in H; simpl in H;
        repeat (destruct H as [<- | H]); try contradiction
    end.

Ltac listed := repeat first [left; reflexivity | right].

Ltac each_white H :=
  unfold Spec.white_space in H; simpl in H;
  repeat (destruct H as [<- | H]; [reflexivity |]); contradiction.

(** Every string starts with one of the listed characters, or the
    recognizer answers 0. *)
Lemma white_length_view (s : string) :
  Str.white_length s = 0%nat
  \/ exists w t, In w Spec.white_space /\ s = w ++ t.
Proof.
  destruct s as [| c1 r1]; [now left |]. unfold Str.white_length.
  destruct (Str.white1 c1) eqn:H1.
  { right. exists (String c1 ""), r1. split; [| reflexivity].
    unfold Str.white1 in H1. white_bytes; unfold Spec.white_space; simpl; listed. }
  destruct r1 as [| c2 r2]; [now left |].
  destruct (Str.white2 c1 c2) eqn:H2.
  { right. exists (String c1 (String c2 "")), r2. split; [| reflexivity].
    unfold Str.white2 in H2. white_bytes; unfold Spec.white_space; simpl; listed. }
  destruct r2 as [| c3 r3]; [now left |].
  destruct (Str.white3 c1 c2 c3) eqn:H3; [| now left].
  right. exists (String c1 (String c2 (String c3 ""))), r3. split; [| reflexivity].
  unfold Str.white3 in H3. white_bytes; unfold Spec.white_space; simpl; listed.
Qed.

Lemma white_length_In (w t : string) :
  In w Spec.white_space -> Str.white_length (w ++ t) = String.length w.
Proof. intros H. each_white H. Qed.

Lemma white_not_empty (w : string) :
  In w Spec.white_space -> (1 <= String.length w)%nat.
Proof.
  intros H. unfold Spec.white_space in H. simpl in H.
  repeat (destruct H as [<- | H]; [simpl; lia |]). contradiction.
Qed.

(** Induction over a string, one white-space character at a time. *)
Lemma white_ind (P : string -> Prop) :
  (forall s, Str.white_length s = 0%nat -> P s) ->
  (forall w t, In w Spec.white_space -> P t -> P (w ++ t)) ->
  forall s, P s.
Proof.
  intros H0 Hstep s.
  remember (String.length s) as n eqn:Hn. revert s Hn.
  induction n as [n IH] using lt_wf_ind. intros s Hn.
  destruct (white_length_view s) as [Hz | [w [t [Hw ->]]]]; [now apply H0 |].
  apply Hstep; [exact Hw |]. apply (IH (String.length t)); [| reflexivity].
  rewrite Hn, length_append. pose proof (white_not_empty w Hw). lia.
Qed.

Lemma trimStart_white (w t : string) :
  In w Spec.white_space -> Str.trimStart (w ++ t) = Str.trimStart t.
Proof. intros H. each_white H. Qed.

Lemma trimStart_other (s : string) :
  Str.white_length s = 0%nat -> Str.trimStart s = s.
Proof. destruct s; [reflexivity |]. cbn [Str.trimStart]. now intros ->. Qed.

Lemma blank_white (w t : string) :
  In w Spec.white_space -> Str.blank (w ++ t) = Str.blank t.
Proof. intros H. each_white H. Qed.

Lemma blank_other (s : string) :
  Str.white_length s = 0%nat -> Str.blank s = true -> s = "".
Proof.
  destruct s; [reflexivity |]. cbn [Str.blank]. intros ->. discriminate.
Qed.


Lemma match_spaces_white (w t : string) :
  In w Spec.white_space ->
  Str.match_spaces (w ++ t)
  = match Str.match_spaces t with
    | Some (sp, g) => Some (w ++ sp, g)
    | None => None
    end.
Proof. intros H. each_white H. Qed.

Lemma match_spaces_other (s : string) :
  Str.white_length s = 0%nat ->
  Str.match_spaces s
  = match Str.match_alternative s with
    | Some g => Some ("", g)
    | None => None
    end.
Proof. destruct s; [reflexivity |]. cbn [Str.match_spaces]. now intros ->. Qed.

Lemma blank_spec (s : string) : Str.blank s = true <-> Spec.blank s.
Proof.
  split.
  - induction s as [s Hz | w t Hw IH] using white_ind; intros H.
    + rewrite (blank_other s Hz H). constructor.
    + rewrite (blank_white w t Hw) in H. constructor; auto.
  - induction 1 as [| w sp Hw _ IH]; [reflexivity |].
    now rewrite (blank_white w sp Hw).
Qed.

Lemma blank_app (a b : string) :
  Spec.blank a -> Str.blank (a ++ b) = Str.blank b.
Proof.
  induction 1 as [| w sp Hw _ IH]; [reflexivity |].
  now rewrite append_assoc, (blank_white w _ Hw).
Qed.

Lemma match_spaces_sound (s sp g : string) :
  Str.match_spaces s = Some (sp, g) ->
  Spec.blank sp
  /\ Spec.is_alternative g /\ exists post, s = sp ++ g ++ post.
Proof.
  revert sp g. induction s as [s Hz | w t Hw IH] using white_ind; intros sp g H.
  - rewrite (match_spaces_other s Hz) in H.
    destruct (Str.match_alternative s) as [g' |] eqn:Ha; [| discriminate].
    injection H as <- <-. apply match_alternative_sound in Ha.
    destruct Ha as [Halt [post Hs]]. split; [constructor |]. split; [exact Halt |].
    exists post. exact Hs.
  - rewrite (match_spaces_white w t Hw) in H.
    destruct (Str.match_spaces t) as [[sp' g'] |] eqn:Ht; [| discriminate].
    injection H as <- <-.
    destruct (IH sp' g' eq_refl) as [Hb [Halt [post Hs]]].
    split; [now constructor |]. split; [exact Halt |].
    exists post. now rewrite append_assoc, <- Hs.
Qed.


Lemma match_here_sound (s : string) (m : Str.RegExpMatch) :
  Str.match_here s = Some m ->
  Spec.well_formed m /\ exists post, s = Str.whole m ++ post.
Proof.
  revert m. induction s as [| c rest IH]; intros m H; simpl in H; [discriminate |].
  destruct (Str.is_digit c) eqn:Hc; [| discriminate].
  destruct (Str.match_here rest) as [m' |] eqn:Hrest.
  - injection H as <-.
    destruct (IH m' eq_refl) as [[Hne [Hd [sp [Hw [Hsp Halt]]]]] [post Hs]].
    split.
    + split; [discriminate |]. split; [simpl; now rewrite Hc |].
      exists sp. simpl. rewrite Hw. auto.
    + exists post. simpl. now rewrite <- Hs.
  - destruct (Str.match_spaces rest) as [[sp w] |] eqn:Hsp; [| discriminate].
    injection H as <-.
    apply match_spaces_sound in Hsp. destruct Hsp as [Hall [Halt [post Hs]]].
    split.
    + split; [discriminate |]. split; [simpl; now rewrite Hc |].
      exists sp. simpl. auto.
    + exists post. simpl. rewrite Hs.
      now rewrite append_assoc.
Qed.


Lemma match_number_pattern_eq (s : string) :
  Str.match_number_pattern s
  = match Str.match_here s with
    | Some m => Some m
    | None =>
        match s with
        | String _ rest => Str.match_number_pattern rest
        | EmptyString => None
        end
    end.
Proof. destruct s; reflexivity. Qed.

Lemma match_number_pattern_sound (s : string) (m : Str.RegExpMatch) :
  Str.match_number_pattern s = Some m -> Spec.Matches s m.
Proof.
  revert m. induction s as [| c rest IH]; intros m H;
    rewrite match_number_pattern_eq in H.
  - discriminate.
  - destruct (Str.match_here (String c rest)) as [m' |] eqn:Hh.
    + injection H as <-.
      apply match_here_sound in Hh.
      destruct Hh as [[Hne [Hd [sp [Hw [Hsp Halt]]]]] [post Hs]].
      exists "", sp, post. simpl. repeat split; auto.
    + destruct (IH m H) as [pre [sp [post [Hs Hrest]]]].
      exists (String c pre), sp, post. simpl. rewrite <- Hs. auto.
Qed.


(** [parseInt] on a captured run of digits. *)
Lemma digit_not_space (c : ascii) (d : string) :
  Str.is_digit c = true -> Str.white_length (String c d) = 0%nat.
Proof.
  unfold Str.is_digit. intros H.
  apply andb_prop in H. destruct H as [H1 H2].
  apply Nat.leb_le in H1. apply Nat.leb_le in H2.
  assert (Hne : forall n, (58 <= n)%nat -> Str.byte_is c n = false).
  { intros n Hn. apply Nat.eqb_neq. lia. }
  assert (Hw1 : Str.white1 c = false).
  { unfold Str.white1, Str.byte_in, Str.byte_is. apply orb_false_iff. split.
    - apply andb_false_iff. right. apply Nat.leb_gt. lia.
    - apply Nat.eqb_neq. lia. }
  unfold Str.white_length. rewrite Hw1.
  destruct d as [| c2 [| c3 d]]; try reflexivity.
  - unfold Str.white2. now rewrite Hne by lia.
  - unfold Str.white2, Str.white3. now rewrite !Hne by lia.
Qed.

Lemma parse_digits_all (d : string) (a : Z) :
  Spec.all Str.is_digit d = true ->
  Str.parse_digits Str.decimal_digit 10 d (Some a)
  = Some (fold_left (fun acc c => 10 * acc + Str.digit_value c)
            (list_ascii_of_string d) a).
Proof.
  revert a. induction d as [| c d IH]; intros a H; simpl; [reflexivity |].
  simpl in H. apply andb_prop in H. destruct H as [Hc Hd].
  unfold Str.decimal_digit at 1. rewrite Hc. now rewrite IH.
Qed.

Lemma digit_not_sign_or_x (c : ascii) :
  Str.is_digit c = true ->
  Ascii.eqb c "-"%char = false /\ Ascii.eqb c "+"%char = false /\ Str.is_x c = false.
Proof.
  intros H. unfold Str.is_x.
  repeat split; try apply orb_false_iff; repeat split;
    apply Ascii.eqb_neq; intros ->; discriminate.
Qed.

Lemma parseInt_digits (d : string) :
  d <> "" ->
  Spec.all Str.is_digit d = true ->
  Str.parseInt d = Some (Spec.decimal_value d).
Proof.
  intros Hne H. destruct d as [| c d]; [contradiction |].
  pose proof H as Hall.
  simpl in H. apply andb_prop in H. destruct H as [Hc Hd].
  destruct (digit_not_sign_or_x c Hc) as [Hminus [Hplus _]].
  assert (Hdec : Str.parse_digits Str.decimal_digit 10 (String c d) None
                 = Some (Spec.decimal_value (String c d))).
  { unfold Spec.decimal_value. simpl.
    unfold Str.decimal_digit at 1. rewrite Hc. now rewrite parse_digits_all. }
  unfold Str.parseInt.
  rewrite (trimStart_other _ (digit_not_space c d Hc)), Hminus, Hplus.
  destruct d as [| x d'].
  - rewrite Hdec. f_equal. lia.
  - simpl in Hd. apply andb_prop in Hd. destruct Hd as [Hx _].
    destruct (digit_not_sign_or_x x Hx) as [_ [_ Hnox]].
    rewrite Hnox, andb_false_r, Hdec. f_equal. lia.
Qed.

Lemma prefix_append (a s : string) :
  String.prefix a s = true <-> exists post, s = a ++ post.
Proof.
  revert s. induction a as [| x a IH]; intros s.
  - split; [intros _; exists s; reflexivity | intros _; destruct s; reflexivity].
  - destruct s as [| y s]; simpl.
    + split; [discriminate | intros [post H]; discriminate].
    + destruct (ascii_dec x y) as [-> | Hne].
      * rewrite IH. split; intros [post H]; exists post; [now rewrite H | now injection H].
      * split; [discriminate | intros [post H]; injection H; congruence].
Qed.

Lemma includes_eq (s needle : string) :
  Str.includes s needle
  = if String.prefix needle s then true
    else match s with
         | EmptyString => false
         | String _ rest => Str.includes rest needle
         end.
Proof. destruct s; reflexivity. Qed.

Lemma includes_spec (s needle : string) :
  Str.includes s needle = true <-> exists pre post, s = pre ++ needle ++ post.
Proof.
  induction s as [| c s IH]; rewrite includes_eq;
    destruct (String.prefix needle _) eqn:Hp.
  - apply prefix_append in Hp. destruct Hp as [post Hp].
    split; [intros _; exists "", post; exact Hp | reflexivity].
  - split; [discriminate |].
    intros [pre [post H]]. destruct pre; [| discriminate].
    assert (String.prefix needle "" = true) by (apply prefix_append; eauto).
    congruence.
  - apply prefix_append in Hp. destruct Hp as [post Hp].
    split; [intros _; exists "", post; exact Hp | reflexivity].
  - rewrite IH. split.
    + intros [pre [post H]]. exists (String c pre), post. simpl. now rewrite H.
    + intros [pre [post H]]. destruct pre as [| x pre].
      * assert (String.prefix needle (String c s) = true)
          by (apply prefix_append; eauto).
        congruence.
      * injection H as _ H. eauto.
Qed.


Lemma numberMatch_parseInt (userMessage : string) (m : Str.RegExpMatch) :
  Str.match_number_pattern userMessage = Some m ->
  Str.parseInt (Str.group1 m) = Some (Spec.decimal_value (Str.group1 m)).
Proof.
  intros H. apply match_number_pattern_sound in H.
  destruct H as [pre [sp [post [_ [_ [Hne [Hd _]]]]]]].
  now apply parseInt_digits.
Qed.



(** White space is not only the ASCII space: digits, a no-break space, the
    word. *)
Lemma no_break_space_separates :
  OpenAIService.requestedCount ("I want 4" ++ Sample.no_break_space ++ "drinks")
  = Some 4
  /\ AIChatScreen.count ("I want 4" ++ Sample.no_break_space ++ "drinks")
     = Some 4.
Proof. split; reflexivity. Qed.

(** *** The ingredient listing *)

Lemma fold_comma_append (others : list string) (p q : string) :
  fold_left (fun acc e => acc ++ ", " ++ e) others (p ++ q)
  = p ++ fold_left (fun acc e => acc ++ ", " ++ e) others q.
Proof.
  revert q. induction others as [| y r IH]; intros q; simpl; [reflexivity |].
  now rewrite append_assoc, IH.
Qed.

Lemma concat_comma_joined (entries : list string) :
  String.concat ", " entries = Spec.comma_joined entries.
Proof.
  destruct entries as [| x others]; [reflexivity |].
  unfold Spec.comma_joined. revert x.
  induction others as [| y r IH]; intros x; [reflexivity |].
  change (String.concat ", " (x :: y :: r))
    with (x ++ ", " ++ String.concat ", " (y :: r)).
  rewrite IH. cbn [fold_left].
  now rewrite fold_comma_append, fold_comma_append.
Qed.

Lemma inventoryList_listing (inventory : list Ingredient.t) :
  OpenAIService.inventoryList inventory = Spec.ingredient_listing inventory.
Proof.
  destruct inventory as [| item rest]; [reflexivity |].
  unfold OpenAIService.inventoryList, Spec.ingredient_listing.
  change (0 <? length (item :: rest))%nat with true. cbv iota.
  apply concat_comma_joined.
Qed.

Lemma lines_third (l1 l2 l3 l4 : string) (rest : list string) :
  Str.lines (l1 :: l2 :: l3 :: l4 :: rest)
  = (l1 ++ Str.newline ++ l2 ++ Str.newline) ++ l3
    ++ (Str.newline ++ Str.lines (l4 :: rest)).
Proof.
  unfold Str.lines.
  change (String.concat Str.newline (l1 :: l2 :: l3 :: l4 :: rest))
    with (l1 ++ Str.newline ++ l2 ++ Str.newline ++ l3 ++ Str.newline
          ++ String.concat Str.newline (l4 :: rest)).
  now rewrite !append_assoc.
Qed.

Lemma prompts_embed_listing (inventoryList : string) :
  (forall count, exists before after,
      OpenAIService.recipesPrompt count inventoryList
      = before ++ Spec.listing_label ++ inventoryList ++ after)
  /\ (exists before after,
      OpenAIService.recipePrompt inventoryList
      = before ++ Spec.listing_label ++ inventoryList ++ after)
  /\ (forall count, exists before after,
      OpenAIService.diversePrompt count inventoryList
      = before ++ Spec.listing_label ++ inventoryList ++ after).
Proof.
  unfold OpenAIService.recipesPrompt, OpenAIService.recipePrompt,
    OpenAIService.diversePrompt.
  split; [| split]; intros; rewrite lines_third;
    eexists; eexists; rewrite (append_assoc Spec.listing_label); reflexivity.
Qed.

(** C5. For every inventory, the empty one included, the ingredient listing
    the generation prompts embed is the literal marker ['No inventory
    available'] when the inventory is empty and otherwise exactly the entries
    ["name (category)"] joined by a comma and a space. *)
Theorem ingredient_listing_shape (inventory : list Ingredient.t) :
  OpenAIService.inventoryList inventory = Spec.ingredient_listing inventory
  /\ OpenAIService.inventoryList [] = "No inventory available"
  /\ (forall userMessage, exists before after,
        OpenAIService.systemPrompt userMessage inventory
        = before ++ "Available ingredients in their bar: "
          ++ OpenAIService.inventoryList inventory ++ after)
  /\ (forall count, exists before after,
        OpenAIService.systemPrompt_of count inventory
        = before ++ "Available ingredients in their bar: "
          ++ OpenAIService.inventoryList inventory ++ after).
Proof.
  destruct (prompts_embed_listing (OpenAIService.inventoryList inventory))
    as [Hmany [Hone Hdiverse]].
  split; [apply inventoryList_listing |]. split; [reflexivity |]. split.
  - intros userMessage. unfold OpenAIService.systemPrompt.
    destruct (_ || _); [apply Hmany | apply Hone].
  - intros count. apply Hdiverse.
Qed.

(** *** The scenario of the two margaritas *)





Lemma try_generateMultipleRecipes (h : Host) (this : OpenAIService.Service)
  (userMessage : string) (inventory : list Ingredient.t) (count : number)
  (handler : error -> M (list value)) (st : nat) :
  try_catchM
    (OpenAIService.generateMultipleRecipes h this userMessage inventory count)
    handler st
  = OpenAIService.generateMultipleRecipes h this userMessage inventory count st.
Proof.
  unfold try_catchM.
  destruct (generateMultipleRecipes_total h this userMessage inventory count st)
    as [rs [st' [-> _]]].
  reflexivity.
Qed.




(** *** Saving a suggestion *)

Lemma insert_desc_perm (r : Recipe.t) (l : list Recipe.t) :
  Permutation (DatabaseService.insert_desc r l) (r :: l).
Proof.
  induction l as [| x rest IH]; simpl; [reflexivity |].
  destruct (String.ltb _ _); [| reflexivity].
  rewrite IH. apply perm_swap.
Qed.

Lemma order_by_perm (l : list Recipe.t) :
  Permutation (DatabaseService.order_by_dateAdded_desc l) l.
Proof.
  unfold DatabaseService.order_by_dateAdded_desc.
  induction l as [| x rest IH]; simpl; [reflexivity |].
  rewrite insert_desc_perm. now constructor.
Qed.

(** C7. Saving a suggestion through the save action of the chat screen and
    reloading the recipe store yields a recipe whose name, ingredients,
    instructions and glass are those of the suggestion and whose source is
    ["AI Generated"]. *)
Theorem saved_suggestion_round_trip (now : string) (tbl : DatabaseService.Table)
  (recipe : RecipeSuggestion.t) :
  exists db' notice loaded saved,
    AIChatScreen.handleSaveRecipe now (Some tbl) recipe = (db', notice)
    /\ AIChatScreen.title notice = "Success"
    /\ DatabaseService.getAllRecipes db' = Normal loaded
    /\ In saved loaded
    /\ Recipe.name saved = RecipeSuggestion.name recipe
    /\ Recipe.ingredients saved = RecipeSuggestion.ingredients recipe
    /\ Recipe.instructions saved = RecipeSuggestion.instructions recipe
    /\ Recipe.glass saved = RecipeSuggestion.glass recipe
    /\ Recipe.source saved = "AI Generated"
    /\ Permutation loaded (saved :: DatabaseService.rows tbl).
Proof.
  unfold AIChatScreen.handleSaveRecipe. simpl.
  set (saved := DatabaseService.row (DatabaseService.last_id tbl + 1) _).
  assert (Hperm : Permutation
            (DatabaseService.order_by_dateAdded_desc
               (DatabaseService.rows tbl ++ [saved])%list)
            (saved :: DatabaseService.rows tbl)).
  { rewrite order_by_perm. rewrite Permutation_app_comm. reflexivity. }
  eexists. eexists. eexists. exists saved.
  split; [reflexivity |]. split; [reflexivity |].
  split; [reflexivity |]. split.
  - eapply Permutation_in; [symmetry; exact Hperm | left; reflexivity].
  - repeat split; try reflexivity. exact Hperm.
Qed.

(** *** The count the chat screen passes on *)

Lemma digit_value_nonneg (c : ascii) : Str.is_digit c = true -> 0 <= Str.digit_value c.
Proof.
  unfold Str.is_digit, Str.digit_value. intros H.
  apply andb_prop in H. destruct H as [H _]. apply Nat.leb_le in H. lia.
Qed.

Lemma decimal_value_nonneg (d : string) :
  Spec.all Str.is_digit d = true -> 0 <= Spec.decimal_value d.
Proof.
  unfold Spec.decimal_value.
  assert (G : forall a, 0 <= a ->
            Spec.all Str.is_digit d = true ->
            0 <= fold_left (fun acc c => 10 * acc + Str.digit_value c)
                   (list_ascii_of_string d) a).
  { induction d as [| c d IH]; intros a Ha H;
      cbn [fold_left list_ascii_of_string]; [exact Ha |].
    simpl in H. apply andb_prop in H. destruct H as [Hc Hd].
    apply IH; [| exact Hd].
    pose proof (digit_value_nonneg c Hc). lia. }
  intros H. apply G; [lia | exact H].
Qed.

(** Whatever the request, [handleSend] asks [generateMultipleRecipes] for a
    count between 1 and 5. *)
Lemma screen_count_range (userMessage : string) :
  exists N, AIChatScreen.count userMessage = Some N /\ 1 <= N <= 5.
Proof.
  unfold AIChatScreen.count, AIChatScreen.requestedCount, AIChatScreen.numberMatch.
  destruct (Str.match_number_pattern userMessage) as [m |] eqn:Hm.
  - rewrite (numberMatch_parseInt userMessage m Hm).
    apply match_number_pattern_sound in Hm.
    destruct Hm as [pre [sp [post [_ [_ [_ [Hd _]]]]]]].
    pose proof (decimal_value_nonneg _ Hd) as Hpos.
    destruct (Spec.decimal_value (Str.group1 m)) as [| p | p] eqn:E; simpl.
    + exists 3. split; [reflexivity | lia].
    + exists (Z.min (Z.pos p) 5). split; [reflexivity | lia].
    + lia.
  - destruct (AIChatScreen.requestsMultiple userMessage); simpl;
      exists 3; split; (reflexivity || lia).
Qed.

(* ===================================================================== *)
(** ** Further properties of the services and the screens *)
(* ===================================================================== *)

(** *** The narrative fallback *)

Lemma ascii_byte (c : ascii) (n : nat) :
  Str.is_ascii c = true -> (128 <= n)%nat -> Str.byte_is c n = false.
Proof.
  unfold Str.is_ascii, Str.byte_is. intros H Hn.
  apply Nat.ltb_lt in H. apply Nat.eqb_neq. lia.
Qed.

(** Lower-casing goes through a word of ASCII characters letter by letter. *)
Lemma toLowerCase_ascii (w post : string) :
  Spec.all Str.is_ascii w = true ->
  Str.toLowerCase (w ++ post) = Str.toLowerCase w ++ Str.toLowerCase post.
Proof.
  induction w as [| c w IH]; intros H; [reflexivity |].
  simpl in H. apply andb_prop in H. destruct H as [Hc Hw].
  cbn [append Str.toLowerCase].
  rewrite !(ascii_byte c _ Hc) by lia. cbn [append]. now rewrite IH.
Qed.

(** What stands before an ASCII character does not change how the text from
    that character on is lower-cased. *)
Lemma toLowerCase_suffix (pre t : string) :
  (forall c r, t = String c r -> Str.is_ascii c = true) ->
  exists p, Str.toLowerCase (pre ++ t) = p ++ Str.toLowerCase t.
Proof.
  intros Ht.
  assert (G : forall n pre, (String.length pre <= n)%nat ->
                exists p, Str.toLowerCase (pre ++ t) = p ++ Str.toLowerCase t).
  { induction n as [| n IH]; intros [| c1 p1] Hlen;
      try (exists ""; reflexivity); [simpl in Hlen; lia |].
    simpl in Hlen.
    assert (Hkeep : forall c, exists p,
                String c (Str.toLowerCase (p1 ++ t)) = p ++ Str.toLowerCase t).
    { intros c. destruct (IH p1 ltac:(lia)) as [p Hp].
      exists (String c p). now rewrite Hp. }
    cbn [append Str.toLowerCase].
    destruct (Str.byte_is c1 196) eqn:H196.
    - destruct p1 as [| c2 p2].
      + destruct t as [| c r]; [exists (String c1 ""); reflexivity |].
        cbn [append]. rewrite (ascii_byte c _ (Ht c r eq_refl)) by lia.
        exists (String c1 ""). reflexivity.
      + cbn [append]. destruct (Str.byte_is c2 176).
        * simpl in Hlen. destruct (IH p2 ltac:(lia)) as [p Hp].
          exists (String "i" (Str.dot_above ++ p)). rewrite Hp.
          cbn [append]. now rewrite append_assoc.
        * apply Hkeep.
    - destruct (Str.byte_is c1 226) eqn:H226; [| apply Hkeep].
      destruct p1 as [| c2 [| c3 p3]]; cbn [append].
      + destruct t as [| c [| c' r]]; try (exists (String c1 ""); reflexivity).
        rewrite (ascii_byte c _ (Ht c _ eq_refl)) by lia.
        exists (String c1 ""). reflexivity.
      + destruct t as [| c r]; [apply (Hkeep c1) |].
        rewrite (ascii_byte c _ (Ht c r eq_refl)) by lia.
        rewrite andb_false_r. apply (Hkeep c1).
      + destruct (Str.byte_is c2 132 && Str.byte_is c3 170); [| apply (Hkeep c1)].
        simpl in Hlen. destruct (IH p3 ltac:(lia)) as [p Hp].
        exists (String "k" p). now rewrite Hp. }
  apply (G (String.length pre)). lia.
Qed.

Lemma lower_ascii (a b : ascii) :
  Str.is_ascii a = true -> Str.lower a = Str.lower b -> Str.is_ascii b = true.
Proof.
  unfold Str.is_ascii, Str.lower, Str.is_upper. intros Ha H.
  apply Nat.ltb_lt in Ha. apply Nat.ltb_lt.
  apply (f_equal nat_of_ascii) in H. revert H.
  destruct ((65 <=? nat_of_ascii a)%nat && (nat_of_ascii a <=? 90)%nat) eqn:Ea;
    destruct ((65 <=? nat_of_ascii b)%nat && (nat_of_ascii b <=? 90)%nat) eqn:Eb;
    try (apply andb_prop in Ea; destruct Ea as [Ea1 Ea2];
         apply Nat.leb_le in Ea1; apply Nat.leb_le in Ea2);
    try (apply andb_prop in Eb; destruct Eb as [Eb1 Eb2];
         apply Nat.leb_le in Eb1; apply Nat.leb_le in Eb2);
    rewrite ?nat_ascii_embedding by lia; lia.
Qed.

Lemma same_ci_lower (k w : string) :
  Spec.all Str.is_ascii k = true ->
  Spec.same_ci k w = true ->
  Spec.all Str.is_ascii w = true /\ Str.toLowerCase w = Str.toLowerCase k.
Proof.
  unfold Spec.same_ci. revert w.
  induction k as [| a k IH]; intros [| b w] Hk H; simpl in H; try discriminate;
    [split; reflexivity |].
  simpl in Hk. apply andb_prop in Hk. destruct Hk as [Ha Hk].
  apply andb_prop in H. destruct H as [Hlen H].
  apply andb_prop in H. destruct H as [Hab Hrest].
  apply Ascii.eqb_eq in Hab.
  pose proof (lower_ascii a b Ha Hab) as Hb.
  destruct (IH w Hk) as [Hw Hlow]; [now rewrite Hlen, Hrest |].
  split; [simpl; now rewrite Hb, Hw |].
  cbn [Str.toLowerCase].
  rewrite !(ascii_byte a _ Ha), !(ascii_byte b _ Hb) by lia.
  now rewrite Hab, Hlow.
Qed.

Lemma mention_included (k pre w post : string) :
  Spec.all Str.is_ascii k = true ->
  Str.toLowerCase k = k ->
  Spec.same_ci k w = true ->
  Str.includes (Str.toLowerCase (pre ++ w ++ post)) k = true.
Proof.
  intros Hascii Hk Hw. apply includes_spec.
  destruct k as [| a k'].
  { exists "", (Str.toLowerCase (pre ++ w ++ post)). reflexivity. }
  destruct (same_ci_lower _ w Hascii Hw) as [Hwa Hlow].
  destruct (toLowerCase_suffix pre (w ++ post)) as [p Hp].
  { intros c r E. destruct w as [| b w']; [discriminate Hw |].
    injection E as <- _. simpl in Hwa. apply andb_prop in Hwa. tauto. }
  exists p, (Str.toLowerCase post).
  now rewrite Hp, (toLowerCase_ascii w post Hwa), Hlow, Hk.
Qed.

(** X1. Whatever else a message says, the word negroni in it, in any mix of upper
    and lower case, selects the Negroni answer: the first test of
    [getFallbackChatResponse] has priority over all later ones. *)
Theorem negroni_mention_wins (pre w post : string) :
  Spec.same_ci "negroni" w = true ->
  OpenAIService.getFallbackChatResponse (pre ++ w ++ post)
  = OpenAIService.negroniResponse.
Proof.
  intros Hw. unfold OpenAIService.getFallbackChatResponse. cbv zeta.
  now rewrite (mention_included "negroni" pre w post eq_refl eq_refl Hw).
Qed.

Lemma negroni_mention_wins_sample :
  Spec.same_ci "negroni" "NeGrOnI" = true
  /\ OpenAIService.getFallbackChatResponse
       ("Should I shake a " ++ "NeGrOnI" ++ " or a margarita?")
     = OpenAIService.negroniResponse.
Proof.
  split; [reflexivity |].
  apply (negroni_mention_wins "Should I shake a " "NeGrOnI" " or a margarita?").
  reflexivity.
Defined.

Lemma responses_not_default :
  Forall (fun r => r <> OpenAIService.defaultResponse)
    [OpenAIService.negroniResponse; OpenAIService.oldFashionedResponse;
     OpenAIService.margaritaResponse; OpenAIService.martiniResponse;
     OpenAIService.mojitoResponse; OpenAIService.techniqueResponse;
     OpenAIService.glasswareResponse; OpenAIService.recipesResponse;
     OpenAIService.stockingResponse].
Proof. repeat constructor; intros H; vm_compute in H; discriminate H. Qed.

Lemma fallback_default_iff_no_keyword (message : string) :
  OpenAIService.getFallbackChatResponse message = OpenAIService.defaultResponse
  <-> forallb (fun k => negb (Str.includes (Str.toLowerCase message) k))
        Narrative.keywords = true.
Proof.
  pose proof responses_not_default as Hne.
  repeat match type of Hne with
         | Forall _ (_ :: _) => inversion_clear Hne as [| ? ? ? Hne']; rename Hne' into Hne
         end.
  unfold OpenAIService.getFallbackChatResponse, Narrative.keywords. cbv zeta.
  generalize (Str.toLowerCase message) as lm. intros lm.
  cbn [forallb].
  repeat match goal with
         | |- context [Str.includes lm ?k] =>
             destruct (Str.includes lm k);
             cbn [negb andb orb];
             [ split; [intros E; exfalso; congruence | discriminate] | ]
         end.
  split; reflexivity.
Qed.

(** X2. The catch-all answer of [getFallbackChatResponse] is given exactly to the
    messages that mention none of its seventeen keywords. *)
Theorem default_answer_iff_no_keyword (message : string) :
  OpenAIService.getFallbackChatResponse message = OpenAIService.defaultResponse
  <-> ~ exists k, In k Narrative.keywords /\ Narrative.mentions message k.
Proof.
  rewrite fallback_default_iff_no_keyword, forallb_forall. split.
  - intros H [k [Hin Hm]]. specialize (H k Hin).
    apply includes_spec in Hm. now rewrite Hm in H.
  - intros H k Hin. destruct (Str.includes _ k) eqn:E; [| reflexivity].
    exfalso. apply H. exists k. split; [exact Hin |]. now apply includes_spec.
Qed.

(** Two letters outside ASCII have a lower-case form within it: the Kelvin
    sign reads as k, the dotted capital I as i (and a combining dot). *)
Lemma lower_case_forms_in_ascii :
  AIChatScreen.asksForRecipe ("ma" ++ Sample.kelvin_sign ++ "e me a drink") = true
  /\ OpenAIService.getFallbackChatResponse
       ("NEGRON" ++ Sample.dotted_capital_i ++ " please")
     = OpenAIService.negroniResponse.
Proof. split; reflexivity. Qed.

(** *** The narrative call *)

(** X3. [getChatResponse] never throws.  It yields the content of the answer when
    the service is configured and a response with a 2xx status carries one,
    and the fallback text for the message in every other case: no key, no
    response, another status, a body that is not JSON, a body without the
    content. *)
Theorem chat_response_cases (h : Host) (this : OpenAIService.Service)
  (recipes : string) (chatHistory : list (string * string)) (message : string) :
  OpenAIService.getChatResponse h this recipes chatHistory message
  = Normal
      (if OpenAIService.isConfigured this
       then match fetch h (OpenAIService.chat_request this recipes chatHistory message) with
            | Response status (Some data) =>
                if ok status
                then match Spec.content_of data with
                     | Some content => content
                     | None => VStr (OpenAIService.getFallbackChatResponse message)
                     end
                else VStr (OpenAIService.getFallbackChatResponse message)
            | _ => VStr (OpenAIService.getFallbackChatResponse message)
            end
       else VStr (OpenAIService.getFallbackChatResponse message)).
Proof.
  unfold OpenAIService.getChatResponse.
  destruct (OpenAIService.isConfigured this); [| reflexivity].
  cbn [negb]. cbv iota.
  destruct (fetch h _) as [| status [data |]].
  - reflexivity.
  - rewrite receive_response.
    destruct (ok status); [| reflexivity].
    destruct (Spec.content_of data); reflexivity.
  - simpl. destruct (ok status); reflexivity.
Qed.

Lemma recentHistory_suffix (chatHistory : list (string * string)) :
  exists dropped,
    chatHistory = (dropped ++ OpenAIService.recentHistory chatHistory)%list
    /\ length (OpenAIService.recentHistory chatHistory)
       = Nat.min 6 (length chatHistory).
Proof.
  unfold OpenAIService.recentHistory.
  exists (firstn (length chatHistory - 6) chatHistory). split.
  - now rewrite firstn_skipn.
  - rewrite length_skipn. lia.
Qed.

(** X4. The narrative request carries the system prompt first, then the last six
    entries of the chat history in their order (all of them when there are
    fewer), then the user's message: never more than eight messages. *)
Theorem chat_request_messages (this : OpenAIService.Service) (recipes : string)
  (chatHistory : list (string * string)) (message : string) :
  exists dropped recent,
    chatHistory = (dropped ++ recent)%list
    /\ length recent = Nat.min 6 (length chatHistory)
    /\ messages (OpenAIService.chat_request this recipes chatHistory message)
       = (("system", OpenAIService.narrativePrompt (OpenAIService.recipesJson recipes))
          :: recent ++ [("user", message)])%list
    /\ (length (messages (OpenAIService.chat_request this recipes chatHistory message))
        <= 8)%nat.
Proof.
  destruct (recentHistory_suffix chatHistory) as [dropped [Heq Hlen]].
  exists dropped, (OpenAIService.recentHistory chatHistory).
  split; [exact Heq |]. split; [exact Hlen |]. split; [reflexivity |].
  unfold OpenAIService.chat_request. cbn [messages length].
  rewrite length_app, Hlen. cbn [length]. lia.
Qed.

(** *** A service without a key *)

Lemma fallback_loop_explicit (h : Host) (count i : Z) (acc : list value) (st : nat) :
  OpenAIService.fallback_loop h count i acc st
  = (Normal (acc ++ map (Fallback.pick h) (seq st (Z.to_nat (count - i))))%list,
     (st + Z.to_nat (count - i))%nat).
Proof.
  funelim (OpenAIService.fallback_loop h count i acc st).
  - unfold OpenAIService.getFallbackRecipe. cbv beta iota.
    fold (Fallback.pick h st).
    rewrite (H (Normal (Fallback.pick h st)) (S st) (Fallback.pick h st)).
    replace (Z.to_nat (count - i)) with (S (Z.to_nat (count - (i + 1)))) by lia.
    cbn [seq map]. rewrite <- app_assoc. simpl. f_equal. lia.
  - replace (Z.to_nat (count - i)) with 0%nat by lia.
    simpl. now rewrite app_nil_r, Nat.add_0_r.
Qed.

(** The recipes of [getMultipleFallbackRecipes] are picked by consecutive
    draws, one draw per recipe, in the order of the result. *)
Lemma getMultipleFallbackRecipes_explicit (h : Host) (n : Z) (st : nat) :
  OpenAIService.getMultipleFallbackRecipes h (Some n) st
  = (Normal (map (Fallback.pick h) (seq st (Z.to_nat n))), (st + Z.to_nat n)%nat).
Proof.
  unfold OpenAIService.getMultipleFallbackRecipes.
  rewrite fallback_loop_explicit. now rewrite Z.sub_0_r.
Qed.

Lemma pick_ext (h1 h2 : Host) :
  (forall i, Math_random h1 i = Math_random h2 i) ->
  forall i, Fallback.pick h1 i = Fallback.pick h2 i.
Proof. intros H i. unfold Fallback.pick. now rewrite H. Qed.

Lemma fallbacks_ext (h1 h2 : Host) (count : number) (st : nat) :
  (forall i, Math_random h1 i = Math_random h2 i) ->
  OpenAIService.getMultipleFallbackRecipes h1 count st
  = OpenAIService.getMultipleFallbackRecipes h2 count st.
Proof.
  intros H. destruct count as [n |]; [| reflexivity].
  rewrite !getMultipleFallbackRecipes_explicit.
  f_equal. f_equal. apply map_ext. now apply pick_ext.
Qed.

(** X5. A service without a key never uses the network: what its three
    operations return does not depend on what [fetch] and [JSON.parse] of the
    host would answer, only on the random draws. *)
Theorem unconfigured_ignores_network (h1 h2 : Host) (this : OpenAIService.Service)
  (userMessage recipes : string) (inventory : list Ingredient.t) (count : number)
  (chatHistory : list (string * string)) (st : nat) :
  OpenAIService.isConfigured this = false ->
  (forall i, Math_random h1 i = Math_random h2 i) ->
  OpenAIService.generateCocktailRecipe h1 this userMessage inventory st
  = OpenAIService.generateCocktailRecipe h2 this userMessage inventory st
  /\ OpenAIService.generateMultipleRecipes h1 this userMessage inventory count st
     = OpenAIService.generateMultipleRecipes h2 this userMessage inventory count st
  /\ OpenAIService.getChatResponse h1 this recipes chatHistory userMessage
     = OpenAIService.getChatResponse h2 this recipes chatHistory userMessage
  /\ OpenAIService.getChatResponse h1 this recipes chatHistory userMessage
     = Normal (VStr (OpenAIService.getFallbackChatResponse userMessage)).
Proof.
  intros Hc Hr. repeat split.
  - rewrite !generateCocktailRecipe_unconfigured by assumption.
    unfold OpenAIService.getFallbackRecipe. now rewrite Hr.
  - rewrite !generateMultipleRecipes_unconfigured by assumption.
    now apply fallbacks_ext.
  - unfold OpenAIService.getChatResponse. now rewrite Hc.
  - unfold OpenAIService.getChatResponse. now rewrite Hc.
Qed.

Lemma unconfigured_ignores_network_sample :
  OpenAIService.isConfigured Scenario.unconfigured = false
  /\ OpenAIService.generateMultipleRecipes Sample.offline Scenario.unconfigured
       "three recipes" Sample.bar (Some 3) 0%nat
     = OpenAIService.generateMultipleRecipes (Sample.answering Sample.spritz)
         Scenario.unconfigured "three recipes" Sample.bar (Some 3) 0%nat.
Proof.
  split; [reflexivity |].
  apply (unconfigured_ignores_network Sample.offline (Sample.answering Sample.spritz)
           Scenario.unconfigured "three recipes" "" Sample.bar (Some 3) [] 0%nat
           eq_refl (fun i => eq_refl)).
Defined.

(** *** More on validation *)

(** X6. When the content of a single-recipe call parses to one object that has no
    [recipes] array and carries the four fields, that object is returned, with
    only its glass coerced, and no fallback recipe is drawn. *)
Theorem single_object_accepted (h : Host) (this : OpenAIService.Service)
  (userMessage : string) (inventory : list Ingredient.t) (st : nat)
  (parsed : value) :
  OpenAIService.isConfigured this = true ->
  Spec.delivers h (fetch h (OpenAIService.request this userMessage inventory)) parsed ->
  (forall elems, get parsed "recipes" <> Normal (VArr elems)) ->
  Spec.all_four parsed = true ->
  OpenAIService.generateCocktailRecipe h this userMessage inventory st
  = (Normal (Spec.coerced parsed), st).
Proof.
  intros Hc Hd Hno H4.
  destruct (delivers_receive h _ parsed Hd) as [content [Hr Hp]].
  rewrite generateCocktailRecipe_cases by assumption.
  rewrite Hr. simpl bindC. rewrite parse_recipe_spec, Hp.
  assert (Hcand : Spec.candidate parsed = Some parsed).
  { unfold Spec.candidate.
    destruct (all_four_object parsed H4) as [fields [g [-> _]]].
    destruct (get (VObj fields) "recipes") as [[| | | | | elems |] |] eqn:E;
      try reflexivity.
    exfalso. now apply (Hno elems). }
  now rewrite Hcand, H4.
Qed.

Lemma single_object_accepted_sample :
  Spec.all_four Sample.spritz = true
  /\ OpenAIService.generateCocktailRecipe (Sample.answering Sample.spritz)
       OpenAIService.constructor "make me a spritz" Sample.bar 0%nat
     = (Normal (OpenAIService.recipe "Garden Spritz" "rocks"
                  "90ml Prosecco, 60ml Aperol, soda" "Build over ice and stir once"),
        0%nat).
Proof.
  split; [reflexivity |].
  apply (single_object_accepted (Sample.answering Sample.spritz)
           OpenAIService.constructor "make me a spritz" Sample.bar 0%nat
           Sample.spritz eq_refl).
  - exists 200, (Sample.envelope (VStr "(the answer)")), (VStr "(the answer)").
    repeat split.
  - intros elems. discriminate.
  - reflexivity.
Defined.

Lemma coerced_other_fields (v : value) (k : string) :
  k <> "glass" -> get (Spec.coerced v) k = get v k.
Proof.
  intros Hk. unfold Spec.coerced.
  destruct (Spec.glass_okb v); [reflexivity |].
  destruct v; try reflexivity.
  simpl. now rewrite lookup_assign_other.
Qed.

(** X7. Validation touches nothing but the glass.  On a recipe that carries the
    four fields, the check of the single-recipe path and the repair of the
    multi-recipe path give the same recipe: every field other than [glass]
    reads as before, a valid glass is left as it is, and any other glass reads
    ['rocks']. *)
Theorem validation_changes_only_glass (v : value) :
  Spec.all_four v = true ->
  exists r,
    OpenAIService.validate v = Normal r
    /\ OpenAIService.repair v = Normal r
    /\ (forall k, k <> "glass" -> get r k = get v k)
    /\ (Spec.glass_okb v = true -> r = v)
    /\ (Spec.glass_okb v = false -> get r "glass" = Normal (VStr "rocks")).
Proof.
  intros H4. exists (Spec.coerced v).
  split; [| split; [| split; [| split]]].
  - rewrite validate_spec, H4.
    destruct (all_four_object v H4) as [fields [g [-> _]]]. reflexivity.
  - now apply repair_complete.
  - intros k Hk. now apply coerced_other_fields.
  - intros Hok. unfold Spec.coerced. now rewrite Hok.
  - intros Hbad. unfold Spec.coerced. rewrite Hbad.
    destruct (all_four_object v H4) as [fields [g [-> _]]].
    simpl. now rewrite lookup_assign_same.
Qed.

Lemma validation_changes_only_glass_sample :
  exists r,
    OpenAIService.validate Sample.spritz = Normal r
    /\ OpenAIService.repair Sample.spritz = Normal r
    /\ (forall k, k <> "glass" -> get r k = get Sample.spritz k)
    /\ (Spec.glass_okb Sample.spritz = true -> r = Sample.spritz)
    /\ (Spec.glass_okb Sample.spritz = false -> get r "glass" = Normal (VStr "rocks")).
Proof. apply (validation_changes_only_glass Sample.spritz). reflexivity. Defined.

(** X8. Asked for at least one recipe, [generateMultipleRecipes] never returns an
    empty list, whatever the host does: an answer with no usable recipe is
    replaced by the fallback set. *)
Theorem at_least_one_recipe (h : Host) (this : OpenAIService.Service)
  (userMessage : string) (inventory : list Ingredient.t) (n : Z) (st : nat) :
  1 <= n ->
  exists rs st',
    OpenAIService.generateMultipleRecipes h this userMessage inventory (Some n) st
      = (Normal rs, st')
    /\ rs <> [].
Proof.
  intros Hn.
  destruct (fallback_many_spec h (Some n) st) as [fb [Hfb [Hlen _]]].
  assert (Hne : fb <> []) by (intros ->; simpl in Hlen; lia).
  destruct (OpenAIService.isConfigured this) eqn:Hc.
  - rewrite generateMultipleRecipes_cases by assumption.
    destruct (OpenAIService.validatedRecipes h _) as [[| x xs] | e]; eauto.
    exists (x :: xs), st. split; [reflexivity | discriminate].
  - rewrite generateMultipleRecipes_unconfigured by assumption. eauto.
Qed.

Lemma at_least_one_recipe_sample :
  exists rs st',
    OpenAIService.generateMultipleRecipes
      (Sample.answering (VObj [("recipes", VArr [Sample.nameless])]))
      OpenAIService.constructor "one recipe" Sample.bar (Some 1) 0%nat
      = (Normal rs, st')
    /\ rs <> [].
Proof.
  apply (at_least_one_recipe
           (Sample.answering (VObj [("recipes", VArr [Sample.nameless])]))
           OpenAIService.constructor "one recipe" Sample.bar 1 0%nat).
  lia.
Defined.

(** *** One send of the chat screen *)

Lemma generateMultipleRecipes_nonempty (h : Host) (this : OpenAIService.Service)
  (userMessage : string) (inventory : list Ingredient.t) (n : Z) (st : nat) :
  1 <= n ->
  exists rs st',
    OpenAIService.generateMultipleRecipes h this userMessage inventory (Some n) st
      = (Normal rs, st')
    /\ Forall Spec.glass_ok rs /\ (1 <= length rs)%nat.
Proof.
  intros Hn.
  destruct (generateMultipleRecipes_total h this userMessage inventory (Some n) st)
    as [rs [st' [Heq Hok]]].
  exists rs, st'. split; [exact Heq |]. split; [exact Hok |].
  destruct (fallback_many_spec h (Some n) st) as [fb [Hfb [Hlen _]]].
  destruct (OpenAIService.isConfigured this) eqn:Hc.
  - rewrite generateMultipleRecipes_cases in Heq by assumption.
    destruct (OpenAIService.validatedRecipes h _) as [[| x xs] | e];
      try (rewrite Hfb in Heq; injection Heq as <- _; lia).
    injection Heq as <- _. simpl. lia.
  - rewrite generateMultipleRecipes_unconfigured in Heq by assumption.
    rewrite Hfb in Heq. injection Heq as <- _. lia.
Qed.

Lemma getChatResponse_total (h : Host) (this : OpenAIService.Service)
  (recipes : string) (chatHistory : list (string * string)) (message : string) :
  exists text,
    OpenAIService.getChatResponse h this recipes chatHistory message = Normal text.
Proof.
  unfold OpenAIService.getChatResponse.
  destruct (negb (OpenAIService.isConfigured this)); [eauto |].
  destruct (OpenAIService.receive _); simpl; eauto.
Qed.

(** X9. What one send adds to the suggestions on screen: nothing for a blank input
    or while a request is outstanding; at least one recipe for a request
    classified as multiple; exactly one for any other request that mentions
    recipe, make or suggest; nothing otherwise.  Every recipe added has a
    valid glass, and the send never throws. *)
Theorem send_suggestion_count (h : Host) (this : OpenAIService.Service)
  (inputText : string) (isLoading : bool) (inventory : list Ingredient.t) (st : nat) :
  exists rs st',
    AIChatScreen.handleSend h this inputText isLoading inventory st = (Normal rs, st')
    /\ Forall Spec.glass_ok rs
    /\ (if String.eqb (Str.trim inputText) "" || isLoading
        then rs = [] /\ st' = st
        else if AIChatScreen.requestsMultiple (Str.trim inputText)
                || OpenAIService.gt (AIChatScreen.requestedCount (Str.trim inputText))
                     (Some 1)
        then (1 <= length rs)%nat
        else if AIChatScreen.asksForRecipe (Str.trim inputText)
        then length rs = 1%nat
        else rs = [] /\ st' = st).
Proof.
  unfold AIChatScreen.handleSend. cbn [truthy]. rewrite negb_involutive.
  destruct (String.eqb (Str.trim inputText) "" || isLoading).
  { exists [], st. repeat split. constructor. }
  generalize (Str.trim inputText) as userMessage. intros userMessage.
  unfold AIChatScreen.suggestions.
  destruct (AIChatScreen.requestsMultiple userMessage
            || OpenAIService.gt (AIChatScreen.requestedCount userMessage) (Some 1)).
  - rewrite try_generateMultipleRecipes.
    destruct (screen_count_range userMessage) as [N [-> [HN _]]].
    destruct (generateMultipleRecipes_nonempty h this userMessage inventory N st HN)
      as [rs [st' [Heq [Hok Hlen]]]].
    eauto.
  - destruct (AIChatScreen.asksForRecipe userMessage).
    + destruct (generateCocktailRecipe_total h this userMessage inventory st)
        as [r [st' [Heq [Hok _]]]].
      exists [r], st'. unfold try_catchM, bind, ret. rewrite Heq.
      repeat split. now constructor.
    + exists [], st. repeat split. constructor.
Qed.

(** X10. The reply of one send.  The recipes are those of [suggestions]; a request
    that is not classified as multiple is answered with the empty text, the
    narrative call being made only for a request classified as multiple, whose
    reply is what [getChatResponse] returns for the recipes just generated. *)
Theorem reply_of_send (stringify : value -> string) (h : Host)
  (this : OpenAIService.Service) (userMessage : string)
  (inventory : list Ingredient.t) (messages : list ChatMessage.t) (st : nat) :
  exists text rs st',
    AIChatScreen.respond stringify h this userMessage inventory messages st
      = (Normal (text, rs), st')
    /\ AIChatScreen.suggestions h this userMessage inventory st = (Normal rs, st')
    /\ (if AIChatScreen.requestsMultiple userMessage
           || OpenAIService.gt (AIChatScreen.requestedCount userMessage) (Some 1)
        then OpenAIService.getChatResponse h this
               (stringify (VObj [("recipes", VArr rs)]))
               (AIChatScreen.chatHistory messages) userMessage
             = Normal text
        else text = VStr "").
Proof.
  unfold AIChatScreen.respond, AIChatScreen.suggestions.
  destruct (AIChatScreen.requestsMultiple userMessage
            || OpenAIService.gt (AIChatScreen.requestedCount userMessage) (Some 1)).
  - rewrite try_generateMultipleRecipes.
    destruct (generateMultipleRecipes_total h this userMessage inventory
                (AIChatScreen.count userMessage) st) as [rs [st' [Heq _]]].
    destruct (getChatResponse_total h this (stringify (VObj [("recipes", VArr rs)]))
                (AIChatScreen.chatHistory messages) userMessage) as [text Ht].
    exists text, rs, st'. unfold try_catchM, bind, lift, ret.
    rewrite Heq, Ht. auto.
  - destruct (AIChatScreen.asksForRecipe userMessage).
    + destruct (generateCocktailRecipe_total h this userMessage inventory st)
        as [r [st' [Heq _]]].
      exists (VStr ""), [r], st'. unfold try_catchM, bind, ret. rewrite Heq. auto.
    + exists (VStr ""), [], st. auto.
Qed.

(** *** The recipe store *)

Lemma well_formed_empty : Store.well_formed DatabaseService.empty.
Proof. split; constructor. Qed.

Lemma well_formed_insert (tbl : DatabaseService.Table) (r : Recipe.without_id) :
  Store.well_formed tbl ->
  Store.well_formed (snd (DatabaseService.insert tbl r))
  /\ ~ In (DatabaseService.last_id tbl + 1) (Store.ids tbl).
Proof.
  intros [Hle Hnd].
  assert (Hfresh : ~ In (DatabaseService.last_id tbl + 1) (Store.ids tbl)).
  { unfold Store.ids. rewrite in_map_iff. intros [x [Hx Hin]].
    rewrite Forall_forall in Hle. specialize (Hle x Hin). lia. }
  split; [| exact Hfresh]. split; simpl.
  - apply Forall_app. split.
    + eapply Forall_impl; [| exact Hle]. simpl. intros x Hx. lia.
    + repeat constructor. simpl. lia.
  - unfold Store.ids. simpl. rewrite map_app. simpl.
    apply NoDup_app; [exact Hnd | repeat constructor; intros [] |].
    intros x Hx [<- | []]. now apply Hfresh.
Qed.

Lemma well_formed_delete (tbl : DatabaseService.Table) (id : Z) :
  Store.well_formed tbl -> Store.well_formed (DatabaseService.delete tbl id).
Proof.
  intros [Hle Hnd]. split; simpl.
  - rewrite Forall_forall in *. intros x Hx. apply filter_In in Hx. now apply Hle.
  - unfold Store.ids in *. simpl.
    induction (DatabaseService.rows tbl) as [| x rest IH]; simpl; [constructor |].
    inversion_clear Hnd as [| ? ? Hx Hrest]. inversion_clear Hle as [| ? ? Hx' Hle'].
    destruct (negb (Recipe.id x =? id)); simpl; [| now apply IH].
    constructor; [| now apply IH].
    rewrite in_map_iff. intros [y [Hy Hin]]. apply filter_In in Hin.
    apply Hx. rewrite in_map_iff. exists y. tauto.
Qed.

Lemma app_written_delete (tbl : DatabaseService.Table) (id : Z) :
  forallb Store.app_written (DatabaseService.rows tbl) = true ->
  forallb Store.app_written (DatabaseService.rows (DatabaseService.delete tbl id)) = true.
Proof.
  rewrite !forallb_forall. intros H x Hx. simpl in Hx.
  apply filter_In in Hx. now apply H.
Qed.

Lemma app_written_insert (tbl : DatabaseService.Table) (r : Recipe.without_id) :
  forallb Store.app_written (DatabaseService.rows tbl) = true ->
  String.eqb (Recipe.source' r) "AI Generated"
  || String.eqb (Recipe.source' r) "Manual Entry" = true ->
  forallb Store.app_written (DatabaseService.rows (snd (DatabaseService.insert tbl r)))
  = true.
Proof.
  intros H Hr. simpl. rewrite forallb_app, H. simpl.
  unfold Store.app_written. simpl. now rewrite Hr.
Qed.

(** What one step of each screen action does to an initialised store. *)
Lemma handleSaveRecipe_store (now : string) (tbl : DatabaseService.Table)
  (recipe : RecipeSuggestion.t) :
  exists r,
    Recipe.source' r = "AI Generated"
    /\ fst (AIChatScreen.handleSaveRecipe now (Some tbl) recipe)
       = Some (snd (DatabaseService.insert tbl r)).
Proof. eexists. split; [| reflexivity]. reflexivity. Qed.

Lemma handleAddRecipe_store (now : string) (tbl : DatabaseService.Table)
  (s : RecipeCollectionScreen.State) :
  fst (fst (RecipeCollectionScreen.handleAddRecipe now (Some tbl) s)) = Some tbl
  \/ exists r,
       Recipe.source' r = "Manual Entry"
       /\ fst (fst (RecipeCollectionScreen.handleAddRecipe now (Some tbl) s))
          = Some (snd (DatabaseService.insert tbl r)).
Proof.
  unfold RecipeCollectionScreen.handleAddRecipe.
  destruct (_ || _); [left; reflexivity |].
  right. eexists. split; [| reflexivity]. reflexivity.
Qed.

Lemma handleDeleteRecipe_store (tbl : DatabaseService.Table)
  (s : RecipeCollectionScreen.State) (id : Z) :
  fst (fst (RecipeCollectionScreen.handleDeleteRecipe (Some tbl) s id))
  = Some (DatabaseService.delete tbl id).
Proof. reflexivity. Qed.

Lemma reachable_invariant (db : DatabaseService.Handle) :
  Store.reachable db ->
  exists tbl,
    db = Some tbl
    /\ Store.well_formed tbl
    /\ forallb Store.app_written (DatabaseService.rows tbl) = true.
Proof.
  induction 1 as [| db now recipe _ [tbl [-> [Hwf Happ]]]
                  | db now s _ [tbl [-> [Hwf Happ]]]
                  | db s id _ [tbl [-> [Hwf Happ]]]].
  - exists DatabaseService.empty. auto using well_formed_empty.
  - destruct (handleSaveRecipe_store now tbl recipe) as [r [Hsrc ->]].
    eexists. split; [reflexivity |]. split.
    + now apply well_formed_insert.
    + apply app_written_insert; [exact Happ |]. now rewrite Hsrc.
  - destruct (handleAddRecipe_store now tbl s) as [-> | [r [Hsrc ->]]].
    + eauto.
    + eexists. split; [reflexivity |]. split.
      * now apply well_formed_insert.
      * apply app_written_insert; [exact Happ |]. now rewrite Hsrc.
  - rewrite handleDeleteRecipe_store.
    eexists. split; [reflexivity |]. split.
    + now apply well_formed_delete.
    + now apply app_written_delete.
Qed.

Lemma reachable_two_saved : Store.reachable Scenario.two_saved.
Proof.
  unfold Scenario.two_saved. apply Store.reach_save, Store.reach_save, Store.reach_init.
Qed.

(** X11. In every state of the recipe store that the screens can bring about, the
    rows have distinct ids, none above the counter of the table.  An insert
    takes the id after the counter, also when rows were deleted before, so no
    id is ever given a second time. *)
Theorem ids_are_never_reused (db : DatabaseService.Handle) :
  Store.reachable db ->
  exists tbl,
    db = Some tbl
    /\ NoDup (Store.ids tbl)
    /\ Forall (fun r => Recipe.id r <= DatabaseService.last_id tbl)
         (DatabaseService.rows tbl)
    /\ forall (deleted : Z) (recipe : Recipe.without_id),
         exists db',
           DatabaseService.addRecipe
             (Some (DatabaseService.delete tbl deleted)) recipe
           = Normal (DatabaseService.last_id tbl + 1, db')
           /\ ~ In (DatabaseService.last_id tbl + 1) (Store.ids tbl).
Proof.
  intros Hreach.
  destruct (reachable_invariant db Hreach) as [tbl [-> [Hwf _]]].
  exists tbl. split; [reflexivity |].
  destruct Hwf as [Hle Hnd]. split; [exact Hnd |]. split; [exact Hle |].
  intros deleted recipe. eexists. split; [reflexivity |].
  now apply (well_formed_insert tbl recipe (conj Hle Hnd)).
Qed.

Lemma ids_are_never_reused_sample :
  Store.reachable Scenario.two_saved
  /\ exists tbl,
       Scenario.two_saved = Some tbl
       /\ NoDup (Store.ids tbl)
       /\ Forall (fun r => Recipe.id r <= DatabaseService.last_id tbl)
            (DatabaseService.rows tbl)
       /\ forall (deleted : Z) (recipe : Recipe.without_id),
            exists db',
              DatabaseService.addRecipe
                (Some (DatabaseService.delete tbl deleted)) recipe
              = Normal (DatabaseService.last_id tbl + 1, db')
              /\ ~ In (DatabaseService.last_id tbl + 1) (Store.ids tbl).
Proof.
  split; [exact reachable_two_saved |].
  apply (ids_are_never_reused Scenario.two_saved reachable_two_saved).
Defined.

Lemma filter_keeps_older (rows : list Recipe.t) (id : Z) :
  Forall (fun r => Recipe.id r < id) rows ->
  filter (fun r => negb (Recipe.id r =? id)) rows = rows.
Proof.
  induction 1 as [| x rest Hx _ IH]; simpl; [reflexivity |].
  assert (E : (Recipe.id x =? id) = false) by (apply Z.eqb_neq; lia).
  now rewrite E, IH.
Qed.

(** X12. Adding a recipe and then deleting the row with the id that [addRecipe]
    returned leaves the collection as it was: [getAllRecipes] lists the same
    recipes in the same order. *)
Theorem add_then_delete (db : DatabaseService.Handle) (recipe : Recipe.without_id) :
  Store.reachable db ->
  exists id db' db'',
    DatabaseService.addRecipe db recipe = Normal (id, db')
    /\ DatabaseService.deleteRecipe db' id = Normal db''
    /\ DatabaseService.getAllRecipes db'' = DatabaseService.getAllRecipes db.
Proof.
  intros Hreach.
  destruct (reachable_invariant db Hreach) as [tbl [-> [[Hle _] _]]].
  do 3 eexists. split; [reflexivity |]. split; [reflexivity |].
  simpl. f_equal. f_equal.
  rewrite filter_app. simpl. rewrite Z.eqb_refl. simpl. rewrite app_nil_r.
  apply filter_keeps_older.
  eapply Forall_impl; [| exact Hle]. simpl. intros x Hx. lia.
Qed.

Lemma add_then_delete_sample :
  exists id db' db'',
    DatabaseService.addRecipe Scenario.two_saved
      {| Recipe.name' := "Gimlet"; Recipe.ingredients' := "60ml Gin";
         Recipe.instructions' := "Stir"; Recipe.glass' := "coupe";
         Recipe.source' := "Manual Entry"; Recipe.dateAdded' := "2025-03-03" |}
      = Normal (id, db')
    /\ DatabaseService.deleteRecipe db' id = Normal db''
    /\ DatabaseService.getAllRecipes db''
       = DatabaseService.getAllRecipes Scenario.two_saved.
Proof.
  apply (add_then_delete Scenario.two_saved _ reachable_two_saved).
Defined.

Lemma ltb_flip (a b : string) : String.ltb a b = true -> String.ltb b a = false.
Proof.
  unfold String.ltb. rewrite (String.compare_antisym b a).
  destruct (String.compare a b); simpl; congruence.
Qed.

Lemma insert_desc_sorted (r : Recipe.t) (l : list Recipe.t) :
  Sorted Store.newest_first l ->
  Sorted Store.newest_first (DatabaseService.insert_desc r l).
Proof.
  induction 1 as [| x rest Hrest IH Hhd]; simpl.
  - repeat constructor.
  - destruct (String.ltb (Recipe.dateAdded r) (Recipe.dateAdded x)) eqn:E.
    + constructor; [exact IH |]. apply ltb_flip in E.
      destruct rest as [| y rest']; simpl.
      * constructor. exact E.
      * destruct (String.ltb (Recipe.dateAdded r) (Recipe.dateAdded y));
          constructor; [| exact E].
        now inversion Hhd.
    + constructor; [now constructor |]. constructor. exact E.
Qed.

(** X13. [getAllRecipes] lists every stored recipe, each row once, newest first:
    no recipe in the list is followed by one with a later [dateAdded]. *)
Theorem recipes_listed_newest_first (tbl : DatabaseService.Table) :
  exists loaded,
    DatabaseService.getAllRecipes (Some tbl) = Normal loaded
    /\ Sorted Store.newest_first loaded
    /\ Permutation loaded (DatabaseService.rows tbl).
Proof.
  eexists. split; [reflexivity |]. split; [| apply order_by_perm].
  unfold DatabaseService.order_by_dateAdded_desc.
  induction (DatabaseService.rows tbl) as [| x rest IH]; simpl.
  - constructor.
  - now apply insert_desc_sorted.
Qed.

(** Recipes of the same day are listed in the order of their insertion,
    recipes of different days newest first. *)
Lemma same_day_in_insertion_order :
  (exists loaded,
     DatabaseService.getAllRecipes Scenario.same_day = Normal loaded
     /\ map Recipe.id loaded = [1; 2])
  /\ (exists loaded,
        DatabaseService.getAllRecipes Scenario.two_saved = Normal loaded
        /\ map Recipe.id loaded = [2; 1]).
Proof. split; eexists; split; reflexivity. Qed.

Lemma stats_add_up (l : list Recipe.t) :
  forallb Store.app_written l = true ->
  length l
  = (length (filter (fun r => String.eqb (Recipe.source r) "AI Generated") l)
     + length (filter (fun r => String.eqb (Recipe.source r) "Manual Entry") l))%nat.
Proof.
  induction l as [| x rest IH]; simpl; [reflexivity |].
  intros H. apply andb_prop in H. destruct H as [Hx Hrest].
  rewrite (IH Hrest) at 1. unfold Store.app_written in Hx.
  destruct (String.eqb (Recipe.source x) "AI Generated") eqn:Ea.
  - apply String.eqb_eq in Ea. rewrite Ea. simpl. lia.
  - simpl in Hx. rewrite Hx. simpl. lia.
Qed.

(** X14. The three counters of the collection screen add up: in every state of the
    store that the screens can bring about, each recipe is either AI generated
    or a manual entry, so after [loadRecipes] the total shown by [getStats] is
    the sum of the two other counters. *)
Theorem stats_partition (db : DatabaseService.Handle)
  (s : RecipeCollectionScreen.State) :
  Store.reachable db ->
  exists s',
    RecipeCollectionScreen.loadRecipes db s = (s', [])
    /\ RecipeCollectionScreen.totalRecipes (RecipeCollectionScreen.getStats s')
       = (RecipeCollectionScreen.aiRecipes (RecipeCollectionScreen.getStats s')
          + RecipeCollectionScreen.manualRecipes (RecipeCollectionScreen.getStats s'))%nat
    /\ exists tbl,
         db = Some tbl
         /\ RecipeCollectionScreen.totalRecipes (RecipeCollectionScreen.getStats s')
            = length (DatabaseService.rows tbl).
Proof.
  intros Hreach.
  destruct (reachable_invariant db Hreach) as [tbl [-> [_ Happ]]].
  eexists. split; [reflexivity |].
  pose proof (order_by_perm (DatabaseService.rows tbl)) as Hperm.
  split.
  - apply stats_add_up. simpl.
    rewrite forallb_forall in *. intros x Hx. apply Happ.
    eapply Permutation_in; [exact Hperm | exact Hx].
  - exists tbl. split; [reflexivity |]. simpl.
    now apply Permutation_length.
Qed.

Lemma stats_partition_sample :
  exists s',
    RecipeCollectionScreen.loadRecipes Scenario.two_saved Scenario.form = (s', [])
    /\ RecipeCollectionScreen.totalRecipes (RecipeCollectionScreen.getStats s')
       = (RecipeCollectionScreen.aiRecipes (RecipeCollectionScreen.getStats s')
          + RecipeCollectionScreen.manualRecipes (RecipeCollectionScreen.getStats s'))%nat
    /\ exists tbl,
         Scenario.two_saved = Some tbl
         /\ RecipeCollectionScreen.totalRecipes (RecipeCollectionScreen.getStats s')
            = length (DatabaseService.rows tbl).
Proof.
  apply (stats_partition Scenario.two_saved Scenario.form reachable_two_saved).
Defined.

(** *** Trimming *)

Lemma trimStart_split (s : string) :
  exists pre,
    s = pre ++ Str.trimStart s
    /\ Spec.blank pre
    /\ Str.white_length (Str.trimStart s) = 0%nat.
Proof.
  induction s as [s Hz | w t Hw [pre [Ht [Hpre Hhead]]]] using white_ind.
  - exists "". rewrite (trimStart_other s Hz). repeat split; [constructor | exact Hz].
  - exists (w ++ pre). rewrite (trimStart_white w t Hw).
    split; [now rewrite append_assoc, <- Ht |]. split; [now constructor | exact Hhead].
Qed.

Lemma trimEnd_split (s : string) :
  exists post, s = Str.trimEnd s ++ post /\ Str.blank post = true.
Proof.
  induction s as [| c s [post [Hs Hpost]]]; [exists ""; split; reflexivity |].
  cbn [Str.trimEnd]. destruct (Str.blank (String c s)) eqn:Hb.
  - exists (String c s). split; [reflexivity | exact Hb].
  - exists post. split; [simpl; now rewrite <- Hs | exact Hpost].
Qed.

Lemma trimEnd_empty (s : string) : Str.trimEnd s = "" <-> Str.blank s = true.
Proof.
  destruct s as [| c s]; [split; reflexivity |].
  cbn [Str.trimEnd]. destruct (Str.blank (String c s)); split;
    (reflexivity || discriminate).
Qed.

Lemma white_not_nil : ~ In "" Spec.white_space.
Proof. intros H. apply white_not_empty in H. simpl in H. lia. Qed.

(** What [trimEnd] returns does not end with white space. *)
Lemma trimEnd_no_trailing (s body w : string) :
  In w Spec.white_space -> Str.trimEnd s <> body ++ w.
Proof.
  intros Hw. revert body. induction s as [| c s IH]; intros body E.
  - destruct body; simpl in E; [| discriminate].
    subst w. now apply white_not_nil.
  - cbn [Str.trimEnd] in E. destruct (Str.blank (String c s)) eqn:Hb.
    + destruct body; simpl in E; [| discriminate].
      subst w. now apply white_not_nil.
    + destruct body as [| c' body']; simpl in E.
      * destruct (trimEnd_split s) as [post [Hs Hpost]].
        assert (Hall : String c s = w ++ post).
        { rewrite <- E. simpl. now rewrite <- Hs. }
        rewrite Hall, (blank_white w post Hw), Hpost in Hb. discriminate.
      * injection E as _ E. now apply IH in E.
Qed.

Lemma trimStart_blank (s : string) :
  Str.blank (Str.trimStart s) = Str.blank s.
Proof.
  destruct (trimStart_split s) as [pre [Hs [Hpre _]]].
  rewrite Hs at 2. now rewrite (blank_app pre _ Hpre).
Qed.

Lemma trim_blank (s : string) : Str.blank s = true -> Str.trim s = "".
Proof.
  intros H. unfold Str.trim. apply trimEnd_empty. now rewrite trimStart_blank.
Qed.

Lemma trim_stripped (s : string) :
  Str.blank s = false -> Store.stripped s (Str.trim s).
Proof.
  intros H. unfold Str.trim.
  destruct (trimStart_split s) as [pre [Hs [Hpre Hhead]]].
  set (X := Str.trimStart s) in *.
  assert (HX : Str.blank X = false) by (unfold X; now rewrite trimStart_blank).
  destruct (trimEnd_split X) as [post [HY Hpost]].
  split; [| split; [| split]].
  - exists pre, post. split; [now rewrite <- HY | ].
    split; [exact Hpre | now apply blank_spec].
  - intros E. apply trimEnd_empty in E. congruence.
  - intros w rest Hw E.
    rewrite HY, E, append_assoc, (white_length_In w _ Hw) in Hhead.
    pose proof (white_not_empty w Hw). lia.
  - intros w body Hw. now apply trimEnd_no_trailing.
Qed.

(** *** The form of the collection screen *)

Lemma truthy_trim (s : string) :
  negb (truthy (VStr (Str.trim s))) = Str.blank s.
Proof.
  cbn [truthy]. rewrite negb_involutive.
  destruct (Str.blank s) eqn:H.
  - now rewrite (trim_blank s H).
  - destruct (trim_stripped s H) as [_ [Hne _]].
    destruct (Str.trim s); [contradiction | reflexivity].
Qed.

(** X15. [handleAddRecipe] writes nothing when the name, the ingredients or the
    instructions are blank (empty or white space only) and says so.  Otherwise,
    on an initialised store, it appends one row whose three texts are the
    entries without the white space around them, with the glass selected, the
    source ["Manual Entry"] and the date of the day, clears the form and
    reloads the list, which then shows the row; on a store that was not
    initialised it reports the failure and leaves store and form as they were.
    Blank is decided by [Str.blank]: a run of white-space characters. *)
Theorem add_recipe_form (now : string) (db : DatabaseService.Handle)
  (s : RecipeCollectionScreen.State) :
  (forall text, Str.blank text = true <-> Spec.blank text)
  /\ if Str.blank (RecipeCollectionScreen.name s)
        || Str.blank (RecipeCollectionScreen.ingredients s)
        || Str.blank (RecipeCollectionScreen.instructions s)
     then RecipeCollectionScreen.handleAddRecipe now db s
          = (db, s,
             [RecipeCollectionScreen.notice "Error" "Please complete all required fields"])
     else
       match db with
       | None =>
           RecipeCollectionScreen.handleAddRecipe now db s
           = (db, s, [RecipeCollectionScreen.notice "Error" "Failed to add recipe"])
       | Some tbl =>
           exists saved loaded,
             RecipeCollectionScreen.handleAddRecipe now db s
             = (Some {| DatabaseService.rows := (DatabaseService.rows tbl ++ [saved])%list;
                        DatabaseService.last_id := DatabaseService.last_id tbl + 1 |},
                {| RecipeCollectionScreen.recipes := loaded;
                   RecipeCollectionScreen.showForm := false;
                   RecipeCollectionScreen.name := "";
                   RecipeCollectionScreen.ingredients := "";
                   RecipeCollectionScreen.instructions := "";
                   RecipeCollectionScreen.selectedGlass := "rocks" |},
                [RecipeCollectionScreen.notice "Success" "Recipe added to collection"])
             /\ In saved loaded
             /\ Permutation loaded (saved :: DatabaseService.rows tbl)
             /\ Store.stripped (RecipeCollectionScreen.name s) (Recipe.name saved)
             /\ Store.stripped (RecipeCollectionScreen.ingredients s)
                  (Recipe.ingredients saved)
             /\ Store.stripped (RecipeCollectionScreen.instructions s)
                  (Recipe.instructions saved)
             /\ Recipe.glass saved = RecipeCollectionScreen.selectedGlass s
             /\ Recipe.source saved = "Manual Entry"
             /\ Recipe.dateAdded saved = Str.before "T" now
       end.
Proof.
  split; [exact blank_spec |].
  unfold RecipeCollectionScreen.handleAddRecipe. rewrite !truthy_trim.
  destruct (Str.blank (RecipeCollectionScreen.name s)) eqn:H1;
    [reflexivity |].
  destruct (Str.blank (RecipeCollectionScreen.ingredients s)) eqn:H2;
    [reflexivity |].
  destruct (Str.blank (RecipeCollectionScreen.instructions s)) eqn:H3;
    [reflexivity |].
  cbn [orb]. cbv iota.
  destruct db as [tbl |]; [| reflexivity].
  set (saved := DatabaseService.row (DatabaseService.last_id tbl + 1)
                  {| Recipe.name' := Str.trim (RecipeCollectionScreen.name s);
                     Recipe.ingredients' := Str.trim (RecipeCollectionScreen.ingredients s);
                     Recipe.instructions' := Str.trim (RecipeCollectionScreen.instructions s);
                     Recipe.glass' := RecipeCollectionScreen.selectedGlass s;
                     Recipe.source' := "Manual Entry";
                     Recipe.dateAdded' := Str.before "T" now |}).
  assert (Hperm : Permutation
            (DatabaseService.order_by_dateAdded_desc
               (DatabaseService.rows tbl ++ [saved])%list)
            (saved :: DatabaseService.rows tbl)).
  { rewrite order_by_perm. rewrite Permutation_app_comm. reflexivity. }
  exists saved, (DatabaseService.order_by_dateAdded_desc
                   (DatabaseService.rows tbl ++ [saved])%list).
  split; [reflexivity |]. split.
  { eapply Permutation_in; [symmetry; exact Hperm | left; reflexivity]. }
  split; [exact Hperm |].
  split; [exact (trim_stripped _ H1) |].
  split; [exact (trim_stripped _ H2) |].
  split; [exact (trim_stripped _ H3) |].
  repeat split.
Qed.

(** A name that is one no-break space is blank: nothing is written. *)
Lemma blank_name_refused :
  let s := {| RecipeCollectionScreen.recipes := [];
              RecipeCollectionScreen.showForm := true;
              RecipeCollectionScreen.name := Sample.no_break_space;
              RecipeCollectionScreen.ingredients := "60ml Gin";
              RecipeCollectionScreen.instructions := "Stir";
              RecipeCollectionScreen.selectedGlass := "coupe" |} in
  RecipeCollectionScreen.handleAddRecipe "2025-03-03T10:00:00.000Z"
    (Some DatabaseService.empty) s
  = (Some DatabaseService.empty, s,
     [RecipeCollectionScreen.notice "Error" "Please complete all required fields"]).
Proof. reflexivity. Qed.

(** *** The chat history *)

Lemma insert_asc_perm (m : ChatMessage.t) (l : list ChatMessage.t) :
  Permutation (DatabaseService.insert_asc m l) (m :: l).
Proof.
  induction l as [| x rest IH]; simpl; [reflexivity |].
  destruct (String.ltb _ _); [| reflexivity].
  rewrite IH. apply perm_swap.
Qed.

Lemma order_by_timestamp_perm (l : list ChatMessage.t) :
  Permutation (DatabaseService.order_by_timestamp_asc l) l.
Proof.
  unfold DatabaseService.order_by_timestamp_asc.
  induction l as [| x rest IH]; simpl; [reflexivity |].
  rewrite insert_asc_perm. now constructor.
Qed.

Lemma insert_asc_sorted (m : ChatMessage.t) (l : list ChatMessage.t) :
  Sorted Store.oldest_first l ->
  Sorted Store.oldest_first (DatabaseService.insert_asc m l).
Proof.
  induction 1 as [| x rest Hrest IH Hhd]; simpl.
  - repeat constructor.
  - destruct (String.ltb (ChatMessage.timestamp x) (ChatMessage.timestamp m)) eqn:E.
    + constructor; [exact IH |]. apply ltb_flip in E.
      destruct rest as [| y rest']; simpl.
      * constructor. exact E.
      * destruct (String.ltb (ChatMessage.timestamp y) (ChatMessage.timestamp m));
          constructor; [| exact E].
        now inversion Hhd.
    + constructor; [now constructor |]. constructor. exact E.
Qed.

Lemma order_by_timestamp_sorted (l : list ChatMessage.t) :
  Sorted Store.oldest_first (DatabaseService.order_by_timestamp_asc l).
Proof.
  unfold DatabaseService.order_by_timestamp_asc.
  induction l as [| x rest IH]; simpl; [constructor | now apply insert_asc_sorted].
Qed.

(** X16. [loadChatHistory] on an initialised store shows the stored messages, every
    one of them once and oldest first, and exactly the welcome message when
    none is stored; the suggestions on screen stay as they are.  On a store
    that was not initialised the screen is left unchanged. *)
Theorem chat_history_shown (now : string) (db : DatabaseService.ChatHandle)
  (s : AIChatScreen.State) :
  match db with
  | None => AIChatScreen.loadChatHistory now db s = s
  | Some tbl =>
      AIChatScreen.recipeSuggestions (AIChatScreen.loadChatHistory now db s)
      = AIChatScreen.recipeSuggestions s
      /\ match DatabaseService.chat_rows tbl with
         | [] =>
             AIChatScreen.messages (AIChatScreen.loadChatHistory now db s)
             = [AIChatScreen.welcomeMsg now]
         | _ :: _ =>
             Sorted Store.oldest_first
               (AIChatScreen.messages (AIChatScreen.loadChatHistory now db s))
             /\ Permutation
                  (AIChatScreen.messages (AIChatScreen.loadChatHistory now db s))
                  (DatabaseService.chat_rows tbl)
         end
  end.
Proof.
  destruct db as [tbl |]; [| reflexivity].
  unfold AIChatScreen.loadChatHistory. cbn [DatabaseService.getChatHistory].
  pose proof (order_by_timestamp_perm (DatabaseService.chat_rows tbl)) as Hperm.
  pose proof (order_by_timestamp_sorted (DatabaseService.chat_rows tbl)) as Hsorted.
  destruct (DatabaseService.chat_rows tbl) as [| x rest] eqn:Hrows.
  - split; reflexivity.
  - destruct (DatabaseService.order_by_timestamp_asc (x :: rest)) as [| y sorted] eqn:E.
    + apply Permutation_length in Hperm. discriminate.
    + cbn [length Nat.eqb AIChatScreen.messages AIChatScreen.recipeSuggestions].
      auto.
Qed.

(** X17. Clearing the history empties the conversation store and the suggestions
    on screen together, and the reload that follows shows exactly the welcome
    message; when the store cannot be cleared, a notice is shown and store
    and screen stay as they were. *)
Theorem history_cleared (now : string) (db : DatabaseService.ChatHandle)
  (s : AIChatScreen.State) :
  match db with
  | None =>
      AIChatScreen.handleClearHistory now db s
      = (db, s, Some {| AIChatScreen.title := "Error";
                        AIChatScreen.message := "Failed to clear history" |})
  | Some tbl =>
      exists db',
        AIChatScreen.handleClearHistory now db s
        = (db',
           {| AIChatScreen.messages := [AIChatScreen.welcomeMsg now];
              AIChatScreen.recipeSuggestions := [] |},
           None)
        /\ DatabaseService.getChatHistory db' = Normal []
        /\ forall message,
             exists db'',
               DatabaseService.addChatMessage db' message = Normal db''
               /\ exists m,
                    DatabaseService.getChatHistory db'' = Normal [m]
                    /\ ChatMessage.id m = DatabaseService.chat_last_id tbl + 1
  end.
Proof.
  destruct db as [tbl |]; [| reflexivity].
  eexists. split; [reflexivity |]. split; [reflexivity |].
  intros message. eexists. split; [reflexivity |].
  eexists. split; reflexivity.
Qed.
